(** * react-docxodus-viewer: the viewer's glue logic

    A shallow embedding of the parts of the repository that decide what the
    user sees: the revision panel (filtering, truncation), the option mapping
    of the two document viewers, their conversion handlers and error paths,
    the routing of engine calls through the worker proxy, the toolbar and the
    settings modal, the zoom controls, and the development-server middleware
    that serves the WASM files.

    The document engine ([docxodus]), React and Node's [fs]/[path] are
    collaborators outside the repository: they appear as type-class
    parameters, and an engine call is an event whose outcome (fulfilled or
    rejected) is supplied from outside.

    Part I holds the definitions, module by module after the source files;
    Part II the lemmas and theorems. *)

From Stdlib Require Import String Ascii List ZArith QArith Qminmax Bool Lia Lqa.
Import ListNotations.

#[local] Open Scope string_scope.
#[local] Open Scope list_scope.

(* ================================================================== *)
(** * Part I: the model *)
(* ================================================================== *)

(** ** JavaScript values shared by the components *)

Module Js.

(** A JavaScript string whose [length] and [substring] matter is kept as its
    sequence of UTF-16 code units. *)
Definition code_unit := N.
Definition js_string := list code_unit.

Definition js_length (s : js_string) : Z := Z.of_nat (List.length s).

(** [String.prototype.substring(start, end)]: both indices are clamped to
    [0, length] and swapped when [start > end]. *)
Definition clamp_index (len i : Z) : Z := Z.min (Z.max i 0) len.

Definition substring (s : js_string) (start stop : Z) : js_string :=
  let len := js_length s in
  let a := clamp_index len start in
  let b := clamp_index len stop in
  let lo := Z.min a b in
  let hi := Z.max a b in
  firstn (Z.to_nat (hi - lo)) (skipn (Z.to_nat lo) s).

(** The literal ['...']. *)
Definition dots : js_string := [46%N; 46%N; 46%N].

(** An [Error] object, as far as the components look at it. *)
Record JsError := mkError { message : string }.

(** What a [catch] clause can receive: an [Error] instance, or any other
    value, kept as the string [String(err)] gives for it. *)
Inductive Thrown :=
| ThrownError (e : JsError)
| ThrownValue (repr : string).

(** [err instanceof Error ? err : new Error(String(err))] *)
Definition toError (t : Thrown) : JsError :=
  match t with
  | ThrownError e => e
  | ThrownValue repr => mkError repr
  end.

(** [err instanceof Error ? err : new Error(fallback)] *)
Definition toErrorOr (fallback : string) (t : Thrown) : JsError :=
  match t with
  | ThrownError e => e
  | ThrownValue _ => mkError fallback
  end.

(** How an awaited promise settles. *)
Inductive Settled (A : Type) :=
| Fulfilled (a : A)
| Rejected (t : Thrown).
Arguments Fulfilled {A} a.
Arguments Rejected {A} t.

End Js.

(** ** src/components/RevisionPanel.tsx *)

Module RevisionPanel.
Import Js.

Record Revision := mkRevision {
  author : string;
  date : string;
  revisionType : string;
  text : js_string;
  moveGroupId : option Z;
  isMoveSource : option bool
}.

(** The type guards imported from the engine's package. *)
Class Docxodus := {
  isInsertion : Revision -> bool;
  isDeletion : Revision -> bool;
  isMove : Revision -> bool;
  isFormatChange : Revision -> bool
}.

(** [type FilterType = 'all' | 'insertions' | 'deletions' | 'moves' | 'formatting'],
    the values of the five [<option>]s of the filter dropdown. *)
Inductive FilterType := FAll | FInsertions | FDeletions | FMoves | FFormatting.

Definition filter_value (f : FilterType) : string :=
  match f with
  | FAll => "all"
  | FInsertions => "insertions"
  | FDeletions => "deletions"
  | FMoves => "moves"
  | FFormatting => "formatting"
  end.

Definition filter_options : list FilterType :=
  [FAll; FInsertions; FDeletions; FMoves; FFormatting].

(** The component's state: [filter] holds the string the [<select>] reported
    ([e.target.value as FilterType]); [expandedIds] is a [Set<number>]. *)
Record PanelState := mkPanelState {
  filter : string;
  expandedIds : list nat
}.

Definition initialPanelState : PanelState :=
  {| filter := "all"; expandedIds := [] |}.

Definition setFilter (value : string) (st : PanelState) : PanelState :=
  {| filter := value; expandedIds := expandedIds st |}.

Definition set_has (i : nat) (s : list nat) : bool := existsb (Nat.eqb i) s.
Definition set_delete (i : nat) (s : list nat) : list nat :=
  List.filter (fun j => negb (Nat.eqb i j)) s.
Definition set_add (i : nat) (s : list nat) : list nat :=
  if set_has i s then s else s ++ [i].

Definition toggleExpanded (index : nat) (st : PanelState) : PanelState :=
  {| filter := filter st;
     expandedIds := if set_has index (expandedIds st)
                    then set_delete index (expandedIds st)
                    else set_add index (expandedIds st) |}.

Section WithEngine.
Context {engine : Docxodus}.

Definition getRevisionTypeLabel (revision : Revision) : string :=
  if isInsertion revision then "Inserted"
  else if isDeletion revision then "Deleted"
  else if isMove revision then
    (match isMoveSource revision with
     | Some true => "Moved from"
     | _ => "Moved to"
     end)
  else if isFormatChange revision then "Formatted"
  else revisionType revision.

Definition getRevisionTypeClass (revision : Revision) : string :=
  if isInsertion revision then "rdv-revision--insertion"
  else if isDeletion revision then "rdv-revision--deletion"
  else if isMove revision then "rdv-revision--move"
  else if isFormatChange revision then "rdv-revision--format"
  else "".

(** [truncateText(text, maxLength = 100)] *)
Definition truncateText (text : js_string) (maxLength : Z) : js_string :=
  if (js_length text <=? maxLength)%Z then text
  else substring text 0 maxLength ++ dots.

Definition defaultMaxLength : Z := 100.

(** The callback handed to [revisions.filter], a [switch] on the filter. *)
Definition filterCallback (filter : string) (rev : Revision) : bool :=
  if String.eqb filter "insertions" then isInsertion rev
  else if String.eqb filter "deletions" then isDeletion rev
  else if String.eqb filter "moves" then isMove rev
  else if String.eqb filter "formatting" then isFormatChange rev
  else true.

Definition filteredRevisions (revisions : list Revision) (filter : string)
  : list Revision :=
  if String.eqb filter "all" then revisions
  else List.filter (filterCallback filter) revisions.

Record Stats := mkStats {
  total : nat;
  insertions : nat;
  deletions : nat;
  moves : nat;
  formatting : nat
}.

Definition stats (revisions : list Revision) : Stats :=
  {| total := List.length revisions;
     insertions := List.length (List.filter isInsertion revisions);
     deletions := List.length (List.filter isDeletion revisions);
     moves := List.length (List.filter isMove revisions);
     formatting := List.length (List.filter isFormatChange revisions) |}.

(** One entry of [rdv-revision-list]; [item_expand] is the label of the
    expand button when the button is rendered.  The format-details block of
    a formatting change is left out of the view. *)
Record ItemView := mkItemView {
  item_class : string;
  item_label : string;
  item_author : string;
  item_date : string;
  item_text : js_string;
  item_expand : option string
}.

Definition needsTruncation (revision : Revision) : bool :=
  (100 <? js_length (text revision))%Z.

Definition renderItem (formatDate : string -> string) (expanded : list nat)
  (index : nat) (revision : Revision) : ItemView :=
  let isExpanded := set_has index expanded in
  {| item_class := String.append "rdv-revision-item " (getRevisionTypeClass revision);
     item_label := getRevisionTypeLabel revision;
     item_author := author revision;
     item_date := formatDate (date revision);
     item_text := if isExpanded then text revision
                  else truncateText (text revision) defaultMaxLength;
     item_expand := if needsTruncation revision
                    then Some (if isExpanded then "Show less" else "Show more")
                    else None |}.

(** [array.map((revision, index) => ...)] *)
Fixpoint mapIndexed {A B : Type} (f : nat -> A -> B) (from : nat) (l : list A)
  : list B :=
  match l with
  | [] => []
  | x :: rest => f from x :: mapIndexed f (S from) rest
  end.

Inductive PanelView :=
| EmptyPanel
| Panel (header : Stats) (selected : string) (items : list ItemView).

Definition render (formatDate : string -> string) (revisions : list Revision)
  (st : PanelState) : PanelView :=
  match revisions with
  | [] => EmptyPanel
  | _ => Panel (stats revisions) (filter st)
           (mapIndexed (renderItem formatDate (expandedIds st)) 0
              (filteredRevisions revisions (filter st)))
  end.

End WithEngine.

(** The predicate the dropdown's entry names; ['all'] names none. *)
Definition categoryPredicate {engine : Docxodus} (f : FilterType)
  : option (Revision -> bool) :=
  match f with
  | FAll => None
  | FInsertions => Some isInsertion
  | FDeletions => Some isDeletion
  | FMoves => Some isMove
  | FFormatting => Some isFormatChange
  end.

(** "The sublist of the input satisfying the predicate, in the original
    order", said as a relation between the input and the displayed list. *)
Inductive SelectedInOrder {A : Type} (p : A -> bool) : list A -> list A -> Prop :=
| sel_nil : SelectedInOrder p [] []
| sel_keep : forall x l out,
    p x = true -> SelectedInOrder p l out -> SelectedInOrder p (x :: l) (x :: out)
| sel_skip : forall x l out,
    p x = false -> SelectedInOrder p l out -> SelectedInOrder p (x :: l) out.

(** The type guards as the test setup mocks them (src/test/setup.tsx). *)
Definition mockEngine : Docxodus :=
  {| isInsertion := fun rev => String.eqb (revisionType rev) "Inserted";
     isDeletion := fun rev => String.eqb (revisionType rev) "Deleted";
     isMove := fun rev => String.eqb (revisionType rev) "Moved";
     isFormatChange := fun rev => String.eqb (revisionType rev) "FormatChanged" |}.

(** [mockRevisions] of RevisionPanel.test.tsx; the texts are kept short. *)
Definition mockRevisions : list Revision :=
  [ mkRevision "John Doe" "2024-01-15T10:30:00Z" "Inserted" [105%N; 110%N; 115%N] None None;
    mkRevision "Jane Smith" "2024-01-16T14:00:00Z" "Deleted" [100%N; 101%N; 108%N] None None;
    mkRevision "Bob Wilson" "2024-01-17T09:00:00Z" "Moved" [109%N; 111%N; 118%N] (Some 1%Z) (Some true) ].

(** ['A'.repeat(150)] of the truncation test. *)
Definition longRevision : Revision :=
  mkRevision "Test Author" "2024-01-15T10:30:00Z" "Inserted" (repeat 65%N 150) None None.

End RevisionPanel.

(** ** The engine's interface, as the components use it *)

Module Engine.
Import Js.

Inductive CommentRenderMode := Disabled | EndnoteStyle | Inline | Margin.

(** [PaginationMode.None] and [PaginationMode.Paginated] *)
Inductive PaginationMode := NoPagination | Paginated.

(** [AnnotationLabelMode.Above], [.Inline], [.Tooltip], [.None] *)
Inductive AnnotationLabelMode := Above | LabelInline | Tooltip | LabelNone.

Record File := mkFile { name : string; content : list N }.

Definition Html := string.

(** The options object of [convertToHtml]; every property is optional, and
    [None] stands for a property that is absent or [undefined]. *)
Record ConversionOptions := mkOptions {
  commentRenderMode : option CommentRenderMode;
  pageTitle : option string;
  cssPrefix : option string;
  fabricateClasses : option bool;
  additionalCss : option string;
  commentCssClassPrefix : option string;
  paginationMode : option PaginationMode;
  paginationScale : option Q;
  renderAnnotations : option bool;
  annotationLabelMode : option AnnotationLabelMode;
  annotationCssClassPrefix : option string;
  renderFootnotesAndEndnotes : option bool;
  renderHeadersAndFooters : option bool;
  renderTrackedChanges : option bool;
  showDeletedContent : option bool;
  renderMoveOperations : option bool
}.

Record SectionInfo := mkSection { pageWidthPt : Q; pageHeightPt : Q }.

Record DocumentMetadata := mkMetadata {
  sections : list SectionInfo;
  estimatedPageCount : Z
}.

Record Annotation := mkAnnotation { annotationId : string; label : string }.

(** The result of [addAnnotation] / [removeAnnotation]; [documentBytes] is
    base64 text. *)
Record AnnotationResult := mkAnnotationResult {
  success : bool;
  documentBytes : option string
}.

(** A document is handed over as a [File] or as a [Uint8Array]. *)
Inductive Source := OfFile (f : File) | OfBytes (b : list N).

(** The proxy [createWorkerDocxodus] resolves to. *)
Record WorkerDocxodus := mkWorker { workerId : nat }.

(** On which side an operation runs: in the page ([Direct]: the hook's
    function, or the function imported from the package), or through a
    method of a worker proxy. *)
Inductive Route := Direct | ViaWorker (w : WorkerDocxodus).

(** One call into the engine, indexed by what its promise resolves to. *)
Inductive EngineOp : Type -> Type :=
| ConvertToHtml (r : Route) (doc : Source) (options : ConversionOptions) : EngineOp Html
| GetRevisions (r : Route) (doc : File) : EngineOp (list RevisionPanel.Revision)
| GetDocumentMetadata (r : Route) (doc : File) : EngineOp DocumentMetadata
| GetAnnotations (doc : Source) : EngineOp (list Annotation)
| RemoveAnnotation (doc : list N) (annotationId : string) : EngineOp (option AnnotationResult).

Definition routeOf {R : Type} (op : EngineOp R) : Route :=
  match op with
  | ConvertToHtml r _ _ => r
  | GetRevisions r _ => r
  | GetDocumentMetadata r _ => r
  | GetAnnotations _ => Direct
  | RemoveAnnotation _ _ => Direct
  end.

(** The same operation with the same arguments, sent the other way. *)
Definition withRoute {R : Type} (r : Route) (op : EngineOp R) : EngineOp R :=
  match op with
  | ConvertToHtml _ doc options => ConvertToHtml r doc options
  | GetRevisions _ doc => GetRevisions r doc
  | GetDocumentMetadata _ doc => GetDocumentMetadata r doc
  | GetAnnotations doc => GetAnnotations doc
  | RemoveAnnotation doc id => RemoveAnnotation doc id
  end.

(** How the engine answers each call. *)
Definition Oracle := forall R : Type, EngineOp R -> Settled R.

(** The engine as src/test/setup.tsx mocks it: every call succeeds. *)
Definition mockMetadata : DocumentMetadata :=
  mkMetadata [mkSection 612 792] 3.

Definition mockOracle : Oracle :=
  fun R op =>
    match op in EngineOp R return Settled R with
    | ConvertToHtml Direct _ _ => Fulfilled "<div>Mock HTML</div>"
    | ConvertToHtml (ViaWorker _) _ _ => Fulfilled "<div>Worker Mock HTML</div>"
    | GetRevisions _ _ => Fulfilled []
    | GetDocumentMetadata _ _ => Fulfilled mockMetadata
    | GetAnnotations _ => Fulfilled []
    | RemoveAnnotation _ _ => Fulfilled None
    end.

(** An engine that rejects every call with the same value. *)
Definition rejecting (err : Thrown) : Oracle :=
  fun R _ => Rejected err.

Definition sampleFile : File := mkFile "sample.docx" [80%N; 75%N].

End Engine.

(** ** Event handlers as small programs

    An [async] handler is a sequence of state updates ([setX(...)]), awaited
    engine calls and other effects (callbacks to the parent, console
    output).  A state update acts on the state current at that moment; what
    a handler reads is the state of the render that created it, so handlers
    are functions of that render's state and produce a [Task]. *)

Module Task.
Import Js Engine.

Section Tasks.
Context {S E : Type}.

Inductive Task (A : Type) : Type :=
| Ret (a : A)
| Update (f : S -> S) (k : Task A)
| Await {R : Type} (op : EngineOp R) (k : Settled R -> Task A)
| Emit (e : E) (k : Task A).
Arguments Ret {A} a.
Arguments Update {A} f k.
Arguments Await {A R} op k.
Arguments Emit {A} e k.

Fixpoint bind {A B : Type} (t : Task A) (f : A -> Task B) : Task B :=
  match t with
  | Ret a => f a
  | Update g k => Update g (bind k f)
  | Await op k => Await op (fun r => bind (k r) f)
  | Emit e k => Emit e (bind k f)
  end.

Definition update (f : S -> S) : Task unit := Update f (Ret tt).
Definition await {R : Type} (op : EngineOp R) : Task (Settled R) := Await op (fun r => Ret r).
Definition emit (e : E) : Task unit := Emit e (Ret tt).
Definition skip : Task unit := Ret tt.

(** What an observer sees of a run. *)
Inductive Event :=
| Called {R : Type} (op : EngineOp R)
| Emitted (e : E).

(** The handler run to completion against an engine. *)
Fixpoint run {A : Type} (engine : Oracle) (t : Task A) (st : S) : A * S * list Event :=
  match t with
  | Ret a => (a, st, [])
  | Update f k => run engine k (f st)
  | Await op k =>
      let '(a, st', trace) := run engine (k (engine _ op)) st in
      (a, st', Called op :: trace)
  | Emit e k =>
      let '(a, st', trace) := run engine k st in
      (a, st', Emitted e :: trace)
  end.

Definition finalState {A : Type} (engine : Oracle) (t : Task A) (st : S) : S :=
  snd (fst (run engine t st)).

Definition trace {A : Type} (engine : Oracle) (t : Task A) (st : S) : list Event :=
  snd (run engine t st).

(** The state at the handler's first [await]: what is on screen while the
    call is pending. [None] when the handler ends without awaiting. *)
Fixpoint pending {A : Type} (t : Task A) (st : S) : option S :=
  match t with
  | Ret _ => None
  | Update f k => pending k (f st)
  | Await _ _ => Some st
  | Emit _ k => pending k st
  end.

(** The engine calls of a trace, by route and kind. *)
Inductive CallKind := KConvert | KRevisions | KMetadata | KAnnotations | KRemoveAnnotation.

Definition kindOf {R : Type} (op : EngineOp R) : CallKind :=
  match op with
  | ConvertToHtml _ _ _ => KConvert
  | GetRevisions _ _ => KRevisions
  | GetDocumentMetadata _ _ => KMetadata
  | GetAnnotations _ => KAnnotations
  | RemoveAnnotation _ _ => KRemoveAnnotation
  end.

Definition isCall (ev : Event) : bool :=
  match ev with
  | Called _ => true
  | Emitted _ => false
  end.

Definition calls (tr : list Event) : list Event := List.filter isCall tr.

(** A handler none of whose updates changes the part [part] of the state. *)
Inductive Keeps {X A : Type} (part : S -> X) : Task A -> Prop :=
| keeps_ret : forall a, Keeps part (Ret a)
| keeps_update : forall f k,
    (forall st, part (f st) = part st) -> Keeps part k -> Keeps part (Update f k)
| keeps_await : forall R (op : EngineOp R) k,
    (forall r, Keeps part (k r)) -> Keeps part (Await op k)
| keeps_emit : forall e k, Keeps part k -> Keeps part (Emit e k).

End Tasks.

Arguments Task S E A : clear implicits.
Arguments Event E : clear implicits.
Arguments Ret {S E A} a.
Arguments Update {S E A} f k.
Arguments Await {S E A R} op k.
Arguments Emit {S E A} e k.
Arguments Called {E R} op.
Arguments Emitted {E} e.

Module Notations.
Notation "x <- t1 ;; t2" := (bind t1 (fun x => t2))
  (at level 61, t1 at next level, right associativity).
Notation "t1 ;; t2" := (bind t1 (fun _ => t2))
  (at level 61, right associativity).
End Notations.

End Task.

(** ** src/components/DocumentViewer.tsx: the demo's viewer with option toggles *)

Module DemoDocumentViewer.
Import Js Task Task.Notations.

(** What [useDocxodus(WASM_BASE_PATH)] reports besides [convertToHtml]. *)
Record Hook := mkHook {
  isReady : bool;
  isLoading : bool;
  initError : option JsError
}.

(** The component's [useState] cells. [commentMode] holds one of
    ['disabled' | 'endnote' | 'inline' | 'margin']. *)
Record State := mkState {
  html : option Engine.Html;
  isConverting : bool;
  error : option JsError;
  fileName : string;
  commentMode : string;
  pendingFile : option Engine.File;
  currentPage : Z;
  totalPages : Z;
  enablePagination : bool;
  paginationScale : Q;
  showPageNumbers : bool;
  pageTitle : string;
  cssPrefix : string;
  fabricateClasses : bool;
  additionalCss : string;
  commentCssClassPrefix : string;
  showAdvanced : bool
}.

Definition initialState : State :=
  mkState None false None "" "disabled" None 1 0 false (8 # 10) true
    "Document" "docx-" true "" "comment-" false.

Definition setHtml (v : option Engine.Html) (st : State) : State :=
  mkState v (isConverting st) (error st) (fileName st) (commentMode st)
    (pendingFile st) (currentPage st) (totalPages st) (enablePagination st)
    (paginationScale st) (showPageNumbers st) (pageTitle st) (cssPrefix st)
    (fabricateClasses st) (additionalCss st) (commentCssClassPrefix st)
    (showAdvanced st).

Definition setIsConverting (v : bool) (st : State) : State :=
  mkState (html st) v (error st) (fileName st) (commentMode st)
    (pendingFile st) (currentPage st) (totalPages st) (enablePagination st)
    (paginationScale st) (showPageNumbers st) (pageTitle st) (cssPrefix st)
    (fabricateClasses st) (additionalCss st) (commentCssClassPrefix st)
    (showAdvanced st).

Definition setError (v : option JsError) (st : State) : State :=
  mkState (html st) (isConverting st) v (fileName st) (commentMode st)
    (pendingFile st) (currentPage st) (totalPages st) (enablePagination st)
    (paginationScale st) (showPageNumbers st) (pageTitle st) (cssPrefix st)
    (fabricateClasses st) (additionalCss st) (commentCssClassPrefix st)
    (showAdvanced st).

Definition setFileName (v : string) (st : State) : State :=
  mkState (html st) (isConverting st) (error st) v (commentMode st)
    (pendingFile st) (currentPage st) (totalPages st) (enablePagination st)
    (paginationScale st) (showPageNumbers st) (pageTitle st) (cssPrefix st)
    (fabricateClasses st) (additionalCss st) (commentCssClassPrefix st)
    (showAdvanced st).

Definition setCommentMode (v : string) (st : State) : State :=
  mkState (html st) (isConverting st) (error st) (fileName st) v
    (pendingFile st) (currentPage st) (totalPages st) (enablePagination st)
    (paginationScale st) (showPageNumbers st) (pageTitle st) (cssPrefix st)
    (fabricateClasses st) (additionalCss st) (commentCssClassPrefix st)
    (showAdvanced st).

Definition setPendingFile (v : option Engine.File) (st : State) : State :=
  mkState (html st) (isConverting st) (error st) (fileName st)
    (commentMode st) v (currentPage st) (totalPages st) (enablePagination st)
    (paginationScale st) (showPageNumbers st) (pageTitle st) (cssPrefix st)
    (fabricateClasses st) (additionalCss st) (commentCssClassPrefix st)
    (showAdvanced st).

Definition setCurrentPage (v : Z) (st : State) : State :=
  mkState (html st) (isConverting st) (error st) (fileName st)
    (commentMode st) (pendingFile st) v (totalPages st) (enablePagination st)
    (paginationScale st) (showPageNumbers st) (pageTitle st) (cssPrefix st)
    (fabricateClasses st) (additionalCss st) (commentCssClassPrefix st)
    (showAdvanced st).

Definition setTotalPages (v : Z) (st : State) : State :=
  mkState (html st) (isConverting st) (error st) (fileName st)
    (commentMode st) (pendingFile st) (currentPage st) v (enablePagination st)
    (paginationScale st) (showPageNumbers st) (pageTitle st) (cssPrefix st)
    (fabricateClasses st) (additionalCss st) (commentCssClassPrefix st)
    (showAdvanced st).

Definition setEnablePagination (v : bool) (st : State) : State :=
  mkState (html st) (isConverting st) (error st) (fileName st)
    (commentMode st) (pendingFile st) (currentPage st) (totalPages st) v
    (paginationScale st) (showPageNumbers st) (pageTitle st) (cssPrefix st)
    (fabricateClasses st) (additionalCss st) (commentCssClassPrefix st)
    (showAdvanced st).

Definition setPaginationScale (v : Q) (st : State) : State :=
  mkState (html st) (isConverting st) (error st) (fileName st)
    (commentMode st) (pendingFile st) (currentPage st) (totalPages st)
    (enablePagination st) v (showPageNumbers st) (pageTitle st) (cssPrefix st)
    (fabricateClasses st) (additionalCss st) (commentCssClassPrefix st)
    (showAdvanced st).

Definition setShowPageNumbers (v : bool) (st : State) : State :=
  mkState (html st) (isConverting st) (error st) (fileName st)
    (commentMode st) (pendingFile st) (currentPage st) (totalPages st)
    (enablePagination st) (paginationScale st) v (pageTitle st) (cssPrefix st)
    (fabricateClasses st) (additionalCss st) (commentCssClassPrefix st)
    (showAdvanced st).

Definition setPageTitle (v : string) (st : State) : State :=
  mkState (html st) (isConverting st) (error st) (fileName st)
    (commentMode st) (pendingFile st) (currentPage st) (totalPages st)
    (enablePagination st) (paginationScale st) (showPageNumbers st) v
    (cssPrefix st) (fabricateClasses st) (additionalCss st)
    (commentCssClassPrefix st) (showAdvanced st).

Definition setCssPrefix (v : string) (st : State) : State :=
  mkState (html st) (isConverting st) (error st) (fileName st)
    (commentMode st) (pendingFile st) (currentPage st) (totalPages st)
    (enablePagination st) (paginationScale st) (showPageNumbers st)
    (pageTitle st) v (fabricateClasses st) (additionalCss st)
    (commentCssClassPrefix st) (showAdvanced st).

Definition setFabricateClasses (v : bool) (st : State) : State :=
  mkState (html st) (isConverting st) (error st) (fileName st)
    (commentMode st) (pendingFile st) (currentPage st) (totalPages st)
    (enablePagination st) (paginationScale st) (showPageNumbers st)
    (pageTitle st) (cssPrefix st) v (additionalCss st)
    (commentCssClassPrefix st) (showAdvanced st).

Definition setAdditionalCss (v : string) (st : State) : State :=
  mkState (html st) (isConverting st) (error st) (fileName st)
    (commentMode st) (pendingFile st) (currentPage st) (totalPages st)
    (enablePagination st) (paginationScale st) (showPageNumbers st)
    (pageTitle st) (cssPrefix st) (fabricateClasses st) v
    (commentCssClassPrefix st) (showAdvanced st).

Definition setCommentCssClassPrefix (v : string) (st : State) : State :=
  mkState (html st) (isConverting st) (error st) (fileName st)
    (commentMode st) (pendingFile st) (currentPage st) (totalPages st)
    (enablePagination st) (paginationScale st) (showPageNumbers st)
    (pageTitle st) (cssPrefix st) (fabricateClasses st) (additionalCss st) v
    (showAdvanced st).

Definition setShowAdvanced (v : bool) (st : State) : State :=
  mkState (html st) (isConverting st) (error st) (fileName st)
    (commentMode st) (pendingFile st) (currentPage st) (totalPages st)
    (enablePagination st) (paginationScale st) (showPageNumbers st)
    (pageTitle st) (cssPrefix st) (fabricateClasses st) (additionalCss st)
    (commentCssClassPrefix st) v.

Definition getCommentRenderMode (mode : string) : Engine.CommentRenderMode :=
  if String.eqb mode "endnote" then Engine.EndnoteStyle
  else if String.eqb mode "inline" then Engine.Inline
  else if String.eqb mode "margin" then Engine.Margin
  else Engine.Disabled.

(** The optional [overrides] argument of [getConvertOptions]; a property
    that is missing or [undefined] is [None]. *)
Record Overrides := mkOverrides {
  o_commentRenderMode : option Engine.CommentRenderMode;
  o_paginationMode : option Engine.PaginationMode;
  o_paginationScale : option Q;
  o_fabricateClasses : option bool
}.

Definition noOverrides : Overrides := mkOverrides None None None None.

(** [overrides?.field] *)
Definition optChain {A : Type} (overrides : option Overrides)
  (field : Overrides -> option A) : option A :=
  match overrides with
  | Some o => field o
  | None => None
  end.

(** [a ?? b] *)
Definition nullish {A : Type} (a : option A) (b : A) : A :=
  match a with
  | Some v => v
  | None => b
  end.

(** [s || undefined] on a string *)
Definition orUndefined (s : string) : option string :=
  if String.eqb s "" then None else Some s.

Definition getConvertOptions (st : State) (overrides : option Overrides)
  : Engine.ConversionOptions :=
  {| Engine.commentRenderMode :=
       Some (nullish (optChain overrides o_commentRenderMode)
               (getCommentRenderMode (commentMode st)));
     Engine.pageTitle := Some (pageTitle st);
     Engine.cssPrefix := Some (cssPrefix st);
     Engine.fabricateClasses :=
       Some (nullish (optChain overrides o_fabricateClasses) (fabricateClasses st));
     Engine.additionalCss := orUndefined (additionalCss st);
     Engine.commentCssClassPrefix := Some (commentCssClassPrefix st);
     Engine.paginationMode :=
       Some (nullish (optChain overrides o_paginationMode)
               (if enablePagination st then Engine.Paginated else Engine.NoPagination));
     Engine.paginationScale :=
       match optChain overrides o_paginationScale with
       | Some v => Some v
       | None => if enablePagination st then Some (paginationScale st) else None
       end;
     Engine.renderAnnotations := None;
     Engine.annotationLabelMode := None;
     Engine.annotationCssClassPrefix := None;
     Engine.renderFootnotesAndEndnotes := None;
     Engine.renderHeadersAndFooters := None;
     Engine.renderTrackedChanges := None;
     Engine.showDeletedContent := None;
     Engine.renderMoveOperations := None |}.

(** The handlers have no effect besides state updates and engine calls. *)
Definition Handler := Task State Empty_set unit.

Definition convert (hook : Hook) (file : Engine.File)
  (options : Engine.ConversionOptions) : Handler :=
  if negb (isReady hook) then skip
  else
    update (setIsConverting true) ;;
    update (setError None) ;;
    update (setHtml None) ;;
    outcome <- await (Engine.ConvertToHtml Engine.Direct (Engine.OfFile file) options) ;;
    match outcome with
    | Fulfilled result => update (setHtml (Some result))
    | Rejected err => update (setError (Some (toError err)))
    end ;;
    update (setIsConverting false).

(** [file] is [e.target.files?.[0]]. *)
Definition handleFileChange (hook : Hook) (st : State) (file : option Engine.File)
  : Handler :=
  match file with
  | Some f =>
      update (setFileName (Engine.name f)) ;;
      update (setPendingFile (Some f)) ;;
      convert hook f (getConvertOptions st None)
  | None => skip
  end.

Definition reconvert (hook : Hook) (st : State) : Handler :=
  match pendingFile st with
  | Some f => convert hook f (getConvertOptions st None)
  | None => skip
  end.

Definition handleCommentModeChange (hook : Hook) (st : State) (mode : string)
  : Handler :=
  update (setCommentMode mode) ;;
  match pendingFile st with
  | Some f =>
      convert hook f
        (getConvertOptions st
           (Some (mkOverrides (Some (getCommentRenderMode mode)) None None None)))
  | None => skip
  end.

Definition handlePaginationToggle (hook : Hook) (st : State) (enabled : bool)
  : Handler :=
  update (setEnablePagination enabled) ;;
  match pendingFile st with
  | Some f =>
      convert hook f
        (getConvertOptions st
           (Some (mkOverrides None
                    (Some (if enabled then Engine.Paginated else Engine.NoPagination))
                    (if enabled then Some (paginationScale st) else None)
                    None)))
  | None => skip
  end.

(** The [onChange] of the "Fabricate CSS classes" checkbox. *)
Definition handleFabricateClassesChange (hook : Hook) (st : State) (checked : bool)
  : Handler :=
  update (setFabricateClasses checked) ;;
  match pendingFile st with
  | Some f =>
      convert hook f
        (getConvertOptions st (Some (mkOverrides None None None (Some checked))))
  | None => skip
  end.

Definition handleClear : Handler :=
  update (setHtml None) ;;
  update (setError None) ;;
  update (setFileName "") ;;
  update (setPendingFile None).

(** What the user can do to the form, and what the paginated document
    reports back ([onPaginationComplete], [onPageVisible]). *)
Inductive UiEvent :=
| ChooseFile (file : option Engine.File)
| ChooseCommentMode (mode : string)
| TogglePagination (enabled : bool)
| MoveScale (value : Q)
| ReleaseScale
| TogglePageNumbers (checked : bool)
| ToggleAdvanced
| EditPageTitle (value : string)
| EditCssPrefix (value : string)
| EditCommentCssPrefix (value : string)
| EditAdditionalCss (value : string)
| BlurTextField
| ToggleFabricateClasses (checked : bool)
| ClickClear
| PaginationComplete (total : Z)
| PageVisible (pageNumber : Z).

Definition handle (hook : Hook) (st : State) (ev : UiEvent) : Handler :=
  match ev with
  | ChooseFile file => handleFileChange hook st file
  | ChooseCommentMode mode => handleCommentModeChange hook st mode
  | TogglePagination enabled => handlePaginationToggle hook st enabled
  | MoveScale value => update (setPaginationScale value)
  | ReleaseScale => reconvert hook st
  | TogglePageNumbers checked => update (setShowPageNumbers checked)
  | ToggleAdvanced => update (setShowAdvanced (negb (showAdvanced st)))
  | EditPageTitle value => update (setPageTitle value)
  | EditCssPrefix value => update (setCssPrefix value)
  | EditCommentCssPrefix value => update (setCommentCssClassPrefix value)
  | EditAdditionalCss value => update (setAdditionalCss value)
  | BlurTextField => reconvert hook st
  | ToggleFabricateClasses checked => handleFabricateClassesChange hook st checked
  | ClickClear => handleClear
  | PaginationComplete total => update (setTotalPages total)
  | PageVisible pageNumber => update (setCurrentPage pageNumber)
  end.

(** One event handled to completion: the handler of the current render runs
    against the engine. *)
Definition step (engine : Engine.Oracle) (hook : Hook) (st : State) (ev : UiEvent)
  : State :=
  finalState engine (handle hook st ev) st.

Definition steps (engine : Engine.Oracle) (hook : Hook) (evs : list UiEvent)
  (st : State) : State :=
  fold_left (step engine hook) evs st.

(** JavaScript truthiness of [string | null]. *)
Definition truthy (s : option string) : bool :=
  match s with
  | Some v => negb (String.eqb v "")
  | None => false
  end.

(** The blocks below the options section. *)
Inductive Block :=
| Processing
| ErrorMessage (shown : string)
| DocumentContent (paginated : bool) (markup : Engine.Html).

Inductive View :=
| LoadingEngine
| InitFailed (shown : string)
| Form (clearButton : bool) (blocks : list Block).

Definition render (hook : Hook) (st : State) : View :=
  if isLoading hook then LoadingEngine
  else match initError hook with
  | Some e => InitFailed (String.append "Failed to initialize: " (message e))
  | None =>
      Form (truthy (html st))
        ((if isConverting st then [Processing] else [])
         ++ (match error st with
             | Some e =>
                 if negb (isConverting st)
                 then [ErrorMessage (String.append "Error: " (message e))]
                 else []
             | None => []
             end)
         ++ (match html st with
             | Some markup =>
                 if truthy (html st) && negb (isConverting st)
                 then [DocumentContent (enablePagination st) markup]
                 else []
             | None => []
             end))
  end.

Definition isErrorMessage (b : Block) : bool :=
  match b with ErrorMessage _ => true | _ => false end.
Definition isDocumentContent (b : Block) : bool :=
  match b with DocumentContent _ _ => true | _ => false end.

Definition blocksOf (v : View) : list Block :=
  match v with
  | Form _ blocks => blocks
  | _ => []
  end.

(** The options of the [convertToHtml] calls of a trace, in order. *)
Definition forwarded (tr : list (Event Empty_set)) : list Engine.ConversionOptions :=
  flat_map (fun ev =>
              match ev with
              | Called op =>
                  match op with
                  | Engine.ConvertToHtml _ _ options => [options]
                  | _ => []
                  end
              | Emitted _ => []
              end) tr.

(** The state an event's own [setX] call leads to: the toggles as the user
    has just set them. *)
Definition toggled (st : State) (ev : UiEvent) : State :=
  match ev with
  | ChooseCommentMode mode => setCommentMode mode st
  | TogglePagination enabled => setEnablePagination enabled st
  | ToggleFabricateClasses checked => setFabricateClasses checked st
  | _ => st
  end.

(** The engine loaded and ready. *)
Definition readyHook : Hook := mkHook true false None.

(** A document is loaded and pagination has been switched on. *)
Definition paginatedState : State :=
  steps Engine.mockOracle readyHook
    [ChooseFile (Some Engine.sampleFile); TogglePagination true] initialState.

End DemoDocumentViewer.

(** ** src/types/index.ts: the library viewer's settings and props *)

Module Types.
Import Js.

(** [ViewerSettings]. [commentMode] is one of
    ['disabled' | 'endnote' | 'inline' | 'margin'], [annotationMode] one of
    ['disabled' | 'above' | 'inline' | 'tooltip' | 'none']. *)
Record ViewerSettings := mkSettings {
  paginationScale : Q;
  showPageNumbers : bool;
  renderFootnotesAndEndnotes : bool;
  renderHeadersAndFooters : bool;
  commentMode : string;
  annotationMode : string;
  renderTrackedChanges : bool;
  showDeletedContent : bool;
  renderMoveOperations : bool;
  pageTitle : string;
  cssPrefix : string;
  fabricateClasses : bool;
  additionalCss : string;
  commentCssClassPrefix : string;
  annotationCssClassPrefix : string
}.

Definition DEFAULT_SETTINGS : ViewerSettings :=
  mkSettings (8 # 10) true true true "disabled" "disabled" false true true
    "Document" "docx-" true "" "comment-" "annot-".

(** [Partial<ViewerSettings>]: [None] is a property that is not there. *)
Record PartialSettings := mkPartial {
  p_paginationScale : option Q;
  p_showPageNumbers : option bool;
  p_renderFootnotesAndEndnotes : option bool;
  p_renderHeadersAndFooters : option bool;
  p_commentMode : option string;
  p_annotationMode : option string;
  p_renderTrackedChanges : option bool;
  p_showDeletedContent : option bool;
  p_renderMoveOperations : option bool;
  p_pageTitle : option string;
  p_cssPrefix : option string;
  p_fabricateClasses : option bool;
  p_additionalCss : option string;
  p_commentCssClassPrefix : option string;
  p_annotationCssClassPrefix : option string
}.

Definition noUpdates : PartialSettings :=
  mkPartial None None None None None None None None None None None None None None None.

(** [{ ...base, ...updates }] *)
Definition spread (base : ViewerSettings) (updates : PartialSettings) : ViewerSettings :=
  {| paginationScale := match p_paginationScale updates with Some v => v | None => paginationScale base end;
     showPageNumbers := match p_showPageNumbers updates with Some v => v | None => showPageNumbers base end;
     renderFootnotesAndEndnotes := match p_renderFootnotesAndEndnotes updates with Some v => v | None => renderFootnotesAndEndnotes base end;
     renderHeadersAndFooters := match p_renderHeadersAndFooters updates with Some v => v | None => renderHeadersAndFooters base end;
     commentMode := match p_commentMode updates with Some v => v | None => commentMode base end;
     annotationMode := match p_annotationMode updates with Some v => v | None => annotationMode base end;
     renderTrackedChanges := match p_renderTrackedChanges updates with Some v => v | None => renderTrackedChanges base end;
     showDeletedContent := match p_showDeletedContent updates with Some v => v | None => showDeletedContent base end;
     renderMoveOperations := match p_renderMoveOperations updates with Some v => v | None => renderMoveOperations base end;
     pageTitle := match p_pageTitle updates with Some v => v | None => pageTitle base end;
     cssPrefix := match p_cssPrefix updates with Some v => v | None => cssPrefix base end;
     fabricateClasses := match p_fabricateClasses updates with Some v => v | None => fabricateClasses base end;
     additionalCss := match p_additionalCss updates with Some v => v | None => additionalCss base end;
     commentCssClassPrefix := match p_commentCssClassPrefix updates with Some v => v | None => commentCssClassPrefix base end;
     annotationCssClassPrefix := match p_annotationCssClassPrefix updates with Some v => v | None => annotationCssClassPrefix base end |}.

(** The single-property updates the toolbar and the settings modal make. *)
Definition scaleUpdate (v : Q) : PartialSettings :=
  mkPartial (Some v) None None None None None None None None None None None None None None.

Definition commentModeUpdate (mode : string) : PartialSettings :=
  mkPartial None None None None (Some mode) None None None None None None None None None None.

(** [DocumentViewerProps]. An optional prop that is not supplied is [None];
    [file] and [html] can also be supplied as [null] ([Some None]). The
    callbacks are recorded as supplied or not; [className], [style] and
    [wasmBasePath] play no part in what follows. *)
Record DocumentViewerProps := mkProps {
  file : option (option Engine.File);
  html : option (option Engine.Html);
  settings : option PartialSettings;
  defaultSettings : option PartialSettings;
  toolbar : option string;
  showSettingsButton : option bool;
  showRevisionsTab : option bool;
  placeholder : option string;
  useWorker : option bool;
  onFileChange : bool;
  onConversionStart : bool;
  onConversionComplete : bool;
  onError : bool;
  onPageChange : bool;
  onRevisionsExtracted : bool;
  onSettingsChange : bool
}.

(** [<DocumentViewer />] *)
Definition noProps : DocumentViewerProps :=
  mkProps None None None None None None None None None
    false false false false false false false.

End Types.


(** ** src/DocumentViewer.tsx: the library's viewer *)

Module DocumentViewer.
Import Js Task Task.Notations Types.

(** [type ViewMode = 'document' | 'revisions'] *)
Inductive ViewMode := DocumentMode | RevisionsMode.

(** What [useDocxodus(wasmBasePath)] reports besides its functions. *)
Record HookResult := mkHook {
  hook_isReady : bool;
  hook_isLoading : bool;
  hook_error : option JsError
}.

(** The [div] the paginated document is rendered into, as far as the
    viewer asks it anything: [querySelector n] tells whether
    [container.querySelector('[data-page-number="n"]')] finds an element. *)
Record Container := mkContainer { querySelector : Z -> bool }.

(** The component's [useState] cells, and what
    [paginatedContainerRef.current] holds: [null] (here [None]) until React
    mounts the [div] the ref is attached to, and again once it is
    unmounted. *)
Record State := mkState {
  internalFile : option Engine.File;
  internalHtml : option Engine.Html;
  internalSettings : ViewerSettings;
  worker : option Engine.WorkerDocxodus;
  workerReady : bool;
  workerLoading : bool;
  workerError : option JsError;
  isConverting : bool;
  error : option JsError;
  fileName : string;
  currentPage : Z;
  totalPages : Z;
  showSettings : bool;
  viewMode : ViewMode;
  revisions : list RevisionPanel.Revision;
  isExtractingRevisions : bool;
  documentMetadata : option Engine.DocumentMetadata;
  paginatedContainerRef : option Container
}.

Definition setInternalFile (v : option Engine.File) (st : State) : State :=
  mkState v (internalHtml st) (internalSettings st) (worker st)
    (workerReady st) (workerLoading st) (workerError st) (isConverting st)
    (error st) (fileName st) (currentPage st) (totalPages st)
    (showSettings st) (viewMode st) (revisions st) (isExtractingRevisions st)
    (documentMetadata st) (paginatedContainerRef st).

Definition setInternalHtml (v : option Engine.Html) (st : State) : State :=
  mkState (internalFile st) v (internalSettings st) (worker st)
    (workerReady st) (workerLoading st) (workerError st) (isConverting st)
    (error st) (fileName st) (currentPage st) (totalPages st)
    (showSettings st) (viewMode st) (revisions st) (isExtractingRevisions st)
    (documentMetadata st) (paginatedContainerRef st).

Definition setInternalSettings (v : ViewerSettings) (st : State) : State :=
  mkState (internalFile st) (internalHtml st) v (worker st) (workerReady st)
    (workerLoading st) (workerError st) (isConverting st) (error st)
    (fileName st) (currentPage st) (totalPages st) (showSettings st)
    (viewMode st) (revisions st) (isExtractingRevisions st)
    (documentMetadata st) (paginatedContainerRef st).

Definition setWorker (v : option Engine.WorkerDocxodus) (st : State) : State :=
  mkState (internalFile st) (internalHtml st) (internalSettings st) v
    (workerReady st) (workerLoading st) (workerError st) (isConverting st)
    (error st) (fileName st) (currentPage st) (totalPages st)
    (showSettings st) (viewMode st) (revisions st) (isExtractingRevisions st)
    (documentMetadata st) (paginatedContainerRef st).

Definition setWorkerReady (v : bool) (st : State) : State :=
  mkState (internalFile st) (internalHtml st) (internalSettings st)
    (worker st) v (workerLoading st) (workerError st) (isConverting st)
    (error st) (fileName st) (currentPage st) (totalPages st)
    (showSettings st) (viewMode st) (revisions st) (isExtractingRevisions st)
    (documentMetadata st) (paginatedContainerRef st).

Definition setWorkerLoading (v : bool) (st : State) : State :=
  mkState (internalFile st) (internalHtml st) (internalSettings st)
    (worker st) (workerReady st) v (workerError st) (isConverting st)
    (error st) (fileName st) (currentPage st) (totalPages st)
    (showSettings st) (viewMode st) (revisions st) (isExtractingRevisions st)
    (documentMetadata st) (paginatedContainerRef st).

Definition setWorkerError (v : option JsError) (st : State) : State :=
  mkState (internalFile st) (internalHtml st) (internalSettings st)
    (worker st) (workerReady st) (workerLoading st) v (isConverting st)
    (error st) (fileName st) (currentPage st) (totalPages st)
    (showSettings st) (viewMode st) (revisions st) (isExtractingRevisions st)
    (documentMetadata st) (paginatedContainerRef st).

Definition setIsConverting (v : bool) (st : State) : State :=
  mkState (internalFile st) (internalHtml st) (internalSettings st)
    (worker st) (workerReady st) (workerLoading st) (workerError st) v
    (error st) (fileName st) (currentPage st) (totalPages st)
    (showSettings st) (viewMode st) (revisions st) (isExtractingRevisions st)
    (documentMetadata st) (paginatedContainerRef st).

Definition setError (v : option JsError) (st : State) : State :=
  mkState (internalFile st) (internalHtml st) (internalSettings st)
    (worker st) (workerReady st) (workerLoading st) (workerError st)
    (isConverting st) v (fileName st) (currentPage st) (totalPages st)
    (showSettings st) (viewMode st) (revisions st) (isExtractingRevisions st)
    (documentMetadata st) (paginatedContainerRef st).

Definition setFileName (v : string) (st : State) : State :=
  mkState (internalFile st) (internalHtml st) (internalSettings st)
    (worker st) (workerReady st) (workerLoading st) (workerError st)
    (isConverting st) (error st) v (currentPage st) (totalPages st)
    (showSettings st) (viewMode st) (revisions st) (isExtractingRevisions st)
    (documentMetadata st) (paginatedContainerRef st).

Definition setCurrentPage (v : Z) (st : State) : State :=
  mkState (internalFile st) (internalHtml st) (internalSettings st)
    (worker st) (workerReady st) (workerLoading st) (workerError st)
    (isConverting st) (error st) (fileName st) v (totalPages st)
    (showSettings st) (viewMode st) (revisions st) (isExtractingRevisions st)
    (documentMetadata st) (paginatedContainerRef st).

Definition setTotalPages (v : Z) (st : State) : State :=
  mkState (internalFile st) (internalHtml st) (internalSettings st)
    (worker st) (workerReady st) (workerLoading st) (workerError st)
    (isConverting st) (error st) (fileName st) (currentPage st) v
    (showSettings st) (viewMode st) (revisions st) (isExtractingRevisions st)
    (documentMetadata st) (paginatedContainerRef st).

Definition setShowSettings (v : bool) (st : State) : State :=
  mkState (internalFile st) (internalHtml st) (internalSettings st)
    (worker st) (workerReady st) (workerLoading st) (workerError st)
    (isConverting st) (error st) (fileName st) (currentPage st)
    (totalPages st) v (viewMode st) (revisions st) (isExtractingRevisions st)
    (documentMetadata st) (paginatedContainerRef st).

Definition setViewMode (v : ViewMode) (st : State) : State :=
  mkState (internalFile st) (internalHtml st) (internalSettings st)
    (worker st) (workerReady st) (workerLoading st) (workerError st)
    (isConverting st) (error st) (fileName st) (currentPage st)
    (totalPages st) (showSettings st) v (revisions st)
    (isExtractingRevisions st) (documentMetadata st) (paginatedContainerRef st).

Definition setRevisions (v : list RevisionPanel.Revision) (st : State) : State :=
  mkState (internalFile st) (internalHtml st) (internalSettings st)
    (worker st) (workerReady st) (workerLoading st) (workerError st)
    (isConverting st) (error st) (fileName st) (currentPage st)
    (totalPages st) (showSettings st) (viewMode st) v
    (isExtractingRevisions st) (documentMetadata st) (paginatedContainerRef st).

Definition setIsExtractingRevisions (v : bool) (st : State) : State :=
  mkState (internalFile st) (internalHtml st) (internalSettings st)
    (worker st) (workerReady st) (workerLoading st) (workerError st)
    (isConverting st) (error st) (fileName st) (currentPage st)
    (totalPages st) (showSettings st) (viewMode st) (revisions st) v
    (documentMetadata st) (paginatedContainerRef st).

Definition setDocumentMetadata (v : option Engine.DocumentMetadata) (st : State) : State :=
  mkState (internalFile st) (internalHtml st) (internalSettings st)
    (worker st) (workerReady st) (workerLoading st) (workerError st)
    (isConverting st) (error st) (fileName st) (currentPage st)
    (totalPages st) (showSettings st) (viewMode st) (revisions st)
    (isExtractingRevisions st) v (paginatedContainerRef st).

(** React writes the ref when it mounts or unmounts the [div]. *)
Definition attachContainer (v : option Container) (st : State) : State :=
  mkState (internalFile st) (internalHtml st) (internalSettings st)
    (worker st) (workerReady st) (workerLoading st) (workerError st)
    (isConverting st) (error st) (fileName st) (currentPage st)
    (totalPages st) (showSettings st) (viewMode st) (revisions st)
    (isExtractingRevisions st) (documentMetadata st) v.


(** What a handler does besides updating state and calling the engine:
    callbacks to the parent, and [async] functions it starts without
    awaiting them (they run as handlers of their own). *)
Inductive Started :=
| StartFetchMetadata (doc : Engine.File)
| StartExtractRevisions (doc : Engine.File)
| StartReconvert.

Inductive Effect :=
| OnFileChange (doc : option Engine.File)
| OnConversionStart
| OnConversionComplete (markup : Engine.Html)
| OnError (e : JsError)
| OnRevisionsExtracted (revs : list RevisionPanel.Revision)
| OnSettingsChange (s : ViewerSettings)
| OnPageChange (page total : Z)
| AnimationFrames
| ScrollToPage (pageNum : Z)
| ResetFileInput
| Start (what : Started).

Definition Handler := Task State Effect unit.

(** [callback?.(...)] *)
Definition notify (supplied : bool) (e : Effect) : Handler :=
  if supplied then emit e else skip.

Definition when (c : bool) (t : Handler) : Handler := if c then t else skip.

Definition getCommentRenderMode (mode : string) : Engine.CommentRenderMode :=
  if String.eqb mode "endnote" then Engine.EndnoteStyle
  else if String.eqb mode "inline" then Engine.Inline
  else if String.eqb mode "margin" then Engine.Margin
  else Engine.Disabled.

Definition getAnnotationLabelMode (mode : string) : option Engine.AnnotationLabelMode :=
  if String.eqb mode "above" then Some Engine.Above
  else if String.eqb mode "inline" then Some Engine.LabelInline
  else if String.eqb mode "tooltip" then Some Engine.Tooltip
  else if String.eqb mode "none" then Some Engine.LabelNone
  else None.

(** The destructured props with their defaults. *)
Definition toolbarOf (p : DocumentViewerProps) : string :=
  match toolbar p with Some v => v | None => "top" end.
Definition showSettingsButtonOf (p : DocumentViewerProps) : bool :=
  match showSettingsButton p with Some v => v | None => true end.
Definition showRevisionsTabOf (p : DocumentViewerProps) : bool :=
  match showRevisionsTab p with Some v => v | None => true end.
Definition placeholderOf (p : DocumentViewerProps) : string :=
  match placeholder p with Some v => v | None => "Open a DOCX file to view" end.
Definition useWorkerOf (p : DocumentViewerProps) : bool :=
  match useWorker p with Some v => v | None => true end.

Definition mergedDefaults (p : DocumentViewerProps) : ViewerSettings :=
  match defaultSettings p with
  | Some d => spread DEFAULT_SETTINGS d
  | None => DEFAULT_SETTINGS
  end.

Definition initialState (p : DocumentViewerProps) : State :=
  mkState None None (mergedDefaults p) None false false None false None ""
    1 0 false DocumentMode [] false None None.

(** Controlled or uncontrolled values. *)
Definition currentFile (p : DocumentViewerProps) (st : State) : option Engine.File :=
  match file p with Some controlled => controlled | None => internalFile st end.

Definition currentHtml (p : DocumentViewerProps) (st : State) : option Engine.Html :=
  match html p with Some controlled => controlled | None => internalHtml st end.

Definition currentSettings (p : DocumentViewerProps) (st : State) : ViewerSettings :=
  match settings p with
  | Some controlled => spread (mergedDefaults p) controlled
  | None => internalSettings st
  end.

Definition htmlUncontrolled (p : DocumentViewerProps) : bool :=
  match html p with None => true | Some _ => false end.
Definition fileUncontrolled (p : DocumentViewerProps) : bool :=
  match file p with None => true | Some _ => false end.
Definition settingsUncontrolled (p : DocumentViewerProps) : bool :=
  match settings p with None => true | Some _ => false end.

(** The worker's life, as the [useEffect] on [useWorker] drives it. *)
Definition workerEffectBegin (supported : bool) (p : DocumentViewerProps) (st : State)
  : State :=
  if negb (useWorkerOf p) || negb supported then st
  else setWorkerError None (setWorkerLoading true st).

Definition workerCreated (w : Engine.WorkerDocxodus) (st : State) : State :=
  setWorkerLoading false (setWorkerReady true (setWorker (Some w) st)).

Definition workerFailed (err : Thrown) (st : State) : State :=
  setWorkerLoading false (setWorkerError (Some (toError err)) st).

Definition workerCleanup (st : State) : State :=
  match worker st with
  | Some _ => setWorkerReady false (setWorker None st)
  | None => st
  end.

(** Unified ready / loading / error state. *)
Definition isReady (p : DocumentViewerProps) (h : HookResult) (st : State) : bool :=
  if useWorkerOf p then workerReady st else hook_isReady h.
Definition isLoading (p : DocumentViewerProps) (h : HookResult) (st : State) : bool :=
  if useWorkerOf p then workerLoading st else hook_isLoading h.
Definition initError (p : DocumentViewerProps) (h : HookResult) (st : State)
  : option JsError :=
  if useWorkerOf p then workerError st else hook_error h.

Definition getConvertOptions (s : ViewerSettings) : Engine.ConversionOptions :=
  {| Engine.commentRenderMode := Some (getCommentRenderMode (commentMode s));
     Engine.pageTitle := Some (pageTitle s);
     Engine.cssPrefix := Some (cssPrefix s);
     Engine.fabricateClasses := Some (fabricateClasses s);
     Engine.additionalCss :=
       if String.eqb (additionalCss s) "" then None else Some (additionalCss s);
     Engine.commentCssClassPrefix := Some (commentCssClassPrefix s);
     Engine.paginationMode := Some Engine.Paginated;
     Engine.paginationScale := Some (paginationScale s);
     Engine.renderAnnotations := Some (negb (String.eqb (annotationMode s) "disabled"));
     Engine.annotationLabelMode := getAnnotationLabelMode (annotationMode s);
     Engine.annotationCssClassPrefix := Some (annotationCssClassPrefix s);
     Engine.renderFootnotesAndEndnotes := Some (renderFootnotesAndEndnotes s);
     Engine.renderHeadersAndFooters := Some (renderHeadersAndFooters s);
     Engine.renderTrackedChanges := Some (renderTrackedChanges s);
     Engine.showDeletedContent := Some (showDeletedContent s);
     Engine.renderMoveOperations := Some (renderMoveOperations s) |}.

(** [useWorker && worker ? viaWorker(worker) : direct] *)
Definition routed {A : Type} (p : DocumentViewerProps) (st : State)
  (viaWorker : Engine.WorkerDocxodus -> A) (direct : A) : A :=
  if useWorkerOf p then
    match worker st with
    | Some w => viaWorker w
    | None => direct
    end
  else direct.

Definition fetchMetadata (p : DocumentViewerProps) (st : State)
  (fileToFetch : Engine.File) : Handler :=
  outcome <- routed p st
               (fun w => await (Engine.GetDocumentMetadata (Engine.ViaWorker w) fileToFetch))
               (await (Engine.GetDocumentMetadata Engine.Direct fileToFetch)) ;;
  match outcome with
  | Fulfilled metadata => update (setDocumentMetadata (Some metadata))
  | Rejected _ => update (setDocumentMetadata None)
  end.

Definition extractRevisions (p : DocumentViewerProps) (h : HookResult) (st : State)
  (fileToExtract : Engine.File) : Handler :=
  if negb (isReady p h st) || negb (showRevisionsTabOf p) then skip
  else
    update (setIsExtractingRevisions true) ;;
    outcome <- routed p st
                 (fun w => await (Engine.GetRevisions (Engine.ViaWorker w) fileToExtract))
                 (await (Engine.GetRevisions Engine.Direct fileToExtract)) ;;
    match outcome with
    | Fulfilled extractedRevisions =>
        update (setRevisions extractedRevisions) ;;
        notify (onRevisionsExtracted p) (OnRevisionsExtracted extractedRevisions)
    | Rejected _ => update (setRevisions [])
    end ;;
    update (setIsExtractingRevisions false).

Definition convert (p : DocumentViewerProps) (h : HookResult) (st : State)
  (fileToConvert : Engine.File) : Handler :=
  if negb (isReady p h st) then skip
  else
    update (setIsConverting true) ;;
    update (setError None) ;;
    update (setRevisions []) ;;
    update (setViewMode DocumentMode) ;;
    notify (onConversionStart p) OnConversionStart ;;
    when (negb (useWorkerOf p)) (emit AnimationFrames) ;;
    outcome <- routed p st
                 (fun w => await (Engine.ConvertToHtml (Engine.ViaWorker w)
                                    (Engine.OfFile fileToConvert)
                                    (getConvertOptions (currentSettings p st))))
                 (await (Engine.ConvertToHtml Engine.Direct
                           (Engine.OfFile fileToConvert)
                           (getConvertOptions (currentSettings p st)))) ;;
    match outcome with
    | Fulfilled result =>
        when (htmlUncontrolled p) (update (setInternalHtml (Some result))) ;;
        notify (onConversionComplete p) (OnConversionComplete result) ;;
        emit (Start (StartExtractRevisions fileToConvert))
    | Rejected err =>
        update (setError (Some (toError err))) ;;
        notify (onError p) (OnError (toError err))
    end ;;
    update (setIsConverting false).

Definition handleFileChange (p : DocumentViewerProps) (h : HookResult) (st : State)
  (selectedFile : option Engine.File) : Handler :=
  match selectedFile with
  | Some f =>
      update (setFileName (Engine.name f)) ;;
      update (setError None) ;;
      update (setCurrentPage 1) ;;
      update (setTotalPages 0) ;;
      update (setDocumentMetadata None) ;;
      update (setRevisions []) ;;
      update (setViewMode DocumentMode) ;;
      when (fileUncontrolled p)
        (update (setInternalFile (Some f)) ;; update (setInternalHtml None)) ;;
      notify (onFileChange p) (OnFileChange (Some f)) ;;
      emit (Start (StartFetchMetadata f)) ;;
      when (isReady p h st && htmlUncontrolled p) (convert p h st f)
  | None => skip
  end.

Definition reconvert (p : DocumentViewerProps) (h : HookResult) (st : State) : Handler :=
  match currentFile p st with
  | Some f =>
      when (htmlUncontrolled p) (update (setInternalHtml None)) ;;
      convert p h st f
  | None => skip
  end.

Definition handleClear (p : DocumentViewerProps) : Handler :=
  when (fileUncontrolled p) (update (setInternalFile None)) ;;
  when (htmlUncontrolled p) (update (setInternalHtml None)) ;;
  update (setError None) ;;
  update (setFileName "") ;;
  update (setCurrentPage 1) ;;
  update (setTotalPages 0) ;;
  update (setRevisions []) ;;
  update (setViewMode DocumentMode) ;;
  update (setDocumentMetadata None) ;;
  notify (onFileChange p) (OnFileChange None) ;;
  emit ResetFileInput.

Definition updateSettings (p : DocumentViewerProps) (st : State)
  (updates : PartialSettings) : Handler :=
  let newSettings := spread (currentSettings p st) updates in
  when (settingsUncontrolled p) (update (setInternalSettings newSettings)) ;;
  notify (onSettingsChange p) (OnSettingsChange newSettings).

(** Zoom controls; [Math.min] and [Math.max] on exact rationals. *)
Definition zoomedIn (scale : Q) : Q := Qmin (scale + (1 # 10)) 2.
Definition zoomedOut (scale : Q) : Q := Qmax (scale - (1 # 10)) (3 # 10).
Definition zoomedTo (value : Q) : Q := Qmax (3 # 10) (Qmin 2 value).

Definition handleZoomIn (p : DocumentViewerProps) (st : State) : Handler :=
  updateSettings p st (scaleUpdate (zoomedIn (paginationScale (currentSettings p st)))).
Definition handleZoomOut (p : DocumentViewerProps) (st : State) : Handler :=
  updateSettings p st (scaleUpdate (zoomedOut (paginationScale (currentSettings p st)))).
Definition handleZoomChange (p : DocumentViewerProps) (st : State) (value : Q) : Handler :=
  updateSettings p st (scaleUpdate (zoomedTo value)).

(** Page navigation: the only effect is a scroll, of the page's element
    when the container is mounted and holds one.
    [if (!container || pageNum < 1 || pageNum > totalPages) return;]
    then [if (pageElement) pageElement.scrollIntoView(...)]. *)
Definition goToPage (st : State) (pageNum : Z) : Handler :=
  match paginatedContainerRef st with
  | None => skip
  | Some container =>
      if (pageNum <? 1)%Z || (totalPages st <? pageNum)%Z then skip
      else if querySelector container pageNum then emit (ScrollToPage pageNum)
      else skip
  end.
Definition goToPreviousPage (st : State) : Handler :=
  when (1 <? currentPage st)%Z (goToPage st (currentPage st - 1)).
Definition goToNextPage (st : State) : Handler :=
  when (currentPage st <? totalPages st)%Z (goToPage st (currentPage st + 1)).

(** *** What is rendered *)

(** The click targets of the toolbar and of the settings modal. *)
Inductive Control :=
| ClearButton
| DocumentTab
| ChangesTab
| PreviousPageButton
| NextPageButton
| ZoomOutButton
| ZoomInButton
| SettingsButton
| ModalOverlay
| ModalBody
| ModalCloseButton
| ApplyAndCloseButton.

Definition Control_eqb (a b : Control) : bool :=
  match a, b with
  | ClearButton, ClearButton
  | DocumentTab, DocumentTab
  | ChangesTab, ChangesTab
  | PreviousPageButton, PreviousPageButton
  | NextPageButton, NextPageButton
  | ZoomOutButton, ZoomOutButton
  | ZoomInButton, ZoomInButton
  | SettingsButton, SettingsButton
  | ModalOverlay, ModalOverlay
  | ModalBody, ModalBody
  | ModalCloseButton, ModalCloseButton
  | ApplyAndCloseButton, ApplyAndCloseButton => true
  | _, _ => false
  end.

Record Button := mkButton { control : Control; disabled : bool }.

Inductive ContentBlock :=
| InitErrorMessage (shown : string)
| PagePlaceholders (count : Z)
| BusyMessage (shown : string)
| Placeholder (shown : string)
| ErrorMessage (shown : string)
| Pages (markup : Engine.Html) (scale : Q) (pageNumbers : bool)
| RevisionPanelBlock (revs : list RevisionPanel.Revision).

(** The children of the root [div.rdv-viewer], in document order. *)
Inductive Child :=
| ToolbarNode (fileLabel : string) (fileInputDisabled : bool) (buttons : list Button)
| ContentNode (blocks : list ContentBlock)
| SettingsModalNode (s : ViewerSettings).

Definition truthy (s : option string) : bool :=
  match s with
  | Some v => negb (String.eqb v "")
  | None => false
  end.

Definition isSome {A : Type} (o : option A) : bool :=
  match o with Some _ => true | None => false end.

Definition isDocumentMode (m : ViewMode) : bool :=
  match m with DocumentMode => true | RevisionsMode => false end.

Definition isProcessing (p : DocumentViewerProps) (h : HookResult) (st : State) : bool :=
  isConverting st || isLoading p h st.

Definition hasRevisions (st : State) : bool :=
  match revisions st with [] => false | _ => true end.

Definition Toolbar (p : DocumentViewerProps) (h : HookResult) (st : State) : Child :=
  let scale := paginationScale (currentSettings p st) in
  ToolbarNode
    (if String.eqb (fileName st) "" then "Open Document" else fileName st)
    (isProcessing p h st)
    ((if negb (String.eqb (fileName st) "")
      then [mkButton ClearButton (isProcessing p h st)] else [])
     ++ (if showRevisionsTabOf p && hasRevisions st && truthy (currentHtml p st)
         then [mkButton DocumentTab false; mkButton ChangesTab false] else [])
     ++ (if truthy (currentHtml p st) && (0 <? totalPages st)%Z
            && isDocumentMode (viewMode st)
         then [mkButton PreviousPageButton (currentPage st <=? 1)%Z;
               mkButton NextPageButton (totalPages st <=? currentPage st)%Z;
               mkButton ZoomOutButton (Qle_bool scale (3 # 10));
               mkButton ZoomInButton (Qle_bool 2 scale)]
         else [])
     ++ (if showSettingsButtonOf p then [mkButton SettingsButton false] else [])).

Definition Content (p : DocumentViewerProps) (h : HookResult) (st : State)
  : list ContentBlock :=
  let busy := isLoading p h st || isConverting st in
  (match initError p h st with
   | Some e => [InitErrorMessage (String.append "Failed to initialize: " (message e))]
   | None => []
   end)
  ++ (if negb (isSome (initError p h st)) && busy then
        match documentMetadata st, isConverting st with
        | Some metadata, true =>
            [PagePlaceholders
               (if (Engine.estimatedPageCount metadata =? 0)%Z then 1
                else Engine.estimatedPageCount metadata)]
        | _, _ =>
            [BusyMessage
               (if isLoading p h st && isSome (currentFile p st)
                then "Loading engine & preparing document..."
                else if isLoading p h st then "Loading document engine..."
                else "Processing document...")]
        end
      else [])
  ++ (if negb (isLoading p h st) && negb (isSome (initError p h st))
         && negb (truthy (currentHtml p st)) && negb (isConverting st)
         && negb (isSome (currentFile p st))
      then [Placeholder (placeholderOf p)] else [])
  ++ (match error st with
      | Some e =>
          if negb (isConverting st)
          then [ErrorMessage (String.append "Error: " (message e))] else []
      | None => []
      end)
  ++ (match currentHtml p st with
      | Some markup =>
          if truthy (currentHtml p st) && negb (isConverting st) then
            match viewMode st with
            | DocumentMode =>
                [Pages markup (paginationScale (currentSettings p st))
                   (showPageNumbers (currentSettings p st))]
            | RevisionsMode => [RevisionPanelBlock (revisions st)]
            end
          else []
      | None => []
      end).

Definition render (p : DocumentViewerProps) (h : HookResult) (st : State)
  : list Child :=
  (if String.eqb (toolbarOf p) "top" then [Toolbar p h st] else [])
  ++ [ContentNode (Content p h st)]
  ++ (if String.eqb (toolbarOf p) "bottom" then [Toolbar p h st] else [])
  ++ (if showSettings st then [SettingsModalNode (currentSettings p st)] else []).

Definition isToolbar (c : Child) : bool :=
  match c with ToolbarNode _ _ _ => true | _ => false end.
Definition isContent (c : Child) : bool :=
  match c with ContentNode _ => true | _ => false end.
Definition isSettingsModal (c : Child) : bool :=
  match c with SettingsModalNode _ => true | _ => false end.

(** The controls of a rendered tree that react to a click. *)
Definition controlsOfChild (c : Child) : list Control :=
  match c with
  | ToolbarNode _ _ buttons =>
      map control (List.filter (fun b => negb (disabled b)) buttons)
  | ContentNode _ => []
  | SettingsModalNode _ =>
      [ModalOverlay; ModalBody; ModalCloseButton; ApplyAndCloseButton]
  end.

Definition clickable (p : DocumentViewerProps) (h : HookResult) (st : State)
  : list Control :=
  flat_map controlsOfChild (render p h st).

Definition handlePageVisible (p : DocumentViewerProps) (st : State)
  (pageNumber : Z) : Handler :=
  update (setCurrentPage pageNumber) ;;
  notify (onPageChange p) (OnPageChange pageNumber (totalPages st)).

(** The [onClick] handlers. A click on the modal's body stops at the modal
    ([stopPropagation]); [Apply & Close] starts [reconvert] without awaiting
    it and closes the modal. *)
Definition click (p : DocumentViewerProps) (h : HookResult) (st : State)
  (c : Control) : Handler :=
  match c with
  | ClearButton => handleClear p
  | DocumentTab => update (setViewMode DocumentMode)
  | ChangesTab => update (setViewMode RevisionsMode)
  | PreviousPageButton => goToPreviousPage st
  | NextPageButton => goToNextPage st
  | ZoomOutButton => handleZoomOut p st
  | ZoomInButton => handleZoomIn p st
  | SettingsButton => update (setShowSettings true)
  | ModalOverlay => update (setShowSettings false)
  | ModalBody => skip
  | ModalCloseButton => update (setShowSettings false)
  | ApplyAndCloseButton => emit (Start StartReconvert) ;; update (setShowSettings false)
  end.

(** Everything the user can do to the viewer, and what the paginated
    document reports back. *)
Inductive UiEvent :=
| Click (c : Control)
| ChooseFile (selectedFile : option Engine.File)
| SelectZoom (value : Q)
| TypePageNumber (page : option Z)
| ChangeSetting (updates : PartialSettings)
| PaginationComplete (total : Z)
| PageVisible (pageNumber : Z).

Definition handle (p : DocumentViewerProps) (h : HookResult) (st : State)
  (ev : UiEvent) : Handler :=
  match ev with
  | Click c => click p h st c
  | ChooseFile selectedFile => handleFileChange p h st selectedFile
  | SelectZoom value => handleZoomChange p st value
  | TypePageNumber (Some page) => goToPage st page
  | TypePageNumber None => skip
  | ChangeSetting updates => updateSettings p st updates
  | PaginationComplete total => update (setTotalPages total)
  | PageVisible pageNumber => handlePageVisible p st pageNumber
  end.

Definition step (engine : Engine.Oracle) (p : DocumentViewerProps) (h : HookResult)
  (st : State) (ev : UiEvent) : State :=
  finalState engine (handle p h st ev) st.

(** The handler a started [async] function runs as. *)
Definition started (p : DocumentViewerProps) (h : HookResult) (st : State)
  (what : Started) : Handler :=
  match what with
  | StartFetchMetadata doc => fetchMetadata p st doc
  | StartExtractRevisions doc => extractRevisions p h st doc
  | StartReconvert => reconvert p h st
  end.

(** What [convert] leaves behind once the engine has answered. *)
Definition converted (p : DocumentViewerProps) (outcome : Settled Engine.Html)
  (st : State) : State :=
  setIsConverting false
    (match outcome with
     | Fulfilled result =>
         if htmlUncontrolled p then setInternalHtml (Some result) else (fun s => s)
     | Rejected err => setError (Some (toError err))
     end (setViewMode DocumentMode
            (setRevisions [] (setError None (setIsConverting true st))))).

(** The route the [useWorker] prop and the [worker] cell select: the worker
    proxy when the prop is true and the proxy has been created, the page
    otherwise. *)
Definition selectedRoute (p : DocumentViewerProps) (st : State) : Engine.Route :=
  match useWorkerOf p, worker st with
  | true, Some w => Engine.ViaWorker w
  | _, _ => Engine.Direct
  end.

(** The children before and after the content area. *)
Fixpoint beforeContent (children : list Child) : list Child :=
  match children with
  | [] => []
  | ContentNode _ :: _ => []
  | c :: rest => c :: beforeContent rest
  end.

Fixpoint afterContent (children : list Child) : list Child :=
  match children with
  | [] => []
  | ContentNode _ :: rest => rest
  | _ :: rest => afterContent rest
  end.

Definition isErrorMessage (b : ContentBlock) : bool :=
  match b with ErrorMessage _ => true | _ => false end.

(** Whether some control on screen, when clicked, opens the settings modal. *)
Definition canOpenSettings (engine : Engine.Oracle) (p : DocumentViewerProps)
  (h : HookResult) (st : State) : bool :=
  existsb (fun c => showSettings (step engine p h st (Click c))) (clickable p h st).

(** The hook while the worker does the work, and the viewer once the worker
    created for [<DocumentViewer />] is ready. *)
Definition idleHook : HookResult := mkHook false false None.

Definition sampleWorker : Engine.WorkerDocxodus := Engine.mkWorker 1.

Definition readyState (p : DocumentViewerProps) : State :=
  workerCreated sampleWorker (workerEffectBegin true p (initialState p)).

(** ... and after the user has opened [sampleFile] with the mocked engine. *)
Definition viewingState (p : DocumentViewerProps) : State :=
  step Engine.mockOracle p idleHook (readyState p)
    (ChooseFile (Some Engine.sampleFile)).

(** [<DocumentViewer useWorker={false} />] *)
Definition withoutWorker : DocumentViewerProps :=
  mkProps None None None None None None None None (Some false)
    false false false false false false false.

(** [<DocumentViewer showSettingsButton={false} />] *)
Definition withoutSettingsButton : DocumentViewerProps :=
  mkProps None None None None None (Some false) None None None
    false false false false false false false.

End DocumentViewer.

(** ** The demo viewer's zoom toolbar (a later version of the demo's
    DocumentViewer): each handler gives the new value of the
    [paginationScale] cell. *)

Module DemoZoom.

Definition handleZoomIn (paginationScale : Q) : Q :=
  Qmin (paginationScale + (1 # 10)) 2.

Definition handleZoomOut (paginationScale : Q) : Q :=
  Qmax (paginationScale - (1 # 10)) (3 # 10).

Definition handleZoomChange (value : Q) : Q :=
  Qmax (3 # 10) (Qmin 2 value).

End DemoZoom.

(** ** The demo's annotation editor (AnnotationViewer) *)

Module AnnotationViewer.
Import Js Task Task.Notations.

(** The cells the two handlers below read or write; the form cells of the
    "add annotation" dialog are left out. *)
Record State := mkState {
  file : option Engine.File;
  documentBytes : option (list N);
  annotations : list Engine.Annotation;
  html : option Engine.Html;
  isLoading : bool;
  error : option JsError
}.

Definition setDocumentBytes (v : option (list N)) (st : State) : State :=
  mkState (file st) v (annotations st) (html st) (isLoading st) (error st).
Definition setAnnotations (v : list Engine.Annotation) (st : State) : State :=
  mkState (file st) (documentBytes st) v (html st) (isLoading st) (error st).
Definition setHtml (v : option Engine.Html) (st : State) : State :=
  mkState (file st) (documentBytes st) (annotations st) v (isLoading st) (error st).
Definition setIsLoading (v : bool) (st : State) : State :=
  mkState (file st) (documentBytes st) (annotations st) (html st) v (error st).
Definition setError (v : option JsError) (st : State) : State :=
  mkState (file st) (documentBytes st) (annotations st) (html st)
    (isLoading st) v.

Inductive Effect :=
| ConsoleError (label : string) (err : Thrown).

Definition Handler := Task State Effect unit.

(** [{ renderAnnotations: true, annotationLabelMode: AnnotationLabelMode.Above }] *)
Definition annotationOptions : Engine.ConversionOptions :=
  Engine.mkOptions None None None None None None None None
    (Some true) (Some Engine.Above) None None None None None None.

(** The [catch] of [loadDocument]:
    [setError(err instanceof Error ? err : new Error('Failed to load document'))]. *)
Definition catchLoad (err : Thrown) : Handler :=
  update (setError (Some (toErrorOr "Failed to load document" err))).

(** [arrayBuffer] stands for [new Uint8Array(await docFile.arrayBuffer())]:
    the browser reads the file and returns its bytes, or the promise is
    rejected (the file has been moved or cannot be read); it is the third
    awaited step inside the [try]. *)
Definition loadDocument (arrayBuffer : Engine.File -> Settled (list N))
  (isReady : bool) (docFile : Engine.File) : Handler :=
  if negb isReady then skip
  else
    update (setIsLoading true) ;;
    update (setError None) ;;
    first <- await (Engine.GetAnnotations (Engine.OfFile docFile)) ;;
    match first with
    | Rejected err => catchLoad err
    | Fulfilled annots =>
        update (setAnnotations annots) ;;
        second <- await (Engine.ConvertToHtml Engine.Direct (Engine.OfFile docFile)
                           annotationOptions) ;;
        match second with
        | Rejected err => catchLoad err
        | Fulfilled htmlResult =>
            update (setHtml (Some htmlResult)) ;;
            match arrayBuffer docFile with
            | Rejected err => catchLoad err
            | Fulfilled bytes => update (setDocumentBytes (Some bytes))
            end
        end
    end ;;
    update (setIsLoading false).

Definition catchRemove (err : Thrown) : Handler :=
  emit (ConsoleError "Failed to remove annotation:" err).

(** [atob] either returns the decoded bytes or throws. *)
Definition handleRemoveAnnotation (atob : string -> Settled (list N)) (st : State)
  (annotationId : string) : Handler :=
  match documentBytes st with
  | None => skip
  | Some current =>
      removed <- await (Engine.RemoveAnnotation current annotationId) ;;
      match removed with
      | Rejected err => catchRemove err
      | Fulfilled None => skip
      | Fulfilled (Some result) =>
          match Engine.documentBytes result with
          | Some encoded =>
              if Engine.success result && negb (String.eqb encoded "") then
                match atob encoded with
                | Rejected err => catchRemove err
                | Fulfilled bytes =>
                    update (setDocumentBytes (Some bytes)) ;;
                    refreshed <- await (Engine.GetAnnotations (Engine.OfBytes bytes)) ;;
                    match refreshed with
                    | Rejected err => catchRemove err
                    | Fulfilled annots =>
                        update (setAnnotations annots) ;;
                        converted <- await (Engine.ConvertToHtml Engine.Direct
                                              (Engine.OfBytes bytes) annotationOptions) ;;
                        match converted with
                        | Rejected err => catchRemove err
                        | Fulfilled htmlResult => update (setHtml (Some htmlResult))
                        end
                    end
                end
              else skip
          | None => skip
          end
      end
  end.

Inductive Block :=
| ErrorMessage (shown : string)
| Editor (items : list Engine.Annotation) (preview : option Engine.Html).

(** [isProcessing = isLoading || isInitializing] *)
Definition render (isInitializing : bool) (st : State) : list Block :=
  let isProcessing := isLoading st || isInitializing in
  (match error st with
   | Some e =>
       if negb isProcessing then [ErrorMessage (String.append "Error: " (message e))]
       else []
   | None => []
   end)
  ++ (match file st, error st with
      | Some _, None =>
          if negb isProcessing then [Editor (annotations st) (html st)] else []
      | _, _ => []
      end).

End AnnotationViewer.

(** ** vite.config.ts: the plugin serving the WASM files in development *)

Module ViteConfig.
Import Js.

(** Node's [process.cwd], [path.join], [fs.existsSync] and
    [fs.readFileSync]; the last one returns the bytes or throws. *)
Class Node := {
  cwd : string;
  join : string -> string -> string;
  existsSync : string -> bool;
  readFileSync : string -> Settled (list N)
}.

(** [s.startsWith(prefix)] and [s.endsWith(suffix)] *)
Definition startsWith (s prefix : string) : bool := String.prefix prefix s.

Fixpoint isPrefixOf (p l : list ascii) : bool :=
  match p, l with
  | [], _ => true
  | _ :: _, [] => false
  | a :: p', b :: l' => Ascii.eqb a b && isPrefixOf p' l'
  end.

(** The suffix read backwards starts the string read backwards. *)
Definition endsWith (s suffix : string) : bool :=
  isPrefixOf (rev (list_ascii_of_string suffix)) (rev (list_ascii_of_string s)).

Record Request := mkRequest { url : option string }.

(** The response under construction: its headers, in the order set. *)
Record Response := mkResponse { headers : list (string * string) }.

(** Node keys the headers of a response by [name.toLowerCase()]: names
    are compared without regard to case. Header names are ASCII tokens. *)
Definition toLowerAscii (c : ascii) : ascii :=
  let n := N_of_ascii c in
  if ((65 <=? n) && (n <=? 90))%N then ascii_of_N (n + 32) else c.

Fixpoint toLowerCase (s : string) : string :=
  match s with
  | EmptyString => EmptyString
  | String c rest => String (toLowerAscii c) (toLowerCase rest)
  end.

Definition sameHeader (a b : string) : bool :=
  String.eqb (toLowerCase a) (toLowerCase b).

(** [res.setHeader(name, value)] replaces a header of that name, whatever
    the case it was set in. *)
Definition setHeader (name value : string) (res : Response) : Response :=
  {| headers :=
       List.filter (fun h => negb (sameHeader (fst h) name)) (headers res)
       ++ [(name, value)] |}.

Inductive Outcome :=
| Ended (res : Response) (body : list N)
| Next (req : Request) (res : Response)
| Threw (err : Thrown).

Section WithNode.
Context {node : Node}.

Definition publicDir : string := join cwd "public".

Definition middleware (req : Request) (res : Response) : Outcome :=
  let u := match url req with Some v => v | None => "" end in
  if startsWith u "/wasm/_framework/" then
    let filePath := join publicDir u in
    if existsSync filePath then
      match readFileSync filePath with
      | Rejected err => Threw err
      | Fulfilled content =>
          let res1 :=
            if endsWith u ".js" then setHeader "Content-Type" "application/javascript" res
            else if endsWith u ".wasm" then setHeader "Content-Type" "application/wasm" res
            else if endsWith u ".json" then setHeader "Content-Type" "application/json" res
            else res in
          let res2 := setHeader "Cross-Origin-Opener-Policy" "same-origin" res1 in
          let res3 := setHeader "Cross-Origin-Embedder-Policy" "require-corp" res2 in
          Ended res3 content
      end
    else Next req res
  else Next req res.

End WithNode.

(** A project directory holding one file of the engine. *)
Definition sampleNode : Node :=
  {| cwd := "/app";
     join := fun a b => String.append a (if String.prefix "/" b then b
                                          else String.append "/" b);
     existsSync := fun path =>
       String.eqb path "/app/public/wasm/_framework/dotnet.native.wasm";
     readFileSync := fun path =>
       if String.eqb path "/app/public/wasm/_framework/dotnet.native.wasm"
       then Fulfilled [0%N; 97%N; 115%N; 109%N]
       else Rejected (ThrownError (mkError "ENOENT: no such file or directory")) |}.

(** [res.getHeader(name)]: the value of a header of a response, if it is
    set; the name is looked up without regard to case. *)
Definition getHeader (name : string) (res : Response) : option string :=
  match List.find (fun h => sameHeader (fst h) name) (headers res) with
  | Some h => Some (snd h)
  | None => None
  end.

End ViteConfig.

(** ** More of the revision panel *)

Module RevisionPanelOptions.
Import Js RevisionPanel.

(** The count an entry of the filter dropdown shows in its label:
    ["Insertions ({stats.insertions})"] and so on; ["All Changes"] shows
    none. *)
Definition optionCount (f : FilterType) (s : Stats) : option nat :=
  match f with
  | FAll => None
  | FInsertions => Some (insertions s)
  | FDeletions => Some (deletions s)
  | FMoves => Some (moves s)
  | FFormatting => Some (formatting s)
  end.

(** The items of a rendered panel; the empty state has none. *)
Definition itemsOf (v : PanelView) : list ItemView :=
  match v with
  | EmptyPanel => []
  | Panel _ _ items => items
  end.

(** Two long revisions of different kinds: 150 times ['A'], 120 times ['B']. *)
Definition longDeletion : Revision :=
  mkRevision "Jane Smith" "2024-01-16T14:00:00Z" "Deleted" (repeat 66%N 120) None None.

Definition longRevisions : list Revision := [longRevision; longDeletion].

End RevisionPanelOptions.

(** ** More of the library's viewer *)

Module DocumentViewerEffects.
Import Js Task Task.Notations Types DocumentViewer.

(** The effect "auto-convert when WASM ready and file available":
    [if (isReady && file && !html && !isConverting && controlledHtml === undefined)
       convert(file)]. *)
Definition autoConvertDue (p : DocumentViewerProps) (h : HookResult) (st : State)
  : bool :=
  isReady p h st && isSome (currentFile p st) && negb (truthy (currentHtml p st))
  && negb (isConverting st) && htmlUncontrolled p.

Definition autoConvert (p : DocumentViewerProps) (h : HookResult) (st : State)
  : Handler :=
  if autoConvertDue p h st then
    match currentFile p st with
    | Some f => convert p h st f
    | None => skip
    end
  else skip.

(** One thing that happens to the viewer: the worker effect starts, the
    worker is created or fails to be, the effect is cleaned up, a
    handler (of an event, of a started [async] function, of the
    auto-convert effect) created by some render [closure] runs to its end
    on the current state, or React mounts or unmounts the container of the
    paginated document. *)
Inductive Transition (engine : Engine.Oracle) (p : DocumentViewerProps)
  (h : HookResult) : State -> State -> Prop :=
| worker_begins : forall supported st,
    Transition engine p h st (workerEffectBegin supported p st)
| worker_is_created : forall w st,
    Transition engine p h st (workerCreated w st)
| worker_fails : forall err st,
    Transition engine p h st (workerFailed err st)
| worker_is_cleaned_up : forall st,
    Transition engine p h st (workerCleanup st)
| event_is_handled : forall closure ev st,
    Transition engine p h st (finalState engine (handle p h closure ev) st)
| started_runs : forall closure what st,
    Transition engine p h st (finalState engine (started p h closure what) st)
| effect_converts : forall closure st,
    Transition engine p h st (finalState engine (autoConvert p h closure) st)
| container_changes : forall v st,
    Transition engine p h st (attachContainer v st).

Inductive Reachable (engine : Engine.Oracle) (p : DocumentViewerProps)
  (h : HookResult) : State -> Prop :=
| reach_initial : Reachable engine p h (initialState p)
| reach_next : forall st st',
    Reachable engine p h st -> Transition engine p h st st' ->
    Reachable engine p h st'.

(** The two cells the worker effect owns besides its loading flag and error. *)
Definition workerCells (st : State) : option Engine.WorkerDocxodus * bool :=
  (worker st, workerReady st).

(** The viewer after a conversion of [sampleFile] that the engine rejected. *)
Definition rejectedState (p : DocumentViewerProps) : State :=
  step (Engine.rejecting (ThrownError (mkError "Invalid DOCX"))) p idleHook
    (readyState p) (ChooseFile (Some Engine.sampleFile)).

(** A mounted container in which the paginated document has laid out
    three pages. *)
Definition threePages : Container :=
  mkContainer (fun n => (1 <=? n)%Z && (n <=? 3)%Z).

(** [<DocumentViewer settings={{ paginationScale: 1.5 }} onSettingsChange={...} />] *)
Definition controlledScale : DocumentViewerProps :=
  mkProps None None (Some (scaleUpdate (15 # 10))) None None None None None None
    false false false false false false true.

End DocumentViewerEffects.

(** ** More of the development server's plugin *)

Module ViteConfigPlugin.
Import Js ViteConfig.

(** [s.includes(needle)] *)
Fixpoint includes (s needle : string) : bool :=
  String.prefix needle s
  || match s with
     | EmptyString => false
     | String _ rest => includes rest needle
     end.

(** What [resolveId] returns: [{ id: source, external: true }] or [null]. *)
Inductive Resolved :=
| External (id : string)
| NotResolved.

Definition resolveId (source : string) : Resolved :=
  if startsWith source "/wasm/_framework/" || includes source "/wasm/_framework/"
  then External source
  else NotResolved.

(** How many headers of a name, in whatever case, a response carries. *)
Definition countHeader (name : string) (res : Response) : nat :=
  List.length (List.filter (fun h => sameHeader (fst h) name) (headers res)).

(** A project whose [public/wasm/_framework] exists, as it must for the
    engine to load; asked for the directory itself, [existsSync] says yes
    and [readFileSync] throws. *)
Definition directoryError : Thrown :=
  ThrownError (mkError "EISDIR: illegal operation on a directory, read").

Definition directoryNode : Node :=
  {| cwd := "/app";
     join := fun a b => String.append a (if String.prefix "/" b then b
                                          else String.append "/" b);
     existsSync := fun path => String.eqb path "/app/public/wasm/_framework/";
     readFileSync := fun _ => Rejected directoryError |}.

(** A response on which an earlier middleware has set headers already, in
    lower case. *)
Definition lowerCaseResponse : Response :=
  mkResponse [("content-type", "text/plain");
              ("cross-origin-opener-policy", "unsafe-none");
              ("cache-control", "no-cache")].

End ViteConfigPlugin.

(** ** vite.config.ts, the configuration that also builds the library: its
    plugin serves all of [/wasm/] and drops the query string first *)

Module ViteConfigWasmDir.
Import Js ViteConfig.

(** [s.indexOf(c)] for a one-character needle: the first position, or -1. *)
Fixpoint indexOf (c : ascii) (s : string) : Z :=
  match s with
  | EmptyString => (-1)%Z
  | String a rest =>
      if Ascii.eqb a c then 0%Z
      else let i := indexOf c rest in
           if (i <? 0)%Z then (-1)%Z else (i + 1)%Z
  end.

(** [let url = req.url || ''; const queryIndex = url.indexOf('?');
     if (queryIndex > -1) url = url.substring(0, queryIndex)] *)
Definition stripQuery (url : string) : string :=
  let queryIndex := indexOf "?"%char url in
  if (-1 <? queryIndex)%Z then String.substring 0 (Z.to_nat queryIndex) url
  else url.

Section WithNode.
Context {node : Node}.

Definition middleware (req : Request) (res : Response) : Outcome :=
  let u := stripQuery (match url req with Some v => v | None => "" end) in
  if startsWith u "/wasm/" then
    let filePath := join publicDir u in
    if existsSync filePath then
      match readFileSync filePath with
      | Rejected err => Threw err
      | Fulfilled content =>
          let res1 :=
            if endsWith u ".js" then setHeader "Content-Type" "application/javascript" res
            else if endsWith u ".wasm" then setHeader "Content-Type" "application/wasm" res
            else if endsWith u ".json" then setHeader "Content-Type" "application/json" res
            else if endsWith u ".map" then setHeader "Content-Type" "application/json" res
            else res in
          let res2 := setHeader "Cross-Origin-Opener-Policy" "same-origin" res1 in
          let res3 := setHeader "Cross-Origin-Embedder-Policy" "require-corp" res2 in
          Ended res3 content
      end
    else Next req res
  else Next req res.

End WithNode.

(** The outcome as the client sees it: what was sent, or that the request
    went on (or the handler threw). *)
Inductive Seen :=
| Sent (res : Response) (body : list N)
| WentOn (res : Response)
| Failed (err : Thrown).

Definition seen (o : Outcome) : Seen :=
  match o with
  | Ended res body => Sent res body
  | Next _ res => WentOn res
  | Threw err => Failed err
  end.

End ViteConfigWasmDir.

(** ** Samples for the annotation editor *)

Module AnnotationSamples.
Import Js Engine.

(** The removal succeeds, the refresh of the annotations is rejected. *)
Definition refreshError : Thrown := ThrownError (mkError "Corrupt annotations").

Definition removalOracle : Oracle :=
  fun R op =>
    match op in EngineOp R return Settled R with
    | RemoveAnnotation _ _ => Fulfilled (Some (mkAnnotationResult true (Some "UEs=")))
    | GetAnnotations _ => Rejected refreshError
    | ConvertToHtml _ _ _ => Fulfilled "<div>Mock HTML</div>"
    | GetRevisions _ _ => Fulfilled []
    | GetDocumentMetadata _ _ => Fulfilled mockMetadata
    end.

(** [atob("UEs=")] is ["PK"]. *)
Definition sampleAtob (encoded : string) : Settled (list N) :=
  if String.eqb encoded "UEs=" then Fulfilled [80%N; 75%N]
  else Rejected (ThrownError (mkError "InvalidCharacterError")).

(** [docFile.arrayBuffer()] of a file that was moved after it was chosen. *)
Definition unreadable (docFile : File) : Settled (list N) :=
  Rejected (ThrownError (mkError "The file could not be read")).

Definition loadedState : AnnotationViewer.State :=
  AnnotationViewer.mkState (Some sampleFile) (Some [1%N; 2%N; 3%N])
    [mkAnnotation "a1" "Clause"] (Some "<p>old</p>") false None.

End AnnotationSamples.

(* ================================================================== *)
(** * Part II: properties *)
(* ================================================================== *)

(** ** The revision panel *)

Module RevisionPanelFacts.
Import Js RevisionPanel RevisionPanelOptions.

Lemma js_length_nonneg (s : js_string) : (0 <= js_length s)%Z.
Proof. unfold js_length. lia. Qed.

Lemma js_length_app (a b : js_string) :
  js_length (a ++ b) = (js_length a + js_length b)%Z.
Proof. unfold js_length. rewrite length_app. lia. Qed.

Lemma firstn_clamped {A : Type} (l : list A) (n : nat) :
  firstn (Nat.min n (List.length l)) l = firstn n l.
Proof.
  destruct (Nat.le_ge_cases n (List.length l)) as [Hle | Hge].
  - now rewrite Nat.min_l.
  - rewrite Nat.min_r by exact Hge.
    now rewrite firstn_all, firstn_all2.
Qed.

(** [text.substring(0, n)] is the first [n] code units, for [n >= 0]. *)
Lemma substring_from_start (text : js_string) (n : Z) :
  (0 <= n)%Z -> substring text 0 n = firstn (Z.to_nat n) text.
Proof.
  intros Hn. unfold substring, clamp_index.
  pose proof (js_length_nonneg text) as Hlen.
  rewrite (Z.max_l 0 0) by lia.
  rewrite (Z.min_l 0 (js_length text)) by lia.
  rewrite (Z.max_l n 0) by lia.
  rewrite (Z.min_l 0 (Z.min n (js_length text))) by lia.
  rewrite (Z.max_r 0 (Z.min n (js_length text))) by lia.
  rewrite Z.sub_0_r. cbn [Z.to_nat skipn].
  unfold js_length. rewrite Z2Nat.inj_min, Nat2Z.id.
  apply firstn_clamped.
Qed.

(** A negative [maxLength] cuts everything. *)
Lemma substring_negative_end (text : js_string) (n : Z) :
  (n < 0)%Z -> substring text 0 n = [].
Proof.
  intros Hn. unfold substring, clamp_index.
  pose proof (js_length_nonneg text) as Hlen.
  rewrite (Z.max_r n 0) by lia.
  rewrite (Z.max_l 0 0) by lia.
  rewrite !(Z.min_l 0 (js_length text)) by lia.
  reflexivity.
Qed.

Lemma js_length_firstn (text : js_string) (n : Z) :
  (0 <= n <= js_length text)%Z -> js_length (firstn (Z.to_nat n) text) = n.
Proof.
  unfold js_length. intros Hn. rewrite length_firstn. lia.
Qed.

Section WithEngine.
Context {engine : Docxodus}.

Lemma truncateText_short (text : js_string) (maxLength : Z) :
  (js_length text <= maxLength)%Z -> truncateText text maxLength = text.
Proof.
  intros H. unfold truncateText.
  now apply Z.leb_le in H as ->.
Qed.

Lemma truncateText_long (text : js_string) (maxLength : Z) :
  (0 <= maxLength < js_length text)%Z ->
  truncateText text maxLength = firstn (Z.to_nat maxLength) text ++ dots.
Proof.
  intros [H0 H]. unfold truncateText.
  apply Z.leb_gt in H as ->.
  now rewrite substring_from_start.
Qed.

Lemma truncateText_length (text : js_string) (maxLength : Z) :
  (0 <= maxLength)%Z ->
  (js_length (truncateText text maxLength) <= maxLength + 3)%Z.
Proof.
  intros H0.
  destruct (Z.le_gt_cases (js_length text) maxLength) as [Hle | Hgt].
  - rewrite truncateText_short by exact Hle. lia.
  - rewrite truncateText_long by lia.
    rewrite js_length_app, js_length_firstn by lia.
    cbn. lia.
Qed.

Lemma needsTruncation_iff (revision : Revision) :
  needsTruncation revision = true <-> (100 < js_length (text revision))%Z.
Proof. unfold needsTruncation. apply Z.ltb_lt. Qed.

Lemma renderItem_expand (formatDate : string -> string) (expanded : list nat)
  (index : nat) (revision : Revision) :
  item_expand (renderItem formatDate expanded index revision) <> None
  <-> (100 < js_length (text revision))%Z.
Proof.
  rewrite <- needsTruncation_iff. cbn.
  destruct (needsTruncation revision); split; congruence.
Qed.

Lemma nth_error_mapIndexed {A B : Type} (f : nat -> A -> B) (l : list A) :
  forall from i,
    nth_error (mapIndexed f from l) i = option_map (f (from + i)%nat) (nth_error l i).
Proof.
  induction l as [| x rest IH]; intros from i.
  - now destruct i.
  - destruct i as [| i]; cbn.
    + now rewrite Nat.add_0_r.
    + rewrite IH. now rewrite Nat.add_succ_r.
Qed.

Lemma length_mapIndexed {A B : Type} (f : nat -> A -> B) (l : list A) :
  forall from, List.length (mapIndexed f from l) = List.length l.
Proof.
  induction l as [| x rest IH]; intros from; cbn; [reflexivity | now rewrite IH].
Qed.

(** The list the panel shows for a non-empty input. *)
Lemma render_items (formatDate : string -> string) (revisions : list Revision)
  (st : PanelState) :
  revisions <> [] ->
  render formatDate revisions st
  = Panel (stats revisions) (filter st)
      (mapIndexed (renderItem formatDate (expandedIds st)) 0
         (filteredRevisions revisions (filter st))).
Proof. destruct revisions; [congruence | reflexivity]. Qed.

Lemma filter_SelectedInOrder {A : Type} (p : A -> bool) (l : list A) :
  SelectedInOrder p l (List.filter p l).
Proof.
  induction l as [| x l IH]; cbn.
  - constructor.
  - destruct (p x) eqn:Hx; now constructor.
Qed.

(** The relation determines the displayed list. *)
Lemma SelectedInOrder_unique {A : Type} (p : A -> bool) (l out : list A) :
  SelectedInOrder p l out -> out = List.filter p l.
Proof.
  induction 1 as [| x l out Hx _ IH | x l out Hx _ IH]; cbn.
  - reflexivity.
  - now rewrite Hx, IH.
  - now rewrite Hx.
Qed.

Lemma filterCallback_category (f : FilterType) (pred : Revision -> bool) :
  categoryPredicate f = Some pred ->
  forall rev, filterCallback (filter_value f) rev = pred rev.
Proof.
  destruct f; cbn; intros [= <-]; reflexivity.
Qed.

Lemma filteredRevisions_all (revisions : list Revision) :
  filteredRevisions revisions (filter_value FAll) = revisions.
Proof. reflexivity. Qed.

Lemma filteredRevisions_category (revisions : list Revision) (f : FilterType)
  (pred : Revision -> bool) :
  categoryPredicate f = Some pred ->
  filteredRevisions revisions (filter_value f) = List.filter pred revisions.
Proof.
  intros Hf. unfold filteredRevisions.
  replace (String.eqb (filter_value f) "all") with false
    by (destruct f; [discriminate Hf | reflexivity ..]).
  apply filter_ext. now apply filterCallback_category.
Qed.

End WithEngine.

(** C1: for every list of revisions and every entry of the filter
    dropdown, once the entry is selected ([setFilter(e.target.value)]) the
    panel lists, item by item and in this order, the input itself when the
    entry is ['all'], and otherwise exactly the revisions satisfying the
    entry's type guard ([isInsertion], [isDeletion], [isMove],
    [isFormatChange]), in their original order; the dropdown shows the
    entry as selected. *)
Theorem filteredRevisions_shows_selected_category
  (engine : Docxodus) (formatDate : string -> string)
  (revisions : list Revision) (st : PanelState) (f : FilterType) :
  let selected := setFilter (filter_value f) st in
  let displayed := fun shown : list Revision =>
    mapIndexed (renderItem formatDate (expandedIds st)) 0 shown in
  In f filter_options /\
  (exists shown,
     render formatDate revisions selected
     = match revisions with
       | [] => EmptyPanel
       | _ :: _ => Panel (stats revisions) (filter_value f) (displayed shown)
       end /\
     itemsOf (render formatDate revisions selected) = displayed shown /\
     List.length (itemsOf (render formatDate revisions selected)) = List.length shown /\
     (forall i,
        nth_error (itemsOf (render formatDate revisions selected)) i
        = option_map (renderItem formatDate (expandedIds st) i) (nth_error shown i)) /\
     shown = filteredRevisions revisions (filter_value f) /\
     (f = FAll -> shown = revisions) /\
     (forall pred, categoryPredicate f = Some pred ->
        shown = List.filter pred revisions /\
        SelectedInOrder pred revisions shown /\
        (forall out, SelectedInOrder pred revisions out -> out = shown))) /\
  (f <> FAll -> exists pred, categoryPredicate f = Some pred) /\
  (categoryPredicate FInsertions = Some isInsertion /\
   categoryPredicate FDeletions = Some isDeletion /\
   categoryPredicate FMoves = Some isMove /\
   categoryPredicate FFormatting = Some isFormatChange).
Proof.
  intros selected displayed.
  split; [destruct f; cbn; tauto |].
  split; [| split].
  - exists (filteredRevisions revisions (filter_value f)).
    assert (Hitems : itemsOf (render formatDate revisions selected)
                     = displayed (filteredRevisions revisions (filter_value f))).
    { destruct revisions as [| r rest]; [| reflexivity].
      unfold filteredRevisions.
      destruct (String.eqb (filter_value f) "all"); reflexivity. }
    split; [destruct revisions; reflexivity |].
    split; [exact Hitems |].
    split; [rewrite Hitems; apply length_mapIndexed |].
    split; [intros i; rewrite Hitems; apply (nth_error_mapIndexed _ _ 0%nat i) |].
    split; [reflexivity |].
    split; [intros ->; apply filteredRevisions_all |].
    intros pred Hf.
    rewrite (filteredRevisions_category revisions f pred Hf).
    split; [reflexivity | split].
    + apply filter_SelectedInOrder.
    + apply SelectedInOrder_unique.
  - destruct f; [congruence | eexists; reflexivity ..].
  - repeat split.
Qed.

(** C10: [truncateText] returns a text of at most [maxLength] code units
    unchanged and cuts a longer one to its first [maxLength] code units
    followed by ['...'], so the result has at most [maxLength + 3] code
    units ([maxLength] is a length, 100 when the argument is left out); and
    the item the panel renders for a revision carries the expand button
    exactly when the revision's text is longer than 100 code units. *)
Theorem truncateText_and_expand_button (engine : Docxodus) :
  (forall (txt : js_string) (maxLength : Z),
     (0 <= maxLength)%Z ->
     ((js_length txt <= maxLength)%Z -> truncateText txt maxLength = txt) /\
     ((maxLength < js_length txt)%Z ->
        truncateText txt maxLength = firstn (Z.to_nat maxLength) txt ++ dots /\
        js_length (firstn (Z.to_nat maxLength) txt) = maxLength) /\
     (js_length (truncateText txt maxLength) <= maxLength + 3)%Z) /\
  defaultMaxLength = 100%Z /\
  (forall (formatDate : string -> string) (revisions : list Revision)
          (st : PanelState) (i : nat) (revision : Revision),
     nth_error (filteredRevisions revisions (filter st)) i = Some revision ->
     exists items item,
       render formatDate revisions st = Panel (stats revisions) (filter st) items /\
       List.length items = List.length (filteredRevisions revisions (filter st)) /\
       nth_error items i = Some item /\
       (item_expand item <> None <-> (100 < js_length (text revision))%Z) /\
       (set_has i (expandedIds st) = false ->
          item_text item = truncateText (text revision) defaultMaxLength)).
Proof.
  split; [| split; [reflexivity |]].
  - intros txt maxLength H0.
    split; [apply truncateText_short |].
    split; [| now apply truncateText_length].
    intros Hlong; split; [apply truncateText_long | apply js_length_firstn]; lia.
  - intros formatDate revisions st i revision Hi.
    assert (Hne : revisions <> []).
    { intros ->. unfold filteredRevisions in Hi.
      destruct (String.eqb (filter st) "all"); destruct i; discriminate Hi. }
    eexists _, (renderItem formatDate (expandedIds st) i revision).
    split; [now apply render_items |].
    split; [apply length_mapIndexed |].
    split; [rewrite nth_error_mapIndexed, Hi; reflexivity |].
    split; [apply renderItem_expand |].
    intros Hexp. cbn. now rewrite Hexp.
Qed.

(** The truncation test of RevisionPanel.test.tsx: a text of 150 letters,
    shown with the default limit. *)
Lemma truncateText_and_expand_button_witness :
  (js_length (truncateText (repeat 65%N 150) 100) <= 100 + 3)%Z /\
  exists items item,
    render (engine := mockEngine) (fun d => d) [longRevision] initialPanelState
    = Panel (stats (engine := mockEngine) [longRevision]) "all" items /\
    nth_error items 0 = Some item /\
    item_expand item <> None.
Proof.
  destruct (truncateText_and_expand_button mockEngine) as (Htrunc & _ & Hpanel).
  split.
  - apply (Htrunc (repeat 65%N 150) 100%Z). lia.
  - destruct (Hpanel (fun d => d) [longRevision] initialPanelState 0%nat longRevision
                eq_refl)
      as (items & item & Hr & _ & Hn & Hb & _).
    exists items, item. repeat split; try assumption.
    apply Hb. vm_compute. reflexivity.
Defined.

(** A limit below zero is no length: nothing of the text is kept. *)
Lemma truncateText_negative_limit (txt : js_string) (maxLength : Z) :
  (maxLength < 0)%Z -> truncateText txt maxLength = dots.
Proof.
  intros H. unfold truncateText.
  pose proof (js_length_nonneg txt) as Hlen.
  replace (js_length txt <=? maxLength)%Z with false by (symmetry; apply Z.leb_gt; lia).
  now rewrite substring_negative_end.
Qed.

(** The filter test of RevisionPanel.test.tsx: after ['insertions'] is
    selected the panel lists one item, John Doe's insertion. *)
Lemma filteredRevisions_shows_selected_category_witness :
  exists item,
    itemsOf (render (engine := mockEngine) (fun d => d) mockRevisions
               (setFilter "insertions" initialPanelState)) = [item] /\
    item_author item = "John Doe" /\
    item_label item = "Inserted".
Proof.
  destruct (filteredRevisions_shows_selected_category mockEngine (fun d => d)
              mockRevisions initialPanelState FInsertions)
    as (_ & (shown & _ & Hitems & _ & _ & Hshown & _) & _).
  eexists. split.
  - etransitivity; [exact Hitems |]. rewrite Hshown. reflexivity.
  - split; reflexivity.
Defined.

End RevisionPanelFacts.

(** ** Handlers as programs: running a sequence *)

Module TaskFacts.
Import Js Engine Task.

Section Runs.
Context {S E : Type}.
Implicit Types (engine : Oracle) (st : S).

Lemma run_bind {A B : Type} engine (t : Task S E A) (f : A -> Task S E B) st :
  run engine (bind t f) st
  = let '(a, st1, tr1) := run engine t st in
    let '(b, st2, tr2) := run engine (f a) st1 in
    (b, st2, tr1 ++ tr2).
Proof.
  revert st. induction t as [a | g k IH | R op k IH | e k IH]; intros st; cbn.
  - now destruct (run engine (f a) st) as [[b st2] tr2].
  - apply IH.
  - rewrite IH.
    destruct (run engine (k (engine R op)) st) as [[a st1] tr1].
    now destruct (run engine (f a) st1) as [[b st2] tr2].
  - rewrite IH.
    destruct (run engine k st) as [[a st1] tr1].
    now destruct (run engine (f a) st1) as [[b st2] tr2].
Qed.

Lemma finalState_bind {A B : Type} engine (t : Task S E A) (f : A -> Task S E B) st :
  finalState engine (bind t f) st
  = finalState engine (f (fst (fst (run engine t st)))) (finalState engine t st).
Proof.
  unfold finalState. rewrite run_bind.
  destruct (run engine t st) as [[a st1] tr1]. cbn.
  now destruct (run engine (f a) st1) as [[b st2] tr2].
Qed.

Lemma keeps_bind {X A B : Type} (part : S -> X) (t : Task S E A)
  (f : A -> Task S E B) :
  Keeps part t -> (forall a, Keeps part (f a)) -> Keeps part (bind t f).
Proof.
  intros Ht Hf. induction Ht; cbn; try constructor; auto.
Qed.

Lemma keeps_final {X A : Type} (part : S -> X) engine (t : Task S E A) :
  Keeps part t -> forall st, part (finalState engine t st) = part st.
Proof.
  unfold finalState.
  induction 1 as [a | g k Hg _ IH | R op k _ IH | e k _ IH]; intros st; cbn.
  - reflexivity.
  - now rewrite IH, Hg.
  - specialize (IH (engine R op) st).
    now destruct (run engine (k (engine R op)) st) as [[a st1] tr1].
  - specialize (IH st).
    now destruct (run engine k st) as [[a st1] tr1].
Qed.

Lemma keeps_update_only {X : Type} (part : S -> X) (g : S -> S) :
  (forall st, part (g st) = part st) -> Keeps (E := E) part (update g).
Proof. intros Hg. constructor; [exact Hg | constructor]. Qed.

Lemma keeps_emit_only {X : Type} (part : S -> X) (e : E) :
  Keeps (S := S) part (emit e).
Proof. repeat constructor. Qed.

Lemma keeps_await_only {X R : Type} (part : S -> X) (op : EngineOp R) :
  Keeps (E := E) part (await op).
Proof. constructor. intros r. constructor. Qed.

Lemma keeps_skip {X : Type} (part : S -> X) :
  Keeps part (skip (S := S) (E := E)).
Proof. constructor. Qed.

Lemma finalState_update engine (g : S -> S) st :
  finalState engine (update (E := E) g) st = g st.
Proof. reflexivity. Qed.

Lemma finalState_skip engine st :
  finalState engine (skip (S := S) (E := E)) st = st.
Proof. reflexivity. Qed.

End Runs.

End TaskFacts.

(** ** The demo's viewer: conversion, errors and forwarded options *)

Module DemoDocumentViewerFacts.
Import Js Task Task.Notations TaskFacts DemoDocumentViewer.

Lemma update_then_final (engine : Engine.Oracle) (g : State -> State)
  (t : Handler) (st : State) :
  finalState engine (update g ;; t) st = finalState engine t (g st).
Proof. now rewrite finalState_bind. Qed.

Lemma update_then_trace (engine : Engine.Oracle) (g : State -> State)
  (t : Handler) (st : State) :
  trace engine (update g ;; t) st = trace engine t (g st).
Proof.
  unfold trace. rewrite run_bind. cbn.
  now destruct (run engine t (g st)) as [[u st2] tr2].
Qed.

Lemma convert_run (engine : Engine.Oracle) (hook : Hook) (st : State)
  (file : Engine.File) (options : Engine.ConversionOptions) :
  isReady hook = true ->
  run engine (convert hook file options) st
  = (tt,
     setIsConverting false
       (match engine _ (Engine.ConvertToHtml Engine.Direct (Engine.OfFile file) options) with
        | Fulfilled result => setHtml (Some result)
        | Rejected err => setError (Some (toError err))
        end (setHtml None (setError None (setIsConverting true st)))),
     [Called (Engine.ConvertToHtml Engine.Direct (Engine.OfFile file) options)]).
Proof.
  intros Hready. unfold convert. rewrite Hready. cbn.
  now destruct (engine _ _).
Qed.

Lemma convert_not_ready (engine : Engine.Oracle) (hook : Hook) (st : State)
  (file : Engine.File) (options : Engine.ConversionOptions) :
  isReady hook = false ->
  run engine (convert hook file options) st = (tt, st, []).
Proof. intros Hready. unfold convert. now rewrite Hready. Qed.

(** A conversion leaves at most one of markup and error set, whatever was
    there before; when the engine is not ready it leaves both as they were. *)
Lemma convert_exclusive (engine : Engine.Oracle) (hook : Hook) (st : State)
  (file : Engine.File) (options : Engine.ConversionOptions) :
  html st = None \/ error st = None ->
  html (finalState engine (convert hook file options) st) = None
  \/ error (finalState engine (convert hook file options) st) = None.
Proof.
  intros Hst. unfold finalState.
  destruct (isReady hook) eqn:Hready.
  - rewrite convert_run by exact Hready. cbn.
    destruct (engine _ _); cbn; auto.
  - now rewrite convert_not_ready.
Qed.

Lemma step_exclusive (engine : Engine.Oracle) (hook : Hook) (st : State) (ev : UiEvent) :
  html st = None \/ error st = None ->
  html (step engine hook st ev) = None \/ error (step engine hook st ev) = None.
Proof.
  intros Hst. unfold step.
  destruct ev as [[f |] | mode | enabled | value | | checked | | value | value
                  | value | value | | checked | | total | pageNumber];
    cbv beta iota delta [handle handleFileChange reconvert handleCommentModeChange
                           handlePaginationToggle handleFabricateClassesChange];
    rewrite ?update_then_final;
    try (destruct (pendingFile st));
    try (apply convert_exclusive);
    cbn; auto.
Qed.

Lemma steps_exclusive (engine : Engine.Oracle) (hook : Hook) (evs : list UiEvent) :
  forall st,
    html st = None \/ error st = None ->
    html (steps engine hook evs st) = None \/ error (steps engine hook evs st) = None.
Proof.
  induction evs as [| ev evs IH]; intros st Hst; cbn.
  - exact Hst.
  - apply IH. now apply step_exclusive.
Qed.

Lemma render_exclusive (hook : Hook) (st : State) :
  html st = None \/ error st = None ->
  existsb isErrorMessage (blocksOf (render hook st))
  && existsb isDocumentContent (blocksOf (render hook st)) = false.
Proof.
  intros Hst. unfold render.
  destruct (isLoading hook); [reflexivity |].
  destruct (initError hook); [reflexivity |].
  cbn [blocksOf].
  destruct Hst as [-> | ->]; destruct (isConverting st); cbn.
  all: try (destruct (error st); reflexivity).
  all: destruct (html st) as [markup |]; try reflexivity.
  all: cbn; destruct (String.eqb markup ""); reflexivity.
Qed.

Lemma convert_trace (engine : Engine.Oracle) (hook : Hook) (st : State)
  (file : Engine.File) (options : Engine.ConversionOptions) :
  forwarded (trace engine (convert hook file options) st)
  = if isReady hook then [options] else [].
Proof.
  unfold trace. destruct (isReady hook) eqn:Hready.
  - now rewrite convert_run.
  - now rewrite convert_not_ready.
Qed.

(** Without overrides the options are read off the toggles. *)
Lemma getConvertOptions_reflects_toggles (st : State) :
  Engine.commentRenderMode (getConvertOptions st None)
  = Some (getCommentRenderMode (commentMode st)) /\
  Engine.paginationMode (getConvertOptions st None)
  = Some (if enablePagination st then Engine.Paginated else Engine.NoPagination) /\
  Engine.paginationScale (getConvertOptions st None)
  = (if enablePagination st then Some (paginationScale st) else None).
Proof. repeat split. Qed.

Lemma getCommentRenderMode_cases (mode : string) :
  getCommentRenderMode "endnote" = Engine.EndnoteStyle /\
  getCommentRenderMode "inline" = Engine.Inline /\
  getCommentRenderMode "margin" = Engine.Margin /\
  (mode <> "endnote" -> mode <> "inline" -> mode <> "margin" ->
   getCommentRenderMode mode = Engine.Disabled).
Proof.
  repeat split. intros H1 H2 H3. unfold getCommentRenderMode.
  apply String.eqb_neq in H1, H2, H3. now rewrite H1, H2, H3.
Qed.

(** Every handler forwards the options of the toggles as the user has just
    set them, except the one that switches pagination off. *)
Lemma handlers_forward_toggled_options (engine : Engine.Oracle) (hook : Hook)
  (st : State) (ev : UiEvent) (options : Engine.ConversionOptions) :
  ev <> TogglePagination false \/ enablePagination st = false ->
  In options (forwarded (trace engine (handle hook st ev) st)) ->
  options = getConvertOptions (toggled st ev) None.
Proof.
  intros Hev.
  destruct ev as [[f |] | mode | enabled | value | | checked | | value | value
                  | value | value | | checked | | total | pageNumber];
    cbv beta iota delta [handle handleFileChange reconvert handleCommentModeChange
                           handlePaginationToggle handleFabricateClassesChange
                           handleClear toggled];
    rewrite ?update_then_trace;
    try (destruct (pendingFile st));
    rewrite ?convert_trace;
    try (destruct (isReady hook));
    cbn; try tauto.
  all: intros [<- | []]; try reflexivity.
  destruct enabled.
  - reflexivity.
  - destruct Hev as [Hev | Hev]; [congruence |].
    unfold getConvertOptions. cbn. now rewrite Hev.
Qed.

(** C9: [convert] clears [html] (and [error]) before it calls the engine;
    when the call is rejected, [html] stays [null] and [error] holds the
    thrown error (wrapped in an [Error] when it is not one); when the call
    is fulfilled, [error] is [null] and [html] holds the result; either way
    the error message and the document are not rendered together. *)
Theorem convert_failure_discards_previous_html
  (engine : Engine.Oracle) (hook : Hook) (st : State) (file : Engine.File)
  (options : Engine.ConversionOptions) :
  isReady hook = true ->
  let call := Engine.ConvertToHtml Engine.Direct (Engine.OfFile file) options in
  let task := convert hook file options in
  let final := finalState engine task st in
  (exists waiting,
     pending task st = Some waiting /\
     html waiting = None /\ error waiting = None /\ isConverting waiting = true) /\
  trace engine task st = [Called call] /\
  (forall err, engine _ call = Rejected err ->
     html final = None /\ error final = Some (toError err)) /\
  (forall e, engine _ call = Rejected (ThrownError e) -> error final = Some e) /\
  (forall result, engine _ call = Fulfilled result ->
     error final = None /\ html final = Some result) /\
  isConverting final = false /\
  existsb isErrorMessage (blocksOf (render hook final))
  && existsb isDocumentContent (blocksOf (render hook final)) = false.
Proof.
  intros Hready call task final.
  assert (Hfinal : final
                   = setIsConverting false
                       (match engine _ call with
                        | Fulfilled result => setHtml (Some result)
                        | Rejected err => setError (Some (toError err))
                        end (setHtml None (setError None (setIsConverting true st))))).
  { unfold final, task, finalState. now rewrite convert_run. }
  split.
  { eexists. unfold task, convert. rewrite Hready. cbn. repeat split. }
  split.
  { unfold task, trace. now rewrite convert_run. }
  split; [intros err Herr; rewrite Hfinal, Herr; now split |].
  split; [intros e Herr; rewrite Hfinal, Herr; reflexivity |].
  split; [intros result Hres; rewrite Hfinal, Hres; now split |].
  split; [rewrite Hfinal; reflexivity |].
  apply render_exclusive. rewrite Hfinal.
  destruct (engine _ call); cbn; auto.
Qed.

(** A document is on screen; the next conversion is rejected. *)
Lemma convert_failure_discards_previous_html_witness :
  let shown := step Engine.mockOracle readyHook initialState
                 (ChooseFile (Some Engine.sampleFile)) in
  let failing := Engine.rejecting (ThrownError (mkError "Invalid DOCX")) in
  let final := finalState failing
                 (convert readyHook Engine.sampleFile (getConvertOptions shown None))
                 shown in
  html shown = Some "<div>Mock HTML</div>" /\
  html final = None /\
  error final = Some (mkError "Invalid DOCX").
Proof.
  split; [reflexivity |].
  exact (proj1 (proj2 (proj2 (convert_failure_discards_previous_html
                  (Engine.rejecting (ThrownError (mkError "Invalid DOCX")))
                  readyHook
                  (step Engine.mockOracle readyHook initialState
                     (ChooseFile (Some Engine.sampleFile)))
                  Engine.sampleFile
                  (getConvertOptions
                     (step Engine.mockOracle readyHook initialState
                        (ChooseFile (Some Engine.sampleFile))) None)
                  eq_refl)))
           (ThrownError (mkError "Invalid DOCX")) eq_refl).
Defined.

(** Over any sequence of events, each handled to completion, markup and
    error are never both set. *)
Lemma html_and_error_never_both (engine : Engine.Oracle) (hook : Hook)
  (evs : list UiEvent) :
  html (steps engine hook evs initialState) = None
  \/ error (steps engine hook evs initialState) = None.
Proof. apply steps_exclusive. now left. Qed.

(** C4: with a document loaded and pagination on, un-ticking "Enable
    pagination" forwards [paginationMode: None] together with the scale
    (0.8): the [undefined] the handler passes as override falls through
    [??] to the value computed from the not yet updated [enablePagination].
    The options of the toggles as just set would carry no scale. *)
Example handlePaginationToggle_off_forwards_scale :
  enablePagination paginatedState = true /\
  pendingFile paginatedState = Some Engine.sampleFile /\
  exists options,
    forwarded (trace Engine.mockOracle
                 (handle readyHook paginatedState (TogglePagination false))
                 paginatedState) = [options] /\
    Engine.paginationMode options = Some Engine.NoPagination /\
    Engine.paginationScale options = Some (8 # 10) /\
    Engine.paginationScale
      (getConvertOptions (toggled paginatedState (TogglePagination false)) None)
    = None.
Proof.
  split; [reflexivity |]. split; [reflexivity |].
  eexists. split; [reflexivity |]. repeat split.
Qed.

End DemoDocumentViewerFacts.

(** ** The library's viewer *)

Module DocumentViewerFacts.
Import Js Task Task.Notations TaskFacts Types DocumentViewer.

Lemma routed_selected {A : Type} (p : DocumentViewerProps) (st : State)
  (viaWorker : Engine.WorkerDocxodus -> A) (direct : A) :
  routed p st viaWorker direct
  = match selectedRoute p st with
    | Engine.ViaWorker w => viaWorker w
    | Engine.Direct => direct
    end.
Proof.
  unfold routed, selectedRoute.
  destruct (useWorkerOf p); [destruct (worker st) |]; reflexivity.
Qed.

Lemma selectedRoute_worker (p : DocumentViewerProps) (st : State)
  (w : Engine.WorkerDocxodus) :
  selectedRoute p st = Engine.ViaWorker w
  <-> useWorkerOf p = true /\ worker st = Some w.
Proof.
  unfold selectedRoute.
  destruct (useWorkerOf p), (worker st) as [w' |]; split;
    try (intros [= ->]); try (intros [H1 H2]); try congruence; auto.
Qed.

Lemma selectedRoute_direct (p : DocumentViewerProps) (st : State) :
  selectedRoute p st = Engine.Direct
  <-> useWorkerOf p = false \/ worker st = None.
Proof.
  unfold selectedRoute.
  destruct (useWorkerOf p), (worker st) as [w' |]; split;
    try (intros [H | H]); try congruence; auto.
Qed.

Lemma fetchMetadata_run (engine : Engine.Oracle) (p : DocumentViewerProps)
  (st : State) (doc : Engine.File) :
  run engine (fetchMetadata p st doc) st
  = (tt,
     match engine _ (Engine.GetDocumentMetadata (selectedRoute p st) doc) with
     | Fulfilled metadata => setDocumentMetadata (Some metadata) st
     | Rejected _ => setDocumentMetadata None st
     end,
     [Called (Engine.GetDocumentMetadata (selectedRoute p st) doc)]).
Proof.
  unfold fetchMetadata. rewrite routed_selected.
  destruct (selectedRoute p st); cbn; now destruct (engine _ _).
Qed.

Lemma extractRevisions_run (engine : Engine.Oracle) (p : DocumentViewerProps)
  (h : HookResult) (st : State) (doc : Engine.File) :
  isReady p h st = true -> showRevisionsTabOf p = true ->
  run engine (extractRevisions p h st doc) st
  = (tt,
     setIsExtractingRevisions false
       (match engine _ (Engine.GetRevisions (selectedRoute p st) doc) with
        | Fulfilled revs => setRevisions revs
        | Rejected _ => setRevisions []
        end (setIsExtractingRevisions true st)),
     Called (Engine.GetRevisions (selectedRoute p st) doc)
     :: match engine _ (Engine.GetRevisions (selectedRoute p st) doc) with
        | Fulfilled revs =>
            if onRevisionsExtracted p then [Emitted (OnRevisionsExtracted revs)] else []
        | Rejected _ => []
        end).
Proof.
  intros Hready Htab. unfold extractRevisions. rewrite Hready, Htab.
  cbn [negb orb]. rewrite routed_selected.
  destruct (selectedRoute p st); cbn; destruct (engine _ _); cbn;
    try reflexivity; unfold notify; destruct (onRevisionsExtracted p); reflexivity.
Qed.

Lemma extractRevisions_idle (engine : Engine.Oracle) (p : DocumentViewerProps)
  (h : HookResult) (st : State) (doc : Engine.File) :
  isReady p h st && showRevisionsTabOf p = false ->
  run engine (extractRevisions p h st doc) st = (tt, st, []).
Proof.
  intros H. unfold extractRevisions.
  destruct (isReady p h st), (showRevisionsTabOf p); try discriminate H; reflexivity.
Qed.

Lemma convert_final (engine : Engine.Oracle) (p : DocumentViewerProps)
  (h : HookResult) (st0 st : State) (doc : Engine.File) :
  isReady p h st0 = true ->
  finalState engine (convert p h st0 doc) st
  = converted p
      (engine _ (Engine.ConvertToHtml (selectedRoute p st0) (Engine.OfFile doc)
                   (getConvertOptions (currentSettings p st0))))
      st.
Proof.
  intros Hready. unfold convert, converted, finalState. rewrite Hready.
  cbn [negb]. rewrite routed_selected.
  unfold notify, when.
  destruct (onConversionStart p), (useWorkerOf p) eqn:Hw, (selectedRoute p st0);
    cbn; destruct (engine _ _); cbn;
    destruct (htmlUncontrolled p), (onConversionComplete p), (onError p);
    reflexivity.
Qed.

Lemma convert_calls (engine : Engine.Oracle) (p : DocumentViewerProps)
  (h : HookResult) (st0 st : State) (doc : Engine.File) :
  calls (trace engine (convert p h st0 doc) st)
  = if isReady p h st0
    then [Called (Engine.ConvertToHtml (selectedRoute p st0) (Engine.OfFile doc)
                    (getConvertOptions (currentSettings p st0)))]
    else [].
Proof.
  unfold convert, trace. destruct (isReady p h st0); [| reflexivity].
  cbn [negb]. rewrite routed_selected.
  unfold notify, when.
  destruct (onConversionStart p), (useWorkerOf p) eqn:Hw, (selectedRoute p st0);
    cbn; destruct (engine _ _); cbn;
    destruct (htmlUncontrolled p), (onConversionComplete p), (onError p);
    reflexivity.
Qed.

Lemma convert_reports_error (engine : Engine.Oracle) (p : DocumentViewerProps)
  (h : HookResult) (st : State) (doc : Engine.File) (err : Thrown) :
  isReady p h st = true -> onError p = true ->
  engine _ (Engine.ConvertToHtml (selectedRoute p st) (Engine.OfFile doc)
              (getConvertOptions (currentSettings p st))) = Rejected err ->
  In (Emitted (OnError (toError err))) (trace engine (convert p h st doc) st).
Proof.
  intros Hready Hcb Herr. unfold convert, trace. rewrite Hready.
  cbn [negb]. rewrite routed_selected.
  unfold notify, when. rewrite Hcb.
  destruct (onConversionStart p), (useWorkerOf p) eqn:Hw, (selectedRoute p st);
    cbn; rewrite Herr; cbn; auto 6.
Qed.

Lemma content_shows_error (p : DocumentViewerProps) (h : HookResult) (st : State)
  (e : JsError) :
  error st = Some e -> isConverting st = false ->
  In (ErrorMessage (String.append "Error: " (message e))) (Content p h st).
Proof.
  intros He Hc. unfold Content. rewrite He, Hc. cbn [negb].
  do 3 (apply in_or_app; right).
  apply in_or_app; left. now left.
Qed.

Lemma content_without_error (p : DocumentViewerProps) (h : HookResult) (st : State) :
  error st = None -> existsb isErrorMessage (Content p h st) = false.
Proof.
  intros He. unfold Content. rewrite He.
  rewrite !existsb_app. cbn [existsb orb].
  repeat match goal with
         | |- context [match ?x with _ => _ end] => destruct x; cbn [existsb isErrorMessage orb]
         end; reflexivity.
Qed.

(** C3: each of the three engine operations of the viewer goes through the
    worker proxy's method exactly when [useWorker] is true and the proxy
    has been created, and is called in the page otherwise; the operation,
    the file and the options are the same either way. [fetchMetadata]
    always makes its call, [extractRevisions] and [convert] make theirs
    once the engine is ready (and the revisions tab is wanted). *)
Theorem engine_calls_follow_useWorker
  (engine : Engine.Oracle) (p : DocumentViewerProps) (h : HookResult)
  (st : State) (doc : Engine.File) :
  let route := selectedRoute p st in
  (forall w, route = Engine.ViaWorker w <-> useWorkerOf p = true /\ worker st = Some w) /\
  (route = Engine.Direct <-> useWorkerOf p = false \/ worker st = None) /\
  calls (trace engine (fetchMetadata p st doc) st)
  = [Called (Engine.GetDocumentMetadata route doc)] /\
  calls (trace engine (extractRevisions p h st doc) st)
  = (if isReady p h st && showRevisionsTabOf p
     then [Called (Engine.GetRevisions route doc)] else []) /\
  calls (trace engine (convert p h st doc) st)
  = (if isReady p h st
     then [Called (Engine.ConvertToHtml route (Engine.OfFile doc)
                     (getConvertOptions (currentSettings p st)))]
     else []).
Proof.
  intros route.
  split; [intros w; apply selectedRoute_worker |].
  split; [apply selectedRoute_direct |].
  split; [unfold trace; now rewrite fetchMetadata_run |].
  split; [| apply convert_calls].
  unfold trace.
  destruct (isReady p h st && showRevisionsTabOf p) eqn:Hgo.
  - apply andb_true_iff in Hgo as [Hready Htab].
    rewrite extractRevisions_run by assumption. cbn.
    destruct (engine _ _); [destruct (onRevisionsExtracted p) |]; reflexivity.
  - now rewrite extractRevisions_idle.
Qed.

(** With the worker created for [<DocumentViewer />] the conversion goes to
    the worker; with [useWorker={false}] it stays in the page. *)
Lemma engine_calls_follow_useWorker_witness :
  calls (trace Engine.mockOracle
           (convert noProps idleHook (readyState noProps) Engine.sampleFile)
           (readyState noProps))
  = [Called (Engine.ConvertToHtml (Engine.ViaWorker sampleWorker)
               (Engine.OfFile Engine.sampleFile)
               (getConvertOptions DEFAULT_SETTINGS))] /\
  calls (trace Engine.mockOracle
           (fetchMetadata withoutWorker (initialState withoutWorker) Engine.sampleFile)
           (initialState withoutWorker))
  = [Called (Engine.GetDocumentMetadata Engine.Direct Engine.sampleFile)].
Proof.
  split.
  - exact (proj2 (proj2 (proj2 (proj2
             (engine_calls_follow_useWorker Engine.mockOracle noProps idleHook
                (readyState noProps) Engine.sampleFile))))).
  - exact (proj1 (proj2 (proj2
             (engine_calls_follow_useWorker Engine.mockOracle withoutWorker idleHook
                (initialState withoutWorker) Engine.sampleFile)))).
Defined.

(** The library's viewer always asks for paginated output at the current
    scale; the comment mode is mapped as in the demo. *)
Lemma getConvertOptions_paginated (s : ViewerSettings) :
  Engine.commentRenderMode (getConvertOptions s)
  = Some (getCommentRenderMode (commentMode s)) /\
  Engine.paginationMode (getConvertOptions s) = Some Engine.Paginated /\
  Engine.paginationScale (getConvertOptions s) = Some (paginationScale s).
Proof. repeat split. Qed.

(** *** Which handlers leave which cell alone *)

Ltac keeps_step :=
  first
    [ apply keeps_bind; [| intros ?]
    | apply keeps_update_only; intros ?; reflexivity
    | apply keeps_emit_only
    | apply keeps_await_only
    | apply keeps_skip
    | progress unfold notify, when ].

Ltac keeps :=
  repeat
    first
      [ keeps_step
      | match goal with
        | |- Keeps _ (if ?c then _ else _) => destruct c
        | |- Keeps _ (match ?x with _ => _ end) => destruct x
        end ].

Lemma fetchMetadata_keeps {X : Type} (part : State -> X) (p : DocumentViewerProps)
  (st : State) (doc : Engine.File) :
  (forall v s, part (setDocumentMetadata v s) = part s) ->
  Keeps part (fetchMetadata p st doc).
Proof.
  intros Hm. unfold fetchMetadata. rewrite routed_selected.
  apply keeps_bind; [destruct (selectedRoute p st); apply keeps_await_only |].
  intros [metadata | err]; apply keeps_update_only; intros s; apply Hm.
Qed.

Lemma extractRevisions_keeps {X : Type} (part : State -> X)
  (p : DocumentViewerProps) (h : HookResult) (st : State) (doc : Engine.File) :
  (forall v s, part (setIsExtractingRevisions v s) = part s) ->
  (forall v s, part (setRevisions v s) = part s) ->
  Keeps part (extractRevisions p h st doc).
Proof.
  intros He Hr. unfold extractRevisions.
  destruct (negb (isReady p h st) || negb (showRevisionsTabOf p)); [apply keeps_skip |].
  rewrite routed_selected.
  apply keeps_bind; [apply keeps_update_only; intros s; apply He | intros _].
  apply keeps_bind; [destruct (selectedRoute p st); apply keeps_await_only |].
  intros outcome.
  apply keeps_bind; [| intros _; apply keeps_update_only; intros s; apply He].
  destruct outcome as [revs | err].
  - apply keeps_bind; [apply keeps_update_only; intros s; apply Hr | intros _].
    unfold notify. destruct (onRevisionsExtracted p);
      [apply keeps_emit_only | apply keeps_skip].
  - apply keeps_update_only; intros s; apply Hr.
Qed.

Lemma convert_keeps_showSettings (p : DocumentViewerProps) (h : HookResult)
  (st : State) (doc : Engine.File) :
  Keeps showSettings (convert p h st doc).
Proof.
  unfold convert. rewrite routed_selected.
  destruct (negb (isReady p h st)); [apply keeps_skip |].
  destruct (selectedRoute p st); keeps.
Qed.

Lemma updateSettings_keeps_showSettings (p : DocumentViewerProps) (st : State)
  (updates : PartialSettings) :
  Keeps showSettings (updateSettings p st updates).
Proof. unfold updateSettings. keeps. Qed.

Lemma goToPage_keeps_showSettings (st : State) (pageNum : Z) :
  Keeps showSettings (goToPage st pageNum).
Proof. unfold goToPage. keeps. Qed.

(** Only the settings button opens the modal. *)
Lemma handle_keeps_showSettings (p : DocumentViewerProps) (h : HookResult)
  (st : State) (ev : UiEvent) :
  ev <> Click SettingsButton ->
  (forall c, ev = Click c ->
     c <> ModalOverlay /\ c <> ModalCloseButton /\ c <> ApplyAndCloseButton) ->
  Keeps showSettings (handle p h st ev).
Proof.
  intros Hopen Hclose.
  destruct ev as [c | [f |] | value | [page |] | updates | total | pageNumber];
    cbn [handle].
  - destruct c; cbn [click];
      try (exfalso; now apply Hopen);
      try (exfalso; destruct (Hclose _ eq_refl) as (? & ? & ?); congruence);
      unfold handleClear, goToPreviousPage, goToNextPage, handleZoomOut, handleZoomIn;
      try apply updateSettings_keeps_showSettings;
      try (unfold when; destruct (_ <? _)%Z;
           [apply goToPage_keeps_showSettings | apply keeps_skip]);
      keeps.
  - unfold handleFileChange.
    repeat (apply keeps_bind; [keeps | intros _]).
    unfold when. destruct (isReady p h st && htmlUncontrolled p);
      [apply convert_keeps_showSettings | apply keeps_skip].
  - apply keeps_skip.
  - apply updateSettings_keeps_showSettings.
  - apply goToPage_keeps_showSettings.
  - apply keeps_skip.
  - apply updateSettings_keeps_showSettings.
  - now apply keeps_update_only.
  - unfold handlePageVisible. keeps.
Qed.

Lemma clickable_app (p : DocumentViewerProps) (h : HookResult) (st : State) :
  clickable p h st
  = (if String.eqb (toolbarOf p) "top" then controlsOfChild (Toolbar p h st) else [])
    ++ (if String.eqb (toolbarOf p) "bottom" then controlsOfChild (Toolbar p h st) else [])
    ++ (if showSettings st
        then [ModalOverlay; ModalBody; ModalCloseButton; ApplyAndCloseButton] else []).
Proof.
  unfold clickable, render. rewrite !flat_map_app.
  destruct (String.eqb (toolbarOf p) "top"), (String.eqb (toolbarOf p) "bottom"),
    (showSettings st); cbn; now rewrite ?app_nil_r.
Qed.

Lemma toolbar_has_settings_button (p : DocumentViewerProps) (h : HookResult)
  (st : State) :
  In SettingsButton (controlsOfChild (Toolbar p h st)) <-> showSettingsButtonOf p = true.
Proof.
  unfold Toolbar. cbn [controlsOfChild].
  rewrite !filter_app, !map_app, !in_app_iff.
  split.
  - intros [H | [H | [H | H]]].
    + destruct (negb (String.eqb (fileName st) "")); cbn in H; [| tauto].
      destruct (isProcessing p h st); cbn in H; [tauto |].
      destruct H as [H | []]; discriminate H.
    + destruct (showRevisionsTabOf p && hasRevisions st && truthy (currentHtml p st));
        cbn in H; [| tauto].
      destruct H as [H | [H | []]]; discriminate H.
    + destruct (truthy (currentHtml p st) && (0 <? totalPages st)%Z
                && isDocumentMode (viewMode st)); cbn in H; [| tauto].
      destruct (currentPage st <=? 1)%Z, (totalPages st <=? currentPage st)%Z,
        (Qle_bool (paginationScale (currentSettings p st)) (3 # 10)),
        (Qle_bool 2 (paginationScale (currentSettings p st)));
        cbn in H; intuition discriminate.
    + destruct (showSettingsButtonOf p); [reflexivity | destruct H].
  - intros ->. do 3 right. now left.
Qed.

Lemma toolbarOf_bottom (p : DocumentViewerProps) :
  toolbarOf p = "bottom" <-> toolbar p = Some "bottom".
Proof.
  unfold toolbarOf. destruct (toolbar p) as [v |]; split; congruence.
Qed.

(** C6: when the [toolbar] prop is not supplied the toolbar is the first
    child of the viewer, right before the content area; it comes after the
    content area only for [toolbar === 'bottom'], and for
    [toolbar === 'none'] there is no toolbar. *)
Theorem toolbar_renders_at_top_by_default
  (p : DocumentViewerProps) (h : HookResult) (st : State) :
  let modal := if showSettings st
               then [SettingsModalNode (currentSettings p st)] else [] in
  (toolbar p = None ->
   render p h st = Toolbar p h st :: ContentNode (Content p h st) :: modal) /\
  (toolbar p = Some "bottom" ->
   render p h st = ContentNode (Content p h st) :: Toolbar p h st :: modal) /\
  (toolbar p = Some "none" ->
   render p h st = ContentNode (Content p h st) :: modal /\
   existsb isToolbar (render p h st) = false) /\
  (existsb isToolbar (beforeContent (render p h st)) = true
   <-> toolbar p = None \/ toolbar p = Some "top") /\
  (existsb isToolbar (afterContent (render p h st)) = true
   <-> toolbar p = Some "bottom").
Proof.
  intros modal. unfold render, toolbarOf.
  split; [intros ->; reflexivity |].
  split; [intros ->; reflexivity |].
  split; [intros ->; cbn; split; [reflexivity |];
          subst modal; destruct (showSettings st); reflexivity |].
  destruct (toolbar p) as [v |].
  - destruct (String.eqb_spec v "top") as [-> | Htop].
    + cbn. change (existsb isToolbar (if showSettings st
                     then [SettingsModalNode (currentSettings p st)] else []))
        with (existsb isToolbar modal).
      replace (existsb isToolbar modal) with false
        by (subst modal; destruct (showSettings st); reflexivity).
      split; split; intros H; auto; discriminate H.
    + destruct (String.eqb_spec v "bottom") as [-> | Hbottom]; cbn.
      * split; split; intros H; auto; try discriminate H.
        destruct H as [H | H]; discriminate H.
      * replace (existsb isToolbar
                   (if showSettings st
                    then [SettingsModalNode (currentSettings p st)] else []))
          with false by (destruct (showSettings st); reflexivity).
        split; split; intros H; try discriminate H.
        -- destruct H as [H | H]; congruence.
        -- congruence.
  - cbn.
    replace (existsb isToolbar
               (if showSettings st
                then [SettingsModalNode (currentSettings p st)] else []))
      with false by (destruct (showSettings st); reflexivity).
    split; split; intros H; auto; discriminate H.
Qed.

(** [<DocumentViewer />] puts the toolbar first. *)
Lemma toolbar_renders_at_top_by_default_witness :
  render noProps idleHook (initialState noProps)
  = [Toolbar noProps idleHook (initialState noProps);
     ContentNode (Content noProps idleHook (initialState noProps))].
Proof.
  exact (proj1 (toolbar_renders_at_top_by_default noProps idleHook
                  (initialState noProps)) eq_refl).
Defined.

(** C7, as the code has it: the modal is rendered exactly while
    [showSettings] is true; a click on the settings button sets it, a click
    on the close button, on the overlay or on "Apply & Close" clears it
    (and these three are on screen whenever the modal is); the settings
    button is on screen exactly when a toolbar is shown and
    [showSettingsButton] is not false, and nothing else opens the modal. *)
Theorem settings_modal_opens_and_closes
  (engine : Engine.Oracle) (p : DocumentViewerProps) (h : HookResult) (st : State) :
  existsb isSettingsModal (render p h st) = showSettings st /\
  showSettings (step engine p h st (Click SettingsButton)) = true /\
  showSettings (step engine p h st (Click ModalCloseButton)) = false /\
  showSettings (step engine p h st (Click ModalOverlay)) = false /\
  showSettings (step engine p h st (Click ApplyAndCloseButton)) = false /\
  (showSettings st = true ->
   In ModalCloseButton (clickable p h st) /\
   In ModalOverlay (clickable p h st) /\
   In ApplyAndCloseButton (clickable p h st)) /\
  (In SettingsButton (clickable p h st)
   <-> (toolbarOf p = "top" \/ toolbarOf p = "bottom")
       /\ showSettingsButtonOf p = true) /\
  (forall ev, showSettings st = false ->
     showSettings (step engine p h st ev) = true -> ev = Click SettingsButton).
Proof.
  split.
  { unfold render. rewrite !existsb_app.
    destruct (String.eqb (toolbarOf p) "top"), (String.eqb (toolbarOf p) "bottom"),
      (showSettings st); reflexivity. }
  do 4 (split; [reflexivity |]).
  split.
  { intros Hopen. rewrite clickable_app, Hopen, !in_app_iff. cbn. tauto. }
  split.
  { rewrite clickable_app, !in_app_iff.
    destruct (String.eqb_spec (toolbarOf p) "top") as [Ht | Ht];
      destruct (String.eqb_spec (toolbarOf p) "bottom") as [Hb | Hb];
      rewrite ?toolbar_has_settings_button;
      destruct (showSettings st); cbn; intuition (try discriminate; try congruence). }
  intros ev Hclosed Hopened. unfold step in Hopened.
  destruct ev as [c | f | value | page | updates | total | pageNumber].
  2-7: rewrite (keeps_final showSettings engine) in Hopened;
       [congruence | apply handle_keeps_showSettings; intros; discriminate].
  destruct c; try reflexivity;
    try (cbn in Hopened; discriminate Hopened);
    (rewrite (keeps_final showSettings engine) in Hopened;
     [congruence
     | apply handle_keeps_showSettings;
       [discriminate | intros c [= <-]; repeat split; discriminate]]).
Qed.

(** The modal is open and gets closed again; the settings button opened it. *)
Lemma settings_modal_opens_and_closes_witness :
  let opened := step Engine.mockOracle noProps idleHook (readyState noProps)
                  (Click SettingsButton) in
  showSettings opened = true /\
  In ModalCloseButton (clickable noProps idleHook opened) /\
  showSettings (step Engine.mockOracle noProps idleHook opened
                  (Click ModalCloseButton)) = false.
Proof.
  pose proof (settings_modal_opens_and_closes Engine.mockOracle noProps idleHook
                (step Engine.mockOracle noProps idleHook (readyState noProps)
                   (Click SettingsButton)))
    as (_ & _ & Hclose & _ & _ & Hshown & _).
  split; [reflexivity |].
  split; [apply Hshown; reflexivity | exact Hclose].
Defined.

(** C7 as stated fails: with [showSettingsButton={false}] the viewer shows a
    toolbar without the settings button, the modal is closed, and no
    control on screen opens it. *)
Lemma settings_modal_cannot_open_without_button :
  showSettings (readyState withoutSettingsButton) = false /\
  existsb isToolbar (render withoutSettingsButton idleHook
                       (readyState withoutSettingsButton)) = true /\
  existsb (Control_eqb SettingsButton)
    (clickable withoutSettingsButton idleHook (readyState withoutSettingsButton))
  = false /\
  canOpenSettings Engine.mockOracle withoutSettingsButton idleHook
    (readyState withoutSettingsButton) = false.
Proof. repeat split. Qed.

Lemma Qmin_cases (a b : Q) :
  (a <= b /\ Qmin a b == a) \/ (b <= a /\ Qmin a b == b).
Proof.
  destruct (Q.min_spec a b) as [[H1 H2] | [H1 H2]]; [left | right];
    split; auto using Qlt_le_weak.
Qed.

Lemma Qmax_cases (a b : Q) :
  (a <= b /\ Qmax a b == b) \/ (b <= a /\ Qmax a b == a).
Proof.
  destruct (Q.max_spec a b) as [[H1 H2] | [H1 H2]]; [left | right];
    split; auto using Qlt_le_weak.
Qed.

Lemma zoomedIn_range (scale : Q) :
  3 # 10 <= scale -> 3 # 10 <= zoomedIn scale <= 2.
Proof.
  intros H. unfold zoomedIn.
  destruct (Qmin_cases (scale + (1 # 10)) 2) as [[H1 ->] | [H1 ->]]; lra.
Qed.

Lemma zoomedOut_range (scale : Q) :
  scale <= 2 -> 3 # 10 <= zoomedOut scale <= 2.
Proof.
  intros H. unfold zoomedOut.
  destruct (Qmax_cases (scale - (1 # 10)) (3 # 10)) as [[H1 ->] | [H1 ->]]; lra.
Qed.

Lemma zoomedTo_range (value : Q) : 3 # 10 <= zoomedTo value <= 2.
Proof.
  unfold zoomedTo.
  destruct (Qmin_cases 2 value) as [[H1 H2] | [H1 H2]];
    destruct (Qmax_cases (3 # 10) (Qmin 2 value)) as [[H3 ->] | [H3 ->]];
    rewrite ?H2 in *; lra.
Qed.

(** The settings a zoom handler hands on differ from the current ones in the
    scale only, and are stored when the settings are not controlled. *)
Lemma updateSettings_scale (engine : Engine.Oracle) (p : DocumentViewerProps)
  (st : State) (v : Q) :
  let next := spread (currentSettings p st) (scaleUpdate v) in
  paginationScale next = v /\
  commentMode next = commentMode (currentSettings p st) /\
  (settings p = None ->
   currentSettings p (finalState engine (updateSettings p st (scaleUpdate v)) st) = next) /\
  (onSettingsChange p = true ->
   In (Emitted (OnSettingsChange next))
      (trace engine (updateSettings p st (scaleUpdate v)) st)).
Proof.
  intros next. subst next. split; [reflexivity |]. split; [reflexivity |].
  unfold updateSettings, settingsUncontrolled, currentSettings, notify, when, trace,
    finalState.
  split.
  - intros Hs. rewrite Hs. destruct (onSettingsChange p); reflexivity.
  - intros ->. destruct (settings p); cbn; auto.
Qed.

(** C8: from a scale in [0.3, 2.0], zooming in gives [min(scale + 0.1, 2.0)]
    and zooming out [max(scale - 0.1, 0.3)], choosing [v] gives
    [max(0.3, min(2.0, v))], and each result lies in [0.3, 2.0]; the
    library's handlers pass on exactly this scale, and the demo's handlers
    compute the same. *)
Theorem zoom_keeps_scale_in_range :
  (forall scale : Q,
     3 # 10 <= scale <= 2 ->
     zoomedIn scale = Qmin (scale + (1 # 10)) 2 /\
     3 # 10 <= zoomedIn scale <= 2 /\
     zoomedOut scale = Qmax (scale - (1 # 10)) (3 # 10) /\
     3 # 10 <= zoomedOut scale <= 2) /\
  (forall v : Q,
     zoomedTo v = Qmax (3 # 10) (Qmin 2 v) /\ 3 # 10 <= zoomedTo v <= 2) /\
  (forall (engine : Engine.Oracle) (p : DocumentViewerProps) (st : State) (v : Q),
     settings p = None ->
     let scale := paginationScale (currentSettings p st) in
     let after := fun handler =>
       paginationScale (currentSettings p (finalState engine handler st)) in
     after (handleZoomIn p st) = zoomedIn scale /\
     after (handleZoomOut p st) = zoomedOut scale /\
     after (handleZoomChange p st v) = zoomedTo v) /\
  (forall scale v : Q,
     DemoZoom.handleZoomIn scale = zoomedIn scale /\
     DemoZoom.handleZoomOut scale = zoomedOut scale /\
     DemoZoom.handleZoomChange v = zoomedTo v).
Proof.
  split.
  { intros scale [Hlo Hhi].
    split; [reflexivity |]. split; [now apply zoomedIn_range |].
    split; [reflexivity | now apply zoomedOut_range]. }
  split.
  { intros v. split; [reflexivity | apply zoomedTo_range]. }
  split; [| repeat split].
  intros engine p st v Hs scale after. subst after. cbv beta.
  unfold handleZoomIn, handleZoomOut, handleZoomChange.
  repeat split;
    match goal with
    | |- context [updateSettings p st (scaleUpdate ?x)] =>
        destruct (updateSettings_scale engine p st x) as (_ & _ & Hstored & _);
        now rewrite (Hstored Hs)
    end.
Qed.

(** At the default scale 0.8, and at the upper end of the range. *)
Lemma zoom_keeps_scale_in_range_witness :
  (3 # 10 <= zoomedIn (8 # 10) <= 2) /\
  (3 # 10 <= zoomedIn 2 <= 2) /\
  (3 # 10 <= zoomedOut (3 # 10) <= 2) /\
  zoomedIn 2 == 2 /\ zoomedOut (3 # 10) == 3 # 10.
Proof.
  destruct zoom_keeps_scale_in_range as (Hzoom & _).
  split; [apply (Hzoom (8 # 10)); lra |].
  split; [apply (Hzoom 2); lra |].
  split; [apply (Hzoom (3 # 10)); lra |].
  split; reflexivity.
Defined.

End DocumentViewerFacts.

(** ** The annotation editor *)

Module AnnotationViewerFacts.
Import Js Task Task.Notations TaskFacts AnnotationViewer.

Lemma handleRemoveAnnotation_keeps_error (atob : string -> Settled (list N))
  (st : State) (annotationId : string) :
  Keeps error (handleRemoveAnnotation atob st annotationId).
Proof.
  unfold handleRemoveAnnotation, catchRemove.
  destruct (documentBytes st) as [current |]; [| apply keeps_skip].
  apply keeps_bind; [apply keeps_await_only |].
  intros [[result |] | err]; [| apply keeps_skip | apply keeps_emit_only].
  destruct (Engine.documentBytes result) as [encoded |]; [| apply keeps_skip].
  destruct (Engine.success result && negb (String.eqb encoded ""));
    [| apply keeps_skip].
  destruct (atob encoded) as [bytes | err]; [| apply keeps_emit_only].
  apply keeps_bind; [apply keeps_update_only; reflexivity | intros _].
  apply keeps_bind; [apply keeps_await_only |].
  intros [annots | err]; [| apply keeps_emit_only].
  apply keeps_bind; [apply keeps_update_only; reflexivity | intros _].
  apply keeps_bind; [apply keeps_await_only |].
  intros [htmlResult | err];
    [apply keeps_update_only; reflexivity | apply keeps_emit_only].
Qed.

Lemma handleRemoveAnnotation_rejected (engine : Engine.Oracle)
  (atob : string -> Settled (list N)) (st : State) (annotationId : string)
  (current : list N) (err : Thrown) :
  documentBytes st = Some current ->
  engine _ (Engine.RemoveAnnotation current annotationId) = Rejected err ->
  run engine (handleRemoveAnnotation atob st annotationId) st
  = (tt, st,
     [Called (Engine.RemoveAnnotation current annotationId);
      Emitted (ConsoleError "Failed to remove annotation:" err)]).
Proof.
  intros Hbytes Herr. unfold handleRemoveAnnotation. rewrite Hbytes.
  cbn. now rewrite Herr.
Qed.

Lemma loadDocument_rejected (engine : Engine.Oracle)
  (arrayBuffer : Engine.File -> Settled (list N)) (st : State)
  (docFile : Engine.File) (err : Thrown) :
  engine _ (Engine.GetAnnotations (Engine.OfFile docFile)) = Rejected err ->
  error (finalState engine (loadDocument arrayBuffer true docFile) st)
  = Some (toErrorOr "Failed to load document" err).
Proof.
  intros Herr. unfold loadDocument, finalState. cbn. now rewrite Herr.
Qed.

End AnnotationViewerFacts.

(** ** What happens to an error of the engine, call site by call site *)

Module ErrorHandlingFacts.
Import Js Task Task.Notations TaskFacts.

Lemma demo_form_shows_error (hook : DemoDocumentViewer.Hook)
  (st : DemoDocumentViewer.State) (e : JsError) :
  DemoDocumentViewer.isLoading hook = false ->
  DemoDocumentViewer.initError hook = None ->
  DemoDocumentViewer.error st = Some e ->
  DemoDocumentViewer.isConverting st = false ->
  In (DemoDocumentViewer.ErrorMessage (String.append "Error: " (message e)))
     (DemoDocumentViewer.blocksOf (DemoDocumentViewer.render hook st)).
Proof.
  intros Hl Hi He Hc. unfold DemoDocumentViewer.render.
  rewrite Hl, Hi, He, Hc. cbn. now left.
Qed.

(** C2, as the code has it: a rejected conversion is caught, stored and
    rendered as ["Error: " + message] (and handed to [onError] in the
    library's viewer); a rejected [getDocumentMetadata] or [getRevisions]
    in the library's viewer is caught and swallowed: the metadata is reset
    to [null], the revisions to the empty list, and [error] is left alone;
    a rejection inside [handleRemoveAnnotation], of the removal or of one
    of the two refreshing calls, is written to the console and nothing
    else.  In each case the rejected call is the last engine call of the
    handler's run: the handler itself calls nothing again.  (Whether an
    effect of a later render issues the call once more is no part of this
    statement.) *)
Theorem engine_errors_by_call_site :
  (forall (engine : Engine.Oracle) (hook : DemoDocumentViewer.Hook)
          (st : DemoDocumentViewer.State) (file : Engine.File)
          (options : Engine.ConversionOptions) (err : Thrown),
     DemoDocumentViewer.isReady hook = true ->
     DemoDocumentViewer.isLoading hook = false ->
     DemoDocumentViewer.initError hook = None ->
     engine _ (Engine.ConvertToHtml Engine.Direct (Engine.OfFile file) options)
     = Rejected err ->
     let task := DemoDocumentViewer.convert hook file options in
     let final := finalState engine task st in
     trace engine task st
     = [Called (Engine.ConvertToHtml Engine.Direct (Engine.OfFile file) options)] /\
     DemoDocumentViewer.error final = Some (toError err) /\
     In (DemoDocumentViewer.ErrorMessage
           (String.append "Error: " (message (toError err))))
        (DemoDocumentViewer.blocksOf (DemoDocumentViewer.render hook final))) /\
  (forall (engine : Engine.Oracle) (p : Types.DocumentViewerProps)
          (h : DocumentViewer.HookResult) (st : DocumentViewer.State)
          (doc : Engine.File) (err : Thrown),
     DocumentViewer.isReady p h st = true ->
     engine _ (Engine.ConvertToHtml (DocumentViewer.selectedRoute p st)
                 (Engine.OfFile doc)
                 (DocumentViewer.getConvertOptions (DocumentViewer.currentSettings p st)))
     = Rejected err ->
     let task := DocumentViewer.convert p h st doc in
     let final := finalState engine task st in
     calls (trace engine task st)
     = [Called (Engine.ConvertToHtml (DocumentViewer.selectedRoute p st)
                  (Engine.OfFile doc)
                  (DocumentViewer.getConvertOptions
                     (DocumentViewer.currentSettings p st)))] /\
     DocumentViewer.error final = Some (toError err) /\
     In (DocumentViewer.ErrorMessage
           (String.append "Error: " (message (toError err))))
        (DocumentViewer.Content p h final) /\
     (Types.onError p = true ->
      In (Emitted (DocumentViewer.OnError (toError err))) (trace engine task st))) /\
  (forall (engine : Engine.Oracle) (p : Types.DocumentViewerProps)
          (st : DocumentViewer.State) (doc : Engine.File) (err : Thrown),
     engine _ (Engine.GetDocumentMetadata (DocumentViewer.selectedRoute p st) doc)
     = Rejected err ->
     let task := DocumentViewer.fetchMetadata p st doc in
     let final := finalState engine task st in
     trace engine task st
     = [Called (Engine.GetDocumentMetadata (DocumentViewer.selectedRoute p st) doc)] /\
     final = DocumentViewer.setDocumentMetadata None st /\
     DocumentViewer.error final = DocumentViewer.error st) /\
  (forall (engine : Engine.Oracle) (p : Types.DocumentViewerProps)
          (h : DocumentViewer.HookResult) (st : DocumentViewer.State)
          (doc : Engine.File) (err : Thrown),
     DocumentViewer.isReady p h st = true ->
     DocumentViewer.showRevisionsTabOf p = true ->
     engine _ (Engine.GetRevisions (DocumentViewer.selectedRoute p st) doc)
     = Rejected err ->
     let task := DocumentViewer.extractRevisions p h st doc in
     let final := finalState engine task st in
     trace engine task st
     = [Called (Engine.GetRevisions (DocumentViewer.selectedRoute p st) doc)] /\
     final = DocumentViewer.setIsExtractingRevisions false
               (DocumentViewer.setRevisions []
                  (DocumentViewer.setIsExtractingRevisions true st)) /\
     DocumentViewer.error final = DocumentViewer.error st) /\
  (forall (engine : Engine.Oracle) (atob : string -> Settled (list N))
          (st : AnnotationViewer.State) (annotationId : string),
     let task := AnnotationViewer.handleRemoveAnnotation atob st annotationId in
     AnnotationViewer.error (finalState engine task st) = AnnotationViewer.error st /\
     (forall current err,
        AnnotationViewer.documentBytes st = Some current ->
        engine _ (Engine.RemoveAnnotation current annotationId) = Rejected err ->
        finalState engine task st = st /\
        trace engine task st
        = [Called (Engine.RemoveAnnotation current annotationId);
           Emitted (AnnotationViewer.ConsoleError "Failed to remove annotation:" err)]) /\
     (forall current encoded bytes,
        AnnotationViewer.documentBytes st = Some current ->
        engine _ (Engine.RemoveAnnotation current annotationId)
        = Fulfilled (Some (Engine.mkAnnotationResult true (Some encoded))) ->
        encoded <> "" ->
        atob encoded = Fulfilled bytes ->
        (forall err,
           engine _ (Engine.GetAnnotations (Engine.OfBytes bytes)) = Rejected err ->
           trace engine task st
           = [Called (Engine.RemoveAnnotation current annotationId);
              Called (Engine.GetAnnotations (Engine.OfBytes bytes));
              Emitted (AnnotationViewer.ConsoleError "Failed to remove annotation:" err)]) /\
        (forall annots err,
           engine _ (Engine.GetAnnotations (Engine.OfBytes bytes)) = Fulfilled annots ->
           engine _ (Engine.ConvertToHtml Engine.Direct (Engine.OfBytes bytes)
                       AnnotationViewer.annotationOptions) = Rejected err ->
           trace engine task st
           = [Called (Engine.RemoveAnnotation current annotationId);
              Called (Engine.GetAnnotations (Engine.OfBytes bytes));
              Called (Engine.ConvertToHtml Engine.Direct (Engine.OfBytes bytes)
                        AnnotationViewer.annotationOptions);
              Emitted (AnnotationViewer.ConsoleError "Failed to remove annotation:"
                         err)]))).
Proof.
  split; [| split; [| split; [| split]]].
  - intros engine hook st file options err Hready Hl Hi Herr task final.
    assert (Hrun := DemoDocumentViewerFacts.convert_run engine hook st file options Hready).
    rewrite Herr in Hrun.
    subst final task. unfold trace, finalState. rewrite Hrun. cbn [fst snd].
    split; [reflexivity |]. split; [reflexivity |].
    now apply demo_form_shows_error.
  - intros engine p h st doc err Hready Herr task final.
    subst final task.
    rewrite DocumentViewerFacts.convert_calls, Hready.
    rewrite (DocumentViewerFacts.convert_final engine p h st st doc Hready), Herr.
    split; [reflexivity |]. split; [reflexivity |].
    split; [now apply DocumentViewerFacts.content_shows_error |].
    intros Hcb. now apply DocumentViewerFacts.convert_reports_error.
  - intros engine p st doc err Herr task final. subst final task.
    unfold trace, finalState.
    rewrite DocumentViewerFacts.fetchMetadata_run, Herr. now repeat split.
  - intros engine p h st doc err Hready Htab Herr task final. subst final task.
    unfold trace, finalState.
    rewrite (DocumentViewerFacts.extractRevisions_run engine p h st doc Hready Htab), Herr.
    now repeat split.
  - intros engine atob st annotationId task. subst task.
    split; [| split].
    + apply keeps_final, AnnotationViewerFacts.handleRemoveAnnotation_keeps_error.
    + intros current err Hbytes Herr. unfold trace, finalState.
      rewrite (AnnotationViewerFacts.handleRemoveAnnotation_rejected
                 engine atob st annotationId current err Hbytes Herr).
      now split.
    + intros current encoded bytes Hbytes Hres Hne Hdecode.
      unfold trace, AnnotationViewer.handleRemoveAnnotation, AnnotationViewer.catchRemove.
      rewrite Hbytes. cbn. rewrite Hres.
      cbn [Engine.documentBytes Engine.success andb].
      apply String.eqb_neq in Hne. rewrite Hne. cbn [negb]. rewrite Hdecode.
      split.
      * intros err Hann. cbn -[AnnotationViewer.annotationOptions]. now rewrite Hann.
      * intros annots err Hann Hconv. cbn -[AnnotationViewer.annotationOptions].
        rewrite Hann. cbn -[AnnotationViewer.annotationOptions]. now rewrite Hconv.
Qed.

(** A conversion the worker rejects, in [<DocumentViewer />]. *)
Lemma engine_errors_by_call_site_witness :
  let failing := Engine.rejecting (ThrownError (mkError "Invalid DOCX")) in
  let st := DocumentViewer.readyState Types.noProps in
  let final := finalState failing
                 (DocumentViewer.convert Types.noProps DocumentViewer.idleHook st
                    Engine.sampleFile) st in
  DocumentViewer.error final = Some (mkError "Invalid DOCX") /\
  In (DocumentViewer.ErrorMessage "Error: Invalid DOCX")
     (DocumentViewer.Content Types.noProps DocumentViewer.idleHook final).
Proof.
  destruct engine_errors_by_call_site as (_ & Hconvert & _).
  destruct (Hconvert (Engine.rejecting (ThrownError (mkError "Invalid DOCX")))
              Types.noProps DocumentViewer.idleHook
              (DocumentViewer.readyState Types.noProps) Engine.sampleFile
              (ThrownError (mkError "Invalid DOCX")) eq_refl eq_refl)
    as (_ & Herror & Hshown & _).
  split; [exact Herror | exact Hshown].
Defined.

(** C2 as stated fails: the engine rejects [getRevisions] for the document
    on screen; the viewer makes that one call, empties the revisions, keeps
    [error] at [null] and renders no error message. *)
Lemma revision_error_is_swallowed :
  let err := ThrownError (mkError "Corrupt revisions") in
  let failing := Engine.rejecting err in
  let st := DocumentViewer.viewingState Types.noProps in
  let task := DocumentViewer.extractRevisions Types.noProps DocumentViewer.idleHook st
                Engine.sampleFile in
  let final := finalState failing task st in
  trace failing task st
  = [Called (Engine.GetRevisions (Engine.ViaWorker DocumentViewer.sampleWorker)
               Engine.sampleFile)] /\
  failing _ (Engine.GetRevisions (Engine.ViaWorker DocumentViewer.sampleWorker)
               Engine.sampleFile) = Rejected err /\
  DocumentViewer.error final = None /\
  DocumentViewer.revisions final = [] /\
  existsb DocumentViewer.isErrorMessage
    (DocumentViewer.Content Types.noProps DocumentViewer.idleHook final) = false /\
  DocumentViewer.currentHtml Types.noProps final = Some "<div>Worker Mock HTML</div>".
Proof. repeat split. Qed.

End ErrorHandlingFacts.

(** ** The development server's middleware *)

Module ViteConfigFacts.
Import Js ViteConfig ViteConfigPlugin.

Lemma sameHeader_refl (name : string) : sameHeader name name = true.
Proof. apply String.eqb_refl. Qed.

Lemma sameHeader_sym (a b : string) : sameHeader a b = sameHeader b a.
Proof. apply String.eqb_sym. Qed.

(** Two names that are the same header as a third are the same header. *)
Lemma sameHeader_via (a b c : string) :
  sameHeader a b = true -> sameHeader a c = sameHeader b c.
Proof.
  unfold sameHeader. intros H. apply String.eqb_eq in H. now rewrite H.
Qed.

Lemma getHeader_setHeader_same (name value : string) (res : Response) :
  getHeader name (setHeader name value res) = Some value.
Proof.
  unfold getHeader, setHeader. cbn [headers].
  induction (headers res) as [| [n v] rest IH]; cbn -[sameHeader].
  - now rewrite sameHeader_refl.
  - destruct (sameHeader n name) eqn:Hn; cbn -[sameHeader]; [exact IH |].
    now rewrite Hn.
Qed.

Lemma getHeader_setHeader_other (name other value : string) (res : Response) :
  sameHeader name other = false ->
  getHeader name (setHeader other value res) = getHeader name res.
Proof.
  intros Hne. unfold getHeader, setHeader. cbn [headers].
  assert (Hlast : sameHeader other name = false)
    by (now rewrite sameHeader_sym).
  induction (headers res) as [| [n v] rest IH]; cbn -[sameHeader].
  - now rewrite Hlast.
  - destruct (sameHeader n other) eqn:Hn; cbn -[sameHeader].
    + rewrite (sameHeader_via n other name Hn), Hlast. exact IH.
    + destruct (sameHeader n name); [reflexivity | exact IH].
Qed.

(** The same header under another spelling of its name. *)
Lemma getHeader_sameHeader (name other : string) (res : Response) :
  sameHeader name other = true -> getHeader name res = getHeader other res.
Proof.
  intros Hsame. unfold getHeader.
  induction (headers res) as [| [n v] rest IH]; cbn -[sameHeader]; [reflexivity |].
  rewrite (sameHeader_sym n name), (sameHeader_via name other n Hsame),
    (sameHeader_sym other n).
  destruct (sameHeader n other); [reflexivity | exact IH].
Qed.

(** The three extensions exclude one another. *)
Lemma endsWith_extensions (u : string) :
  (endsWith u ".wasm" = true -> endsWith u ".js" = false) /\
  (endsWith u ".json" = true ->
   endsWith u ".js" = false /\ endsWith u ".wasm" = false).
Proof.
  unfold endsWith. cbn [list_ascii_of_string rev app].
  destruct (rev (list_ascii_of_string u)) as [| c rest]; cbn [isPrefixOf].
  - split; [discriminate | discriminate].
  - split.
    + intros H. apply andb_true_iff in H as [H _].
      apply Ascii.eqb_eq in H as <-. reflexivity.
    + intros H. apply andb_true_iff in H as [H _].
      apply Ascii.eqb_eq in H as <-. split; reflexivity.
Qed.

Section WithNode.
Context {node : Node}.

(** A request for an existing, readable path below [/wasm/_framework/] is
    answered with the bytes read and the three headers. *)
Lemma middleware_serves (req : Request) (res : Response) (content : list N) :
  let u := match url req with Some v => v | None => "" end in
  startsWith u "/wasm/_framework/" = true ->
  existsSync (join publicDir u) = true ->
  readFileSync (join publicDir u) = Fulfilled content ->
  exists served,
    middleware req res = Ended served content /\
    (endsWith u ".wasm" = true ->
     getHeader "Content-Type" served = Some "application/wasm") /\
    (endsWith u ".js" = true ->
     getHeader "Content-Type" served = Some "application/javascript") /\
    (endsWith u ".json" = true ->
     getHeader "Content-Type" served = Some "application/json") /\
    getHeader "Cross-Origin-Opener-Policy" served = Some "same-origin" /\
    getHeader "Cross-Origin-Embedder-Policy" served = Some "require-corp".
Proof.
  intros u Hprefix Hexists Hread.
  destruct (endsWith_extensions u) as [Hwasm_js Hjson].
  eexists. split.
  { unfold middleware. fold u. rewrite Hprefix, Hexists, Hread. reflexivity. }
  cbv zeta.
  split.
  { intros Hwasm. rewrite !getHeader_setHeader_other by reflexivity.
    rewrite (Hwasm_js Hwasm), Hwasm. apply getHeader_setHeader_same. }
  split.
  { intros Hjs. rewrite !getHeader_setHeader_other by reflexivity.
    rewrite Hjs. apply getHeader_setHeader_same. }
  split.
  { intros H. rewrite !getHeader_setHeader_other by reflexivity.
    destruct (Hjson H) as [-> ->]. rewrite H. apply getHeader_setHeader_same. }
  split.
  { rewrite getHeader_setHeader_other by reflexivity.
    apply getHeader_setHeader_same. }
  apply getHeader_setHeader_same.
Qed.

(** Another URL, or no path of that name: the next handler gets request
    and response as they came. *)
Lemma middleware_passes_on (req : Request) (res : Response) :
  let u := match url req with Some v => v | None => "" end in
  startsWith u "/wasm/_framework/" = false \/ existsSync (join publicDir u) = false ->
  middleware req res = Next req res.
Proof.
  intros u Hother. unfold middleware. fold u.
  destruct (startsWith u "/wasm/_framework/"); [| reflexivity].
  destruct Hother as [H | ->]; [discriminate H | reflexivity].
Qed.

(** When the path exists but cannot be read, the exception of
    [readFileSync] leaves the middleware. *)
Lemma middleware_read_failure (req : Request) (res : Response) (err : Thrown) :
  let u := match url req with Some v => v | None => "" end in
  startsWith u "/wasm/_framework/" = true ->
  existsSync (join publicDir u) = true ->
  readFileSync (join publicDir u) = Rejected err ->
  middleware req res = Threw err.
Proof.
  intros u Hprefix Hexists Hread. unfold middleware. fold u.
  now rewrite Hprefix, Hexists, Hread.
Qed.

End WithNode.

(** C5: a request whose URL starts with [/wasm/_framework/] and whose path
    [join(join(cwd, 'public'), url)] exists and can be read is answered with
    the bytes read, with [Content-Type] [application/wasm] for a URL ending
    in [.wasm] ([application/javascript] for [.js], [application/json] for
    [.json]) and with the two cross-origin isolation headers; a request with
    another URL, or naming no existing path, goes to the next handler with
    request and response untouched.  The case the code misses: a path that
    exists but is no file.  [existsSync] accepts a directory and
    [readFileSync] throws on it, so the request for [/wasm/_framework/]
    itself, a directory that is there whenever the engine's files are, is
    not passed on: the exception leaves the middleware. *)
Theorem middleware_serves_wasm_files :
  (forall (node : Node) (req : Request) (res : Response),
     let u := match url req with Some v => v | None => "" end in
     let filePath := join (join cwd "public") u in
     (forall content,
        startsWith u "/wasm/_framework/" = true ->
        existsSync filePath = true ->
        readFileSync filePath = Fulfilled content ->
        exists served,
          middleware req res = Ended served content /\
          (endsWith u ".wasm" = true ->
           getHeader "Content-Type" served = Some "application/wasm") /\
          (endsWith u ".js" = true ->
           getHeader "Content-Type" served = Some "application/javascript") /\
          (endsWith u ".json" = true ->
           getHeader "Content-Type" served = Some "application/json") /\
          getHeader "Cross-Origin-Opener-Policy" served = Some "same-origin" /\
          getHeader "Cross-Origin-Embedder-Policy" served = Some "require-corp") /\
     (startsWith u "/wasm/_framework/" = false \/ existsSync filePath = false ->
      middleware req res = Next req res) /\
     (forall err,
        startsWith u "/wasm/_framework/" = true ->
        existsSync filePath = true ->
        readFileSync filePath = Rejected err ->
        middleware req res = Threw err)) /\
  (let node : Node := directoryNode in
   let req := mkRequest (Some "/wasm/_framework/") in
   let res := mkResponse [] in
   startsWith "/wasm/_framework/" "/wasm/_framework/" = true /\
   existsSync (join (join cwd "public") "/wasm/_framework/") = true /\
   middleware req res = Threw directoryError /\
   middleware req res <> Next req res).
Proof.
  split.
  - intros node req res u filePath.
    split; [| split].
    + intros content. apply (middleware_serves req res content).
    + apply (middleware_passes_on req res).
    + intros err. apply (middleware_read_failure req res err).
  - cbv zeta. repeat split. discriminate.
Qed.

(** The engine's binary is requested and found. *)
Lemma middleware_serves_wasm_files_witness :
  exists served,
    middleware (node := sampleNode) (mkRequest (Some "/wasm/_framework/dotnet.native.wasm"))
      (mkResponse [])
    = Ended served [0%N; 97%N; 115%N; 109%N] /\
    getHeader "Content-Type" served = Some "application/wasm" /\
    getHeader "Cross-Origin-Opener-Policy" served = Some "same-origin" /\
    getHeader "Cross-Origin-Embedder-Policy" served = Some "require-corp".
Proof.
  destruct (proj1 (proj1 middleware_serves_wasm_files sampleNode
                     (mkRequest (Some "/wasm/_framework/dotnet.native.wasm"))
                     (mkResponse []))
              [0%N; 97%N; 115%N; 109%N] eq_refl eq_refl eq_refl)
    as (served & Hrun & Hwasm & _ & _ & Hcoop & Hcoep).
  exists served. repeat split; try assumption. now apply Hwasm.
Defined.

End ViteConfigFacts.

(** ** More on the revision panel *)

Module RevisionPanelBehaviour.
Import Js RevisionPanel RevisionPanelOptions RevisionPanelFacts.

Lemma set_has_delete_same (i : nat) (s : list nat) :
  set_has i (set_delete i s) = false.
Proof.
  unfold set_has, set_delete. induction s as [| j s IH]; cbn; [reflexivity |].
  destruct (Nat.eqb i j) eqn:Hij; cbn; [exact IH | now rewrite Hij].
Qed.

Lemma set_has_delete_other (i j : nat) (s : list nat) :
  j <> i -> set_has j (set_delete i s) = set_has j s.
Proof.
  intros Hne. unfold set_has, set_delete.
  induction s as [| k s IH]; cbn; [reflexivity |].
  destruct (Nat.eqb i k) eqn:Hik; cbn.
  - apply Nat.eqb_eq in Hik as <-.
    replace (Nat.eqb j i) with false by (symmetry; now apply Nat.eqb_neq).
    exact IH.
  - now rewrite IH.
Qed.

Lemma set_has_add (i j : nat) (s : list nat) :
  set_has j (set_add i s) = Nat.eqb j i || set_has j s.
Proof.
  unfold set_add. destruct (set_has i s) eqn:Hi.
  - destruct (Nat.eqb_spec j i) as [-> | Hne]; [now rewrite Hi | reflexivity].
  - unfold set_has. rewrite existsb_app. cbn.
    rewrite orb_false_r. apply orb_comm.
Qed.

Lemma toggle_has (index j : nat) (st : PanelState) :
  set_has j (expandedIds (toggleExpanded index st))
  = if Nat.eqb j index then negb (set_has index (expandedIds st))
    else set_has j (expandedIds st).
Proof.
  unfold toggleExpanded. cbn [expandedIds].
  destruct (Nat.eqb_spec j index) as [-> | Hne].
  - destruct (set_has index (expandedIds st)) eqn:Hi.
    + apply set_has_delete_same.
    + rewrite set_has_add, Nat.eqb_refl. reflexivity.
  - destruct (set_has index (expandedIds st)) eqn:Hi.
    + now apply set_has_delete_other.
    + rewrite set_has_add.
      replace (Nat.eqb j index) with false by (symmetry; now apply Nat.eqb_neq).
      reflexivity.
Qed.

Section WithEngine.
Context {engine : Docxodus}.

(** The panel lists as many items as the filter lets through. *)
Lemma render_lists_filtered (formatDate : string -> string)
  (revisions : list Revision) (st : PanelState) :
  List.length (itemsOf (render formatDate revisions st))
  = List.length (filteredRevisions revisions (filter st)).
Proof.
  destruct revisions as [| r rest].
  - unfold filteredRevisions. now destruct (String.eqb (filter st) "all").
  - cbn [render itemsOf]. apply length_mapIndexed.
Qed.

(** X1: the number an entry of the filter dropdown shows is the number of
    items the rendered panel lists once that entry is selected, and never
    more than the total in the header, which is the number of items listed
    under ['all']; the statistics in the header are those of the whole
    input, whatever is selected. *)
Theorem dropdown_counts_match_list (formatDate : string -> string)
  (revisions : list Revision) (st : PanelState) (f : FilterType) :
  let listed := fun entry : FilterType =>
    List.length
      (itemsOf (render formatDate revisions (setFilter (filter_value entry) st))) in
  total (stats revisions) = listed FAll /\
  (forall n, optionCount f (stats revisions) = Some n ->
     n = listed f /\ (n <= total (stats revisions))%nat) /\
  (forall header selected items,
     render formatDate revisions (setFilter (filter_value f) st)
     = Panel header selected items ->
     header = stats revisions /\ selected = filter_value f).
Proof.
  intros listed. unfold listed. split; [| split].
  - now rewrite render_lists_filtered.
  - intros n Hn. rewrite render_lists_filtered. cbn [filter setFilter].
    assert (Hcat : exists pred, categoryPredicate f = Some pred /\
                                n = List.length (List.filter pred revisions)).
    { destruct f; cbn in Hn; try discriminate Hn; injection Hn as <-;
        eexists; split; reflexivity. }
    destruct Hcat as (pred & Hpred & ->).
    rewrite (filteredRevisions_category revisions f pred Hpred).
    split; [reflexivity | apply filter_length_le].
  - intros header selected items.
    destruct revisions as [| r rest]; [discriminate |].
    cbn [render]. intros [= <- <- _]. now split.
Qed.

(** X2: "Show more" / "Show less" toggles the item it belongs to and no
    other: the item's position enters or leaves the expanded set, every
    other position keeps its state, the filter is untouched, and the item
    then shows its full text where it showed the truncated one and the
    other way round. *)
Theorem toggleExpanded_flips_one_item (formatDate : string -> string)
  (st : PanelState) (index : nat) (revision : Revision) :
  set_has index (expandedIds (toggleExpanded index st))
  = negb (set_has index (expandedIds st)) /\
  (forall j, j <> index ->
     set_has j (expandedIds (toggleExpanded index st)) = set_has j (expandedIds st)) /\
  (forall j, set_has j (expandedIds (toggleExpanded index (toggleExpanded index st)))
             = set_has j (expandedIds st)) /\
  filter (toggleExpanded index st) = filter st /\
  item_text (renderItem formatDate (expandedIds (toggleExpanded index st)) index revision)
  = (if set_has index (expandedIds st)
     then truncateText (text revision) defaultMaxLength
     else text revision) /\
  item_expand (renderItem formatDate (expandedIds (toggleExpanded index st)) index revision)
  = (if needsTruncation revision
     then Some (if set_has index (expandedIds st) then "Show more" else "Show less")
     else None).
Proof.
  split; [rewrite toggle_has, Nat.eqb_refl; reflexivity |].
  split.
  { intros j Hne. rewrite toggle_has.
    now replace (Nat.eqb j index) with false by (symmetry; now apply Nat.eqb_neq). }
  split.
  { intros j. rewrite !toggle_has, Nat.eqb_refl.
    destruct (Nat.eqb j index) eqn:Hj; [| reflexivity].
    apply Nat.eqb_eq in Hj as ->. apply negb_involutive. }
  split; [reflexivity |].
  unfold renderItem. cbn [item_text item_expand].
  rewrite toggle_has, Nat.eqb_refl.
  destruct (set_has index (expandedIds st)); split; reflexivity.
Qed.

(** X3: the "No tracked changes" state is rendered exactly for an empty
    input. A non-empty input always gets the header with its statistics,
    also when the selected filter leaves no item to list. *)
Theorem empty_state_only_for_empty_input (formatDate : string -> string)
  (revisions : list Revision) (st : PanelState) :
  (render formatDate revisions st = EmptyPanel <-> revisions = []) /\
  (revisions <> [] ->
   filter st <> "all" ->
   (forall r, In r revisions -> filterCallback (filter st) r = false) ->
   render formatDate revisions st = Panel (stats revisions) (filter st) []).
Proof.
  split.
  - split; [| intros ->; reflexivity].
    destruct revisions; [reflexivity | discriminate].
  - intros Hne Hfilter Hnone. rewrite render_items by exact Hne.
    unfold filteredRevisions.
    replace (String.eqb (filter st) "all") with false
      by (symmetry; now apply String.eqb_neq).
    replace (List.filter (filterCallback (filter st)) revisions) with (@nil Revision);
      [reflexivity |].
    symmetry. clear Hne. induction revisions as [| r rest IH]; [reflexivity |].
    cbn. rewrite (Hnone r (or_introl eq_refl)).
    apply IH. intros r' Hr'. apply Hnone. now right.
Qed.

(** X4: the expanded set holds positions of the displayed list, not
    revisions: after the filter is changed, the item now standing at a
    position is shown in full exactly when that position was expanded
    before, whichever revision it is. *)
Theorem expansion_stays_with_position (formatDate : string -> string)
  (revisions : list Revision) (st : PanelState) (value : string) (i : nat)
  (revision : Revision) :
  nth_error (filteredRevisions revisions value) i = Some revision ->
  expandedIds (setFilter value st) = expandedIds st /\
  exists item,
    nth_error (itemsOf (render formatDate revisions (setFilter value st))) i = Some item /\
    item_text item
    = (if set_has i (expandedIds st) then text revision
       else truncateText (text revision) defaultMaxLength).
Proof.
  intros Hi. split; [reflexivity |].
  assert (Hne : revisions <> []).
  { intros ->. unfold filteredRevisions in Hi.
    destruct (String.eqb value "all"); destruct i; discriminate Hi. }
  rewrite render_items by exact Hne. cbn [itemsOf filter expandedIds setFilter].
  rewrite nth_error_mapIndexed, Hi. cbn [option_map].
  eexists. split; reflexivity.
Qed.

(** X5: label and CSS class of an item name the same kind of change: the
    class is the insertion, deletion, move or format class exactly with the
    labels "Inserted", "Deleted", "Moved from" / "Moved to", "Formatted",
    and a revision none of the type guards accepts gets no class and its
    raw [revisionType] as label. *)
Theorem label_and_class_agree (revision : Revision) :
  (getRevisionTypeClass revision = "rdv-revision--insertion"
   /\ getRevisionTypeLabel revision = "Inserted") \/
  (getRevisionTypeClass revision = "rdv-revision--deletion"
   /\ getRevisionTypeLabel revision = "Deleted") \/
  (getRevisionTypeClass revision = "rdv-revision--move"
   /\ (getRevisionTypeLabel revision = "Moved from"
       /\ isMoveSource revision = Some true
       \/ getRevisionTypeLabel revision = "Moved to"
          /\ isMoveSource revision <> Some true)) \/
  (getRevisionTypeClass revision = "rdv-revision--format"
   /\ getRevisionTypeLabel revision = "Formatted") \/
  (getRevisionTypeClass revision = ""
   /\ getRevisionTypeLabel revision = revisionType revision
   /\ isInsertion revision = false /\ isDeletion revision = false
   /\ isMove revision = false /\ isFormatChange revision = false).
Proof.
  unfold getRevisionTypeClass, getRevisionTypeLabel.
  destruct (isInsertion revision); [now left |].
  destruct (isDeletion revision); [right; now left |].
  destruct (isMove revision).
  { right; right; left. split; [reflexivity |].
    destruct (isMoveSource revision) as [[|] |]; [left | right | right];
      split; congruence. }
  destruct (isFormatChange revision); [do 3 right; now left |].
  do 4 right. repeat split.
Qed.

End WithEngine.

(** The dropdown of the test's three revisions shows "Insertions (1)",
    and selecting it leaves one item in the panel. *)
Lemma dropdown_counts_match_list_witness :
  optionCount FInsertions (stats (engine := mockEngine) mockRevisions) = Some 1%nat /\
  1%nat = List.length
            (itemsOf (render (engine := mockEngine) (fun d => d) mockRevisions
                        (setFilter "insertions" initialPanelState))).
Proof.
  split; [reflexivity |].
  exact (proj1 (proj1 (proj2 (dropdown_counts_match_list (engine := mockEngine)
                                (fun d => d) mockRevisions initialPanelState
                                FInsertions))
                  1%nat eq_refl)).
Defined.

(** The first of two long revisions is expanded under ['all']; under
    ['deletions'] the deletion, now first, is the one shown in full. *)
Lemma expansion_stays_with_position_witness :
  let st := toggleExpanded 0 initialPanelState in
  exists item,
    nth_error (itemsOf (render (engine := mockEngine) (fun d => d) longRevisions
                          (setFilter "deletions" st))) 0 = Some item /\
    item_author item = "Jane Smith" /\
    item_text item = text longDeletion.
Proof.
  destruct (proj2 (expansion_stays_with_position (engine := mockEngine) (fun d => d)
                     longRevisions (toggleExpanded 0 initialPanelState)
                     "deletions" 0%nat longDeletion eq_refl))
    as (item & Hitem & Htext).
  exists item. split; [exact Hitem |].
  split; [| exact Htext].
  cbn in Hitem. now injection Hitem as <-.
Defined.

(** A filter that matches none of the test's revisions. *)
Lemma empty_state_only_for_empty_input_witness :
  render (engine := mockEngine) (fun d => d) mockRevisions
    (setFilter "formatting" initialPanelState)
  = Panel (stats (engine := mockEngine) mockRevisions) "formatting" [].
Proof.
  apply (proj2 (empty_state_only_for_empty_input (engine := mockEngine) (fun d => d)
                  mockRevisions (setFilter "formatting" initialPanelState))).
  - discriminate.
  - discriminate.
  - intros r [<- | [<- | [<- | []]]]; reflexivity.
Defined.

End RevisionPanelBehaviour.

(** ** More on the demo's viewer *)

Module DemoDocumentViewerBehaviour.
Import Js Task Task.Notations TaskFacts DemoDocumentViewer DemoDocumentViewerFacts.

Lemma convert_trace_cases (engine : Engine.Oracle) (hook : Hook) (st : State)
  (file : Engine.File) (options : Engine.ConversionOptions) :
  trace engine (convert hook file options) st
  = if isReady hook
    then [Called (Engine.ConvertToHtml Engine.Direct (Engine.OfFile file) options)]
    else [].
Proof.
  unfold trace. destruct (isReady hook) eqn:Hready.
  - now rewrite convert_run.
  - now rewrite convert_not_ready.
Qed.

Lemma convert_releases (engine : Engine.Oracle) (hook : Hook) (st : State)
  (file : Engine.File) (options : Engine.ConversionOptions) :
  isConverting st = false ->
  isConverting (finalState engine (convert hook file options) st) = false.
Proof.
  intros Hst. unfold finalState. destruct (isReady hook) eqn:Hready.
  - now rewrite convert_run.
  - now rewrite convert_not_ready.
Qed.

Ltac unfold_handlers :=
  cbv beta iota delta [handle handleFileChange reconvert handleCommentModeChange
                         handlePaginationToggle handleFabricateClassesChange].

(** X6: whatever the user does, in whatever order, and however the engine
    answers, the form never renders the error message and the converted
    document together. *)
Theorem error_and_document_never_rendered_together (engine : Engine.Oracle)
  (hook : Hook) (evs : list UiEvent) :
  existsb isErrorMessage
    (blocksOf (render hook (steps engine hook evs initialState)))
  && existsb isDocumentContent
       (blocksOf (render hook (steps engine hook evs initialState))) = false.
Proof.
  apply render_exclusive, steps_exclusive. now left.
Qed.

Lemma handle_calls (engine : Engine.Oracle) (hook : Hook)
  (st : State) (ev : UiEvent) :
  (List.length (trace engine (handle hook st ev) st) <= 1)%nat /\
  (isReady hook = false -> trace engine (handle hook st ev) st = []) /\
  (pendingFile st = None -> (forall f, ev <> ChooseFile (Some f)) ->
   trace engine (handle hook st ev) st = []) /\
  (isConverting st = false -> isConverting (step engine hook st ev) = false).
Proof.
  unfold step.
  destruct ev as [[f |] | mode | enabled | value | | checked | | value | value
                  | value | value | | checked | | total | pageNumber];
    unfold_handlers;
    rewrite ?update_then_trace, ?update_then_final;
    try (destruct (pendingFile st) as [pf |] eqn:Hpf);
    rewrite ?convert_trace_cases;
    repeat split;
    try (intros Hc; apply convert_releases; exact Hc);
    try (intros Hready; rewrite Hready; reflexivity);
    try (intros Hnone Hev; first [discriminate Hnone
                                 | exfalso; now apply (Hev f)
                                 | reflexivity]);
    try (destruct (isReady hook); cbn; lia);
    try (cbn; lia);
    try (intros; reflexivity);
    try (cbn; auto).
Qed.

(** X7: an event makes at most one engine call, and none at all while the
    engine is not ready, or when no file has been chosen yet and the event
    is not the choice of one; and an event that finds [isConverting] false
    leaves it false: the processing indicator is always taken down again,
    also after a rejected call. *)
Theorem at_most_one_call_per_event (engine : Engine.Oracle) (hook : Hook)
  (st : State) (ev : UiEvent) :
  (List.length (trace engine (handle hook st ev) st) <= 1)%nat /\
  (isReady hook = false -> trace engine (handle hook st ev) st = []) /\
  (pendingFile st = None -> (forall f, ev <> ChooseFile (Some f)) ->
   trace engine (handle hook st ev) st = []) /\
  (isConverting st = false -> isConverting (step engine hook st ev) = false).
Proof. apply handle_calls. Qed.

(** X8: "Clear" drops the document, the error, the file name and the
    pending file and keeps every option as set; whatever the user changes
    next, short of choosing a file, goes by without a call to the engine. *)
Theorem clear_forgets_the_file (engine : Engine.Oracle) (hook : Hook)
  (st : State) (ev : UiEvent) :
  let cleared := step engine hook st ClickClear in
  html cleared = None /\ error cleared = None /\
  fileName cleared = "" /\ pendingFile cleared = None /\
  getConvertOptions cleared None = getConvertOptions st None /\
  trace engine (handle hook st ClickClear) st = [] /\
  ((forall f, ev <> ChooseFile (Some f)) ->
   trace engine (handle hook cleared ev) cleared = []).
Proof.
  intros cleared. do 6 (split; [reflexivity |]).
  intros Hev.
  apply (handle_calls engine hook cleared ev); [reflexivity | exact Hev].
Qed.

(** A document is on screen, the user clears it and switches the comment
    mode: no call. *)
Lemma clear_forgets_the_file_witness :
  trace Engine.mockOracle
    (handle readyHook (step Engine.mockOracle readyHook paginatedState ClickClear)
       (ChooseCommentMode "margin"))
    (step Engine.mockOracle readyHook paginatedState ClickClear) = [].
Proof.
  apply (clear_forgets_the_file Engine.mockOracle readyHook paginatedState
           (ChooseCommentMode "margin")).
  discriminate.
Defined.

(** With the engine still loading, choosing a file calls nothing. *)
Lemma at_most_one_call_per_event_witness :
  trace Engine.mockOracle
    (handle (mkHook false true None) initialState
       (ChooseFile (Some Engine.sampleFile))) initialState = [].
Proof.
  exact (proj1 (proj2 (at_most_one_call_per_event Engine.mockOracle
                         (mkHook false true None) initialState
                         (ChooseFile (Some Engine.sampleFile)))) eq_refl).
Defined.

End DemoDocumentViewerBehaviour.

(** ** More on the library's viewer *)

Module DocumentViewerBehaviour.
Import Js Task Task.Notations TaskFacts Types DocumentViewer DocumentViewerEffects
  DocumentViewerFacts.

(** *** The worker and the route *)

Lemma convert_keeps_worker (p : DocumentViewerProps) (h : HookResult)
  (st : State) (doc : Engine.File) :
  Keeps workerCells (convert p h st doc).
Proof.
  unfold convert. rewrite routed_selected.
  destruct (negb (isReady p h st)); [apply keeps_skip |].
  destruct (selectedRoute p st); keeps.
Qed.

Lemma handle_keeps_worker (p : DocumentViewerProps) (h : HookResult)
  (st : State) (ev : UiEvent) :
  Keeps workerCells (handle p h st ev).
Proof.
  destruct ev as [c | [f |] | value | [page |] | updates | total | pageNumber];
    cbn [handle].
  - destruct c; cbn [click];
      unfold handleClear, goToPreviousPage, goToNextPage, goToPage, handleZoomOut,
        handleZoomIn, updateSettings; keeps.
  - unfold handleFileChange.
    repeat (apply keeps_bind; [keeps | intros _]).
    unfold when. destruct (isReady p h st && htmlUncontrolled p);
      [apply convert_keeps_worker | apply keeps_skip].
  - apply keeps_skip.
  - unfold handleZoomChange, updateSettings. keeps.
  - unfold goToPage. keeps.
  - apply keeps_skip.
  - unfold updateSettings. keeps.
  - now apply keeps_update_only.
  - unfold handlePageVisible. keeps.
Qed.

Lemma started_keeps_worker (p : DocumentViewerProps) (h : HookResult)
  (st : State) (what : Started) :
  Keeps workerCells (started p h st what).
Proof.
  destruct what as [doc | doc |]; cbn [started].
  - now apply fetchMetadata_keeps.
  - now apply extractRevisions_keeps.
  - unfold reconvert. destruct (currentFile p st); [| apply keeps_skip].
    apply keeps_bind; [keeps | intros _]. apply convert_keeps_worker.
Qed.

Lemma autoConvert_keeps_worker (p : DocumentViewerProps) (h : HookResult)
  (st : State) :
  Keeps workerCells (autoConvert p h st).
Proof.
  unfold autoConvert. destruct (autoConvertDue p h st); [| apply keeps_skip].
  destruct (currentFile p st); [apply convert_keeps_worker | apply keeps_skip].
Qed.

(** The proxy is there exactly while the worker counts as ready. *)
Lemma reachable_worker_ready (engine : Engine.Oracle) (p : DocumentViewerProps)
  (h : HookResult) (st : State) :
  Reachable engine p h st -> workerReady st = isSome (worker st).
Proof.
  induction 1 as [| st st' _ IH Hstep]; [reflexivity |].
  destruct Hstep as [supported st | w st | err st | st | closure ev st
                     | closure what st | closure st | v st].
  - unfold workerEffectBegin.
    destruct (negb (useWorkerOf p) || negb supported); [exact IH | exact IH].
  - reflexivity.
  - exact IH.
  - unfold workerCleanup. destruct (worker st) eqn:Hw; [reflexivity |].
    now rewrite IH, Hw.
  - pose proof (keeps_final workerCells engine _ (handle_keeps_worker p h closure ev) st)
      as Hk. unfold workerCells in Hk. injection Hk as -> ->. exact IH.
  - pose proof (keeps_final workerCells engine _ (started_keeps_worker p h closure what) st)
      as Hk. unfold workerCells in Hk. injection Hk as -> ->. exact IH.
  - pose proof (keeps_final workerCells engine _ (autoConvert_keeps_worker p h closure) st)
      as Hk. unfold workerCells in Hk. injection Hk as -> ->. exact IH.
  - exact IH.
Qed.

(** X9: with [useWorker] (the default), whatever has happened to the
    viewer, a conversion and a revision extraction either make no call
    (the worker is not ready) or go to the worker proxy held in the state:
    neither ever runs in the page. *)
Theorem worker_mode_never_converts_in_page (engine : Engine.Oracle)
  (p : DocumentViewerProps) (h : HookResult) (st : State) (doc : Engine.File) :
  Reachable engine p h st ->
  useWorkerOf p = true ->
  (calls (trace engine (convert p h st doc) st) = []
   \/ exists w, worker st = Some w /\
                calls (trace engine (convert p h st doc) st)
                = [Called (Engine.ConvertToHtml (Engine.ViaWorker w) (Engine.OfFile doc)
                             (getConvertOptions (currentSettings p st)))]) /\
  (calls (trace engine (extractRevisions p h st doc) st) = []
   \/ exists w, worker st = Some w /\
                calls (trace engine (extractRevisions p h st doc) st)
                = [Called (Engine.GetRevisions (Engine.ViaWorker w) doc)]).
Proof.
  intros Hreach Hworker.
  pose proof (reachable_worker_ready engine p h st Hreach) as Hinv.
  assert (Hready : isReady p h st = isSome (worker st))
    by (unfold isReady; now rewrite Hworker).
  assert (Hroute : forall w, worker st = Some w -> selectedRoute p st = Engine.ViaWorker w)
    by (intros w Hw; apply selectedRoute_worker; now split).
  split.
  - rewrite convert_calls, Hready.
    destruct (worker st) as [w |] eqn:Hw; [right | now left].
    exists w. split; [reflexivity |]. cbn. now rewrite (Hroute w eq_refl).
  - unfold trace.
    destruct (isReady p h st && showRevisionsTabOf p) eqn:Hgo.
    + apply andb_true_iff in Hgo as [Hr Htab].
      rewrite Hready in Hr.
      destruct (worker st) as [w |] eqn:Hw; [| discriminate Hr].
      right. exists w. split; [reflexivity |].
      rewrite extractRevisions_run by (rewrite ?Hready; auto).
      rewrite (Hroute w eq_refl). cbn.
      destruct (engine _ _); [destruct (onRevisionsExtracted p) |]; reflexivity.
    + left. now rewrite extractRevisions_idle.
Qed.

(** The viewer with its worker ready converts in the worker. *)
Lemma worker_mode_never_converts_in_page_witness :
  exists w,
    worker (readyState noProps) = Some w /\
    calls (trace Engine.mockOracle
             (convert noProps idleHook (readyState noProps) Engine.sampleFile)
             (readyState noProps))
    = [Called (Engine.ConvertToHtml (Engine.ViaWorker w) (Engine.OfFile Engine.sampleFile)
                 (getConvertOptions (currentSettings noProps (readyState noProps))))].
Proof.
  assert (Hreach : Reachable Engine.mockOracle noProps idleHook (readyState noProps)).
  { unfold readyState.
    eapply reach_next; [| apply worker_is_created].
    eapply reach_next; [| apply worker_begins].
    apply reach_initial. }
  destruct (proj1 (worker_mode_never_converts_in_page Engine.mockOracle noProps idleHook
                     (readyState noProps) Engine.sampleFile Hreach eq_refl))
    as [Hnone | Hsome].
  - discriminate Hnone.
  - exact Hsome.
Defined.

(** *** Page navigation *)

(** Whether [goToPage] scrolls: the container is mounted, the page number
    is in range, and the container holds the page's element. *)
Lemma goToPage_trace (engine : Engine.Oracle) (closure st : State) (pageNum : Z) :
  run engine (goToPage closure pageNum) st
  = (tt, st,
     match paginatedContainerRef closure with
     | Some container =>
         if (1 <=? pageNum)%Z && (pageNum <=? totalPages closure)%Z
            && querySelector container pageNum
         then [Emitted (ScrollToPage pageNum)] else []
     | None => []
     end).
Proof.
  unfold goToPage.
  destruct (paginatedContainerRef closure) as [container |]; [| reflexivity].
  destruct (Z.ltb_spec pageNum 1), (Z.ltb_spec (totalPages closure) pageNum),
    (Z.leb_spec 1 pageNum), (Z.leb_spec pageNum (totalPages closure));
    try lia; try reflexivity.
  cbn [orb andb]. now destruct (querySelector container pageNum).
Qed.

(** X10: page navigation only ever scrolls, and only to a page in range
    whose element the mounted container holds: [goToPage] scrolls exactly
    when [paginatedContainerRef.current] is set, [1 <= pageNum <=
    totalPages] and the container has an element for the page; while the
    container is not mounted nothing scrolls, whatever the buttons show;
    "previous" does nothing on the first page and "next" nothing on the
    last, and none of the three changes the state. *)
Theorem page_navigation_stays_in_range (engine : Engine.Oracle) (st : State)
  (pageNum : Z) :
  trace engine (goToPage st pageNum) st
  = match paginatedContainerRef st with
    | Some container =>
        if (1 <=? pageNum)%Z && (pageNum <=? totalPages st)%Z
           && querySelector container pageNum
        then [Emitted (ScrollToPage pageNum)] else []
    | None => []
    end /\
  (forall n,
     In (Emitted (ScrollToPage n))
        (trace engine (goToPreviousPage st) st ++ trace engine (goToNextPage st) st) ->
     (1 <= n <= totalPages st)%Z /\
     (n = currentPage st - 1 \/ n = currentPage st + 1)%Z /\
     exists container,
       paginatedContainerRef st = Some container /\ querySelector container n = true) /\
  (paginatedContainerRef st = None ->
   trace engine (goToPage st pageNum) st = [] /\
   trace engine (goToPreviousPage st) st = [] /\
   trace engine (goToNextPage st) st = []) /\
  ((currentPage st <= 1)%Z -> trace engine (goToPreviousPage st) st = []) /\
  ((totalPages st <= currentPage st)%Z -> trace engine (goToNextPage st) st = []) /\
  finalState engine (goToPage st pageNum) st = st /\
  finalState engine (goToPreviousPage st) st = st /\
  finalState engine (goToNextPage st) st = st.
Proof.
  unfold trace, finalState, goToPreviousPage, goToNextPage, when.
  rewrite goToPage_trace. split; [reflexivity |].
  assert (Hscroll : forall m n,
            In (Emitted (ScrollToPage n)) (snd (run engine (goToPage st m) st)) ->
            n = m /\ (1 <= n <= totalPages st)%Z /\
            exists container,
              paginatedContainerRef st = Some container
              /\ querySelector container n = true).
  { intros m n Hn. rewrite goToPage_trace in Hn. cbn [snd] in Hn.
    destruct (paginatedContainerRef st) as [container |]; [| destruct Hn].
    destruct (Z.leb_spec 1 m), (Z.leb_spec m (totalPages st)); cbn in Hn; try tauto.
    destruct (querySelector container m) eqn:Hq; cbn in Hn; [| tauto].
    destruct Hn as [[= <-] | []].
    split; [reflexivity |]. split; [lia |]. now exists container. }
  split.
  { intros n Hn. apply in_app_or in Hn.
    destruct Hn as [Hn | Hn].
    - destruct (1 <? currentPage st)%Z; [| destruct Hn].
      destruct (Hscroll _ _ Hn) as (-> & Hrange & Hc). auto.
    - destruct (currentPage st <? totalPages st)%Z; [| destruct Hn].
      destruct (Hscroll _ _ Hn) as (-> & Hrange & Hc). auto. }
  split.
  { intros Hnone. rewrite Hnone.
    split; [reflexivity |].
    split; [destruct (1 <? currentPage st)%Z | destruct (currentPage st <? totalPages st)%Z];
      rewrite ?goToPage_trace, ?Hnone; reflexivity. }
  split.
  { intros H. now replace (1 <? currentPage st)%Z with false
      by (symmetry; apply Z.ltb_ge; lia). }
  split.
  { intros H. now replace (currentPage st <? totalPages st)%Z with false
      by (symmetry; apply Z.ltb_ge; lia). }
  split; [reflexivity |].
  split.
  - destruct (1 <? currentPage st)%Z; [now rewrite goToPage_trace | reflexivity].
  - destruct (currentPage st <? totalPages st)%Z;
      [now rewrite goToPage_trace | reflexivity].
Qed.

(** Three pages are laid out and the container is mounted: page 2 is
    scrolled to, page 4 is not; with the same page count but the
    container unmounted, nothing is. *)
Lemma page_navigation_stays_in_range_witness :
  let unmounted := setTotalPages 3 (viewingState noProps) in
  let mounted := attachContainer (Some threePages) unmounted in
  trace Engine.mockOracle (goToPage mounted 2) mounted = [Emitted (ScrollToPage 2)] /\
  trace Engine.mockOracle (goToPage mounted 4) mounted = [] /\
  trace Engine.mockOracle (goToPage unmounted 2) unmounted = [].
Proof.
  split; [| split].
  - exact (proj1 (page_navigation_stays_in_range Engine.mockOracle
                    (attachContainer (Some threePages)
                       (setTotalPages 3 (viewingState noProps))) 2)).
  - exact (proj1 (page_navigation_stays_in_range Engine.mockOracle
                    (attachContainer (Some threePages)
                       (setTotalPages 3 (viewingState noProps))) 4)).
  - exact (proj1 (proj1 (proj2 (proj2 (page_navigation_stays_in_range Engine.mockOracle
                                         (setTotalPages 3 (viewingState noProps)) 2)))
                    eq_refl)).
Defined.

(** *** The zoom buttons *)

Lemma toolbar_zoom_buttons (p : DocumentViewerProps) (h : HookResult) (st : State) :
  (In ZoomInButton (controlsOfChild (Toolbar p h st)) ->
   Qle_bool 2 (paginationScale (currentSettings p st)) = false) /\
  (In ZoomOutButton (controlsOfChild (Toolbar p h st)) ->
   Qle_bool (paginationScale (currentSettings p st)) (3 # 10) = false).
Proof.
  unfold Toolbar. cbn [controlsOfChild].
  rewrite !filter_app, !map_app.
  split; intros H; rewrite !in_app_iff in H; destruct H as [H | [H | [H | H]]].
  all: try (destruct (negb (String.eqb (fileName st) "")); cbn in H; [| tauto];
            destruct (isProcessing p h st); cbn in H; [tauto |];
            destruct H as [H | []]; discriminate H).
  all: try (destruct (showRevisionsTabOf p && hasRevisions st
                      && truthy (currentHtml p st)); cbn in H; [| tauto];
            destruct H as [H | [H | []]]; discriminate H).
  all: try (destruct (showSettingsButtonOf p); cbn in H; [| tauto];
            destruct H as [H | []]; discriminate H).
  all: destruct (truthy (currentHtml p st) && (0 <? totalPages st)%Z
                 && isDocumentMode (viewMode st)); cbn in H; [| tauto].
  all: destruct (currentPage st <=? 1)%Z, (totalPages st <=? currentPage st)%Z,
         (Qle_bool (paginationScale (currentSettings p st)) (3 # 10)),
         (Qle_bool 2 (paginationScale (currentSettings p st)));
       cbn in H; intuition discriminate.
Qed.

Lemma clickable_in_toolbar (p : DocumentViewerProps) (h : HookResult) (st : State)
  (c : Control) :
  In c (clickable p h st) ->
  In c (controlsOfChild (Toolbar p h st))
  \/ In c [ModalOverlay; ModalBody; ModalCloseButton; ApplyAndCloseButton].
Proof.
  rewrite clickable_app, !in_app_iff.
  destruct (String.eqb (toolbarOf p) "top"), (String.eqb (toolbarOf p) "bottom"),
    (showSettings st); cbn; tauto.
Qed.

(** X11: in the library viewer with uncontrolled settings, a zoom button
    that can be clicked always takes effect and stays in range: zoom-in is
    clickable only below 2.0 and then enlarges the scale, to at most 2.0;
    zoom-out is clickable only above 0.3 and then reduces it, to at least
    0.3. *)
Theorem clickable_zoom_changes_scale (engine : Engine.Oracle)
  (p : DocumentViewerProps) (h : HookResult) (st : State) :
  settings p = None ->
  let scale := paginationScale (currentSettings p st) in
  let after := fun c =>
    paginationScale (currentSettings p (step engine p h st (Click c))) in
  (In ZoomInButton (clickable p h st) ->
   scale < 2 /\ scale < after ZoomInButton /\ after ZoomInButton <= 2) /\
  (In ZoomOutButton (clickable p h st) ->
   3 # 10 < scale /\ after ZoomOutButton < scale /\ 3 # 10 <= after ZoomOutButton).
Proof.
  intros Hs scale after. subst after. cbv beta. unfold step. cbn [handle click].
  unfold handleZoomIn, handleZoomOut.
  destruct (toolbar_zoom_buttons p h st) as [Hin Hout].
  split; intros Hc; apply clickable_in_toolbar in Hc;
    (destruct Hc as [Hc | Hc];
     [| cbn in Hc; intuition discriminate]).
  - specialize (Hin Hc).
    assert (Hlt : scale < 2).
    { apply Qnot_le_lt. intros Hle. apply Qle_bool_iff in Hle.
      unfold scale in Hle. congruence. }
    destruct (updateSettings_scale engine p st
                (zoomedIn (paginationScale (currentSettings p st))))
      as (_ & _ & Hstored & _).
    rewrite (Hstored Hs). cbn [paginationScale spread scaleUpdate p_paginationScale].
    fold scale. unfold zoomedIn.
    destruct (Qmin_cases (scale + (1 # 10)) 2) as [[H1 ->] | [H1 ->]];
      repeat split; lra.
  - specialize (Hout Hc).
    assert (Hlt : 3 # 10 < scale).
    { apply Qnot_le_lt. intros Hle. apply Qle_bool_iff in Hle.
      unfold scale in Hle. congruence. }
    destruct (updateSettings_scale engine p st
                (zoomedOut (paginationScale (currentSettings p st))))
      as (_ & _ & Hstored & _).
    rewrite (Hstored Hs). cbn [paginationScale spread scaleUpdate p_paginationScale].
    fold scale. unfold zoomedOut.
    destruct (Qmax_cases (scale - (1 # 10)) (3 # 10)) as [[H1 ->] | [H1 ->]];
      repeat split; lra.
Qed.

(** A paginated document at the default scale 0.8: zoom-in is on screen
    and leads to a larger scale. *)
Lemma clickable_zoom_changes_scale_witness :
  let st := setTotalPages 3 (viewingState noProps) in
  In ZoomInButton (clickable noProps idleHook st) /\
  8 # 10 < paginationScale
             (currentSettings noProps
                (step Engine.mockOracle noProps idleHook st (Click ZoomInButton))).
Proof.
  assert (Hin : In ZoomInButton
                  (clickable noProps idleHook (setTotalPages 3 (viewingState noProps)))).
  { vm_compute. tauto. }
  split; [exact Hin |].
  exact (proj1 (proj2 (proj1 (clickable_zoom_changes_scale Engine.mockOracle noProps
                                idleHook (setTotalPages 3 (viewingState noProps))
                                eq_refl) Hin))).
Defined.

(** *** Conversions and the auto-convert effect *)

Lemma convert_trace_last (engine : Engine.Oracle) (p : DocumentViewerProps)
  (h : HookResult) (st : State) (doc : Engine.File) (markup : Engine.Html) :
  isReady p h st = true ->
  engine _ (Engine.ConvertToHtml (selectedRoute p st) (Engine.OfFile doc)
              (getConvertOptions (currentSettings p st))) = Fulfilled markup ->
  In (Emitted (Start (StartExtractRevisions doc))) (trace engine (convert p h st doc) st)
  /\ (onConversionComplete p = true ->
      In (Emitted (OnConversionComplete markup)) (trace engine (convert p h st doc) st)).
Proof.
  intros Hready Hok. unfold convert, trace. rewrite Hready.
  cbn [negb]. rewrite routed_selected.
  unfold notify, when.
  destruct (onConversionStart p), (useWorkerOf p), (selectedRoute p st);
    cbn; rewrite Hok; cbn;
    destruct (htmlUncontrolled p), (onConversionComplete p); cbn;
    split; intros; try discriminate; auto 8.
Qed.

(** X12: after a conversion of an uncontrolled document is rejected, the
    condition of the auto-convert effect holds again (engine ready, file
    there, no markup, not converting), and the effect makes the very same
    call once more; after a conversion that produced markup the condition
    does not hold. *)
Theorem rejected_conversion_is_due_again (engine : Engine.Oracle)
  (p : DocumentViewerProps) (h : HookResult) (st : State) (doc : Engine.File) :
  isReady p h st = true ->
  htmlUncontrolled p = true ->
  currentFile p st = Some doc ->
  let call := Engine.ConvertToHtml (selectedRoute p st) (Engine.OfFile doc)
                (getConvertOptions (currentSettings p st)) in
  let final := finalState engine (convert p h st doc) st in
  (forall err,
     internalHtml st = None ->
     engine _ call = Rejected err ->
     error final = Some (toError err) /\
     autoConvertDue p h final = true /\
     calls (trace engine (autoConvert p h final) final) = [Called call]) /\
  (forall markup,
     markup <> "" ->
     engine _ call = Fulfilled markup ->
     currentHtml p final = Some markup /\
     autoConvertDue p h final = false /\
     trace engine (autoConvert p h final) final = []).
Proof.
  intros Hready Hun Hfile call final.
  assert (Hfinal : final = converted p (engine _ call) st)
    by (apply convert_final; exact Hready).
  assert (Hprops : htmlUncontrolled p = true -> html p = None)
    by (unfold htmlUncontrolled; destruct (html p); [discriminate | reflexivity]).
  assert (Hread : forall o, isReady p h (converted p o st) = isReady p h st).
  { intros o. unfold isReady, converted. destruct (useWorkerOf p); [| reflexivity].
    destruct o; [destruct (htmlUncontrolled p) |]; reflexivity. }
  assert (Hf : forall o, currentFile p (converted p o st) = currentFile p st).
  { intros o. unfold currentFile, converted. destruct (file p); [reflexivity |].
    destruct o; [destruct (htmlUncontrolled p) |]; reflexivity. }
  assert (Hroute : forall o, selectedRoute p (converted p o st) = selectedRoute p st).
  { intros o. unfold selectedRoute, converted.
    destruct o; [destruct (htmlUncontrolled p) |]; reflexivity. }
  assert (Hset : forall o, currentSettings p (converted p o st) = currentSettings p st).
  { intros o. unfold currentSettings, converted. destruct (settings p); [reflexivity |].
    destruct o; [destruct (htmlUncontrolled p) |]; reflexivity. }
  split.
  - intros err Hhtml Herr. rewrite Hfinal, Herr.
    split; [reflexivity |].
    assert (Hdue : autoConvertDue p h (converted p (Rejected err) st) = true).
    { unfold autoConvertDue. rewrite Hread, Hready, Hf, Hfile, Hun.
      unfold currentHtml. rewrite (Hprops Hun). cbn. now rewrite Hhtml. }
    split; [exact Hdue |].
    unfold autoConvert. rewrite Hdue, Hf, Hfile.
    rewrite convert_calls, Hread, Hready, Hroute, Hset. reflexivity.
  - intros markup Hne Hok. rewrite Hfinal, Hok.
    assert (Hhtml : currentHtml p (converted p (Fulfilled markup) st) = Some markup).
    { unfold currentHtml, converted. rewrite (Hprops Hun), Hun. reflexivity. }
    split; [exact Hhtml |].
    assert (Hdue : autoConvertDue p h (converted p (Fulfilled markup) st) = false).
    { unfold autoConvertDue. rewrite Hhtml. cbn [truthy].
      apply String.eqb_neq in Hne. rewrite Hne. cbn.
      now rewrite !andb_false_r. }
    split; [exact Hdue |].
    unfold autoConvert. now rewrite Hdue.
Qed.

(** The worker rejects the document the user opened: the effect is due. *)
Lemma rejected_conversion_is_due_again_witness :
  let failing := Engine.rejecting (ThrownError (mkError "Invalid DOCX")) in
  let st := rejectedState noProps in
  let final := finalState failing (convert noProps idleHook st Engine.sampleFile) st in
  autoConvertDue noProps idleHook final = true /\
  calls (trace failing (autoConvert noProps idleHook final) final)
  = [Called (Engine.ConvertToHtml (Engine.ViaWorker sampleWorker)
               (Engine.OfFile Engine.sampleFile) (getConvertOptions DEFAULT_SETTINGS))].
Proof.
  destruct (proj1 (rejected_conversion_is_due_again
                     (Engine.rejecting (ThrownError (mkError "Invalid DOCX")))
                     noProps idleHook (rejectedState noProps) Engine.sampleFile
                     eq_refl eq_refl eq_refl)
              (ThrownError (mkError "Invalid DOCX")) eq_refl eq_refl)
    as (_ & Hdue & Hcalls).
  split; [exact Hdue | exact Hcalls].
Defined.

(** X13: after a fulfilled conversion of an uncontrolled document with
    markup, and with the engine neither loading nor failed, the content
    area shows the pages of that markup at the current scale and nothing
    else, the view is the document view, the old revisions are gone, and
    the revision extraction for the same file has been started. *)
Theorem fulfilled_conversion_shows_pages (engine : Engine.Oracle)
  (p : DocumentViewerProps) (h : HookResult) (st : State) (doc : Engine.File)
  (markup : Engine.Html) :
  isReady p h st = true ->
  htmlUncontrolled p = true ->
  isLoading p h st = false ->
  initError p h st = None ->
  markup <> "" ->
  engine _ (Engine.ConvertToHtml (selectedRoute p st) (Engine.OfFile doc)
              (getConvertOptions (currentSettings p st))) = Fulfilled markup ->
  let final := finalState engine (convert p h st doc) st in
  Content p h final
  = [Pages markup (paginationScale (currentSettings p st))
       (showPageNumbers (currentSettings p st))] /\
  viewMode final = DocumentMode /\
  revisions final = [] /\
  error final = None /\
  In (Emitted (Start (StartExtractRevisions doc))) (trace engine (convert p h st doc) st).
Proof.
  intros Hready Hun Hload Hinit Hne Hok final.
  assert (Hfinal : final = converted p (Fulfilled markup) st)
    by (unfold final; rewrite convert_final by exact Hready; now rewrite Hok).
  assert (Hhtml : html p = None)
    by (unfold htmlUncontrolled in Hun; destruct (html p); [discriminate | reflexivity]).
  split; [| split; [| split; [| split]]].
  - rewrite Hfinal. unfold Content.
    assert (Hl : isLoading p h (converted p (Fulfilled markup) st) = false).
    { revert Hload. unfold isLoading, converted. rewrite Hun.
      destruct (useWorkerOf p); auto. }
    assert (Hi : initError p h (converted p (Fulfilled markup) st) = None).
    { revert Hinit. unfold initError, converted. rewrite Hun.
      destruct (useWorkerOf p); auto. }
    assert (Hs : currentSettings p (converted p (Fulfilled markup) st)
                 = currentSettings p st).
    { unfold currentSettings, converted. rewrite Hun. now destruct (settings p). }
    rewrite Hl, Hi, Hs.
    unfold currentHtml. rewrite Hhtml.
    unfold converted. rewrite Hun. cbn.
    apply String.eqb_neq in Hne. rewrite Hne. reflexivity.
  - rewrite Hfinal. unfold converted. now rewrite Hun.
  - rewrite Hfinal. unfold converted. now rewrite Hun.
  - rewrite Hfinal. unfold converted. now rewrite Hun.
  - now apply (convert_trace_last engine p h st doc markup).
Qed.

(** Opening a file in [<DocumentViewer />] with the mocked worker. *)
Lemma fulfilled_conversion_shows_pages_witness :
  Content noProps idleHook
    (finalState Engine.mockOracle
       (convert noProps idleHook (readyState noProps) Engine.sampleFile)
       (readyState noProps))
  = [Pages "<div>Worker Mock HTML</div>" (8 # 10) true].
Proof.
  apply (fulfilled_conversion_shows_pages Engine.mockOracle noProps idleHook
           (readyState noProps) Engine.sampleFile "<div>Worker Mock HTML</div>");
    try reflexivity.
  discriminate.
Defined.

(** *** Clearing and settings *)

(** X14: the toolbar's clear button, for an uncontrolled viewer: file,
    markup, error, file name, revisions, metadata and page counters are
    reset and the view is the document view, while the settings, the
    settings modal and the worker stay as they are; no engine call is made
    and the auto-convert effect is not due; with the engine neither
    loading nor failed and no conversion running, the content area shows
    the placeholder. *)
Theorem clear_button_resets_document (engine : Engine.Oracle)
  (p : DocumentViewerProps) (h : HookResult) (st : State) :
  fileUncontrolled p = true ->
  htmlUncontrolled p = true ->
  let cleared := step engine p h st (Click ClearButton) in
  (currentFile p cleared = None /\ currentHtml p cleared = None /\
   error cleared = None /\ fileName cleared = "" /\ revisions cleared = [] /\
   documentMetadata cleared = None /\ viewMode cleared = DocumentMode /\
   currentPage cleared = 1%Z /\ totalPages cleared = 0%Z) /\
  (currentSettings p cleared = currentSettings p st /\
   showSettings cleared = showSettings st /\
   workerCells cleared = workerCells st /\
   isConverting cleared = isConverting st) /\
  calls (trace engine (handle p h st (Click ClearButton)) st) = [] /\
  autoConvertDue p h cleared = false /\
  (isLoading p h st = false -> initError p h st = None -> isConverting st = false ->
   Content p h cleared = [Placeholder (placeholderOf p)]).
Proof.
  intros Hf Hh cleared.
  assert (Hfile : file p = None)
    by (unfold fileUncontrolled in Hf; destruct (file p); [discriminate | reflexivity]).
  assert (Hhtml : html p = None)
    by (unfold htmlUncontrolled in Hh; destruct (html p); [discriminate | reflexivity]).
  assert (Hcleared :
            cleared
            = setDocumentMetadata None
                (setViewMode DocumentMode
                   (setRevisions []
                      (setTotalPages 0
                         (setCurrentPage 1
                            (setFileName ""
                               (setError None
                                  (setInternalHtml None (setInternalFile None st))))))))).
  { unfold cleared, step, finalState. cbn [handle click]. unfold handleClear, when, notify.
    rewrite Hf, Hh. destruct (onFileChange p); reflexivity. }
  split.
  { rewrite Hcleared. unfold currentFile, currentHtml. rewrite Hfile, Hhtml.
    repeat split. }
  split.
  { rewrite Hcleared. unfold currentSettings. destruct (settings p); repeat split. }
  split.
  { unfold trace. cbn [handle click]. unfold handleClear, when, notify.
    rewrite Hf, Hh. destruct (onFileChange p); reflexivity. }
  split.
  { rewrite Hcleared. unfold autoConvertDue, currentFile. rewrite Hfile. cbn.
    now rewrite andb_false_r. }
  intros Hload Hinit Hconv. rewrite Hcleared. unfold Content.
  assert (Hl : forall s, isLoading p h s = isLoading p h st ->
                         isLoading p h s = false) by (intros s ->; exact Hload).
  unfold isLoading, initError, currentHtml, currentFile in *.
  rewrite Hfile, Hhtml.
  destruct (useWorkerOf p); cbn; cbn in Hload, Hinit;
    rewrite Hload, Hinit, Hconv; reflexivity.
Qed.

(** The user clears the document they opened. *)
Lemma clear_button_resets_document_witness :
  Content noProps idleHook
    (step Engine.mockOracle noProps idleHook (viewingState noProps) (Click ClearButton))
  = [Placeholder "Open a DOCX file to view"].
Proof.
  apply (clear_button_resets_document Engine.mockOracle noProps idleHook
           (viewingState noProps) eq_refl eq_refl); reflexivity.
Defined.

(** X15: with a [settings] prop the viewer stores no settings of its own:
    an update leaves the state as it is and the displayed settings stay
    the prop's, merged over the defaults; the update is only handed to
    [onSettingsChange], as the current settings overlaid with the update.
    Without the prop the update is stored, and a later update from the next
    render builds on it. *)
Theorem controlled_settings_are_not_stored (engine : Engine.Oracle)
  (p : DocumentViewerProps) (st : State) (updates later : PartialSettings) :
  let task := updateSettings p st updates in
  let final := finalState engine task st in
  let next := spread (currentSettings p st) updates in
  trace engine task st
  = (if onSettingsChange p then [Emitted (OnSettingsChange next)] else []) /\
  (forall controlled,
     settings p = Some controlled ->
     final = st /\ currentSettings p final = spread (mergedDefaults p) controlled) /\
  (settings p = None ->
   currentSettings p final = next /\
   currentSettings p (finalState engine (updateSettings p final later) final)
   = spread next later).
Proof.
  intros task final next. subst task final next.
  unfold updateSettings, finalState, trace, when, notify, settingsUncontrolled,
    currentSettings.
  destruct (settings p) as [controlled |]; destruct (onSettingsChange p); cbn;
    (split; [reflexivity |]); split; try discriminate; auto.
  all: intros c [= <-]; split; reflexivity.
Qed.

(** The parent fixes the scale at 1.5: zoom-in reports 1.6 and changes
    nothing. *)
Lemma controlled_settings_are_not_stored_witness :
  let st := readyState controlledScale in
  finalState Engine.mockOracle (handleZoomIn controlledScale st) st = st /\
  paginationScale (currentSettings controlledScale st) = 15 # 10.
Proof.
  destruct (proj1 (proj2 (controlled_settings_are_not_stored Engine.mockOracle
                            controlledScale (readyState controlledScale)
                            (scaleUpdate (zoomedIn (15 # 10))) noUpdates))
              (scaleUpdate (15 # 10)) eq_refl) as [Hsame _].
  split; [exact Hsame | reflexivity].
Defined.

(** *** A file chosen before the engine is ready *)

(** X16: in an uncontrolled viewer that uses the worker, a file chosen
    while the worker is not ready yet is stored without any conversion
    call (only the metadata fetch is started), and the auto-convert effect
    is not due; as soon as the worker is created the effect is due and
    sends the conversion of that file to that worker. *)
Theorem file_chosen_early_converts_when_ready (engine : Engine.Oracle)
  (p : DocumentViewerProps) (h : HookResult) (st : State) (f : Engine.File)
  (w : Engine.WorkerDocxodus) :
  fileUncontrolled p = true ->
  htmlUncontrolled p = true ->
  useWorkerOf p = true ->
  workerReady st = false ->
  isConverting st = false ->
  let chosen := step engine p h st (ChooseFile (Some f)) in
  let ready := workerCreated w chosen in
  calls (trace engine (handle p h st (ChooseFile (Some f))) st) = [] /\
  In (Emitted (Start (StartFetchMetadata f)))
     (trace engine (handle p h st (ChooseFile (Some f))) st) /\
  currentFile p chosen = Some f /\
  autoConvertDue p h chosen = false /\
  autoConvertDue p h ready = true /\
  calls (trace engine (autoConvert p h ready) ready)
  = [Called (Engine.ConvertToHtml (Engine.ViaWorker w) (Engine.OfFile f)
               (getConvertOptions (currentSettings p st)))].
Proof.
  intros Hf Hh Hw Hnot Hconv chosen ready.
  assert (Hfile : file p = None)
    by (unfold fileUncontrolled in Hf; destruct (file p); [discriminate | reflexivity]).
  assert (Hhtml : html p = None)
    by (unfold htmlUncontrolled in Hh; destruct (html p); [discriminate | reflexivity]).
  assert (Hready : isReady p h st = false) by (unfold isReady; now rewrite Hw).
  assert (Hchosen :
            chosen
            = setInternalHtml None
                (setInternalFile (Some f)
                   (setViewMode DocumentMode
                      (setRevisions []
                         (setDocumentMetadata None
                            (setTotalPages 0
                               (setCurrentPage 1
                                  (setError None (setFileName (Engine.name f) st))))))))).
  { unfold chosen, step, finalState. cbn [handle]. unfold handleFileChange, when, notify.
    rewrite Hf, Hready. destruct (onFileChange p); reflexivity. }
  assert (Htrace : trace engine (handle p h st (ChooseFile (Some f))) st
                   = (if onFileChange p then [Emitted (OnFileChange (Some f))] else [])
                     ++ [Emitted (Start (StartFetchMetadata f))]).
  { unfold trace. cbn [handle]. unfold handleFileChange, when, notify.
    rewrite Hf, Hready. destruct (onFileChange p); reflexivity. }
  split; [rewrite Htrace; destruct (onFileChange p); reflexivity |].
  split; [rewrite Htrace; apply in_or_app; right; now left |].
  split; [rewrite Hchosen; unfold currentFile; now rewrite Hfile |].
  split.
  { rewrite Hchosen. unfold autoConvertDue, isReady. rewrite Hw. cbn. now rewrite Hnot. }
  assert (Hdue : autoConvertDue p h ready = true).
  { unfold ready. rewrite Hchosen.
    unfold autoConvertDue, isReady, currentFile, currentHtml.
    rewrite Hw, Hfile, Hhtml, Hh. cbn. now rewrite Hconv. }
  split; [exact Hdue |].
  unfold autoConvert. rewrite Hdue.
  replace (currentFile p ready) with (Some f)
    by (unfold ready; rewrite Hchosen; unfold currentFile; now rewrite Hfile).
  rewrite convert_calls.
  replace (isReady p h ready) with true
    by (unfold ready, isReady; now rewrite Hw).
  replace (selectedRoute p ready) with (Engine.ViaWorker w)
    by (unfold ready, selectedRoute; now rewrite Hw).
  replace (currentSettings p ready) with (currentSettings p st)
    by (unfold ready; rewrite Hchosen; unfold currentSettings;
        now destruct (settings p)).
  reflexivity.
Qed.

(** [<DocumentViewer />]: the file is chosen before the worker is there. *)
Lemma file_chosen_early_converts_when_ready_witness :
  let chosen := step Engine.mockOracle noProps idleHook (initialState noProps)
                  (ChooseFile (Some Engine.sampleFile)) in
  autoConvertDue noProps idleHook chosen = false /\
  autoConvertDue noProps idleHook (workerCreated sampleWorker chosen) = true.
Proof.
  destruct (file_chosen_early_converts_when_ready Engine.mockOracle noProps idleHook
              (initialState noProps) Engine.sampleFile sampleWorker
              eq_refl eq_refl eq_refl eq_refl eq_refl)
    as (_ & _ & _ & Hnot & Hdue & _).
  split; [exact Hnot | exact Hdue].
Defined.

(** *** The view tabs *)

Lemma toolbar_changes_tab (p : DocumentViewerProps) (h : HookResult) (st : State) :
  In ChangesTab (controlsOfChild (Toolbar p h st)) ->
  showRevisionsTabOf p && hasRevisions st && truthy (currentHtml p st) = true.
Proof.
  unfold Toolbar. cbn [controlsOfChild].
  rewrite !filter_app, !map_app.
  intros H; rewrite !in_app_iff in H; destruct H as [H | [H | [H | H]]].
  - destruct (negb (String.eqb (fileName st) "")); cbn in H; [| tauto].
    destruct (isProcessing p h st); cbn in H; [tauto |].
    destruct H as [H | []]; discriminate H.
  - destruct (showRevisionsTabOf p && hasRevisions st && truthy (currentHtml p st));
      [reflexivity | destruct H].
  - destruct (truthy (currentHtml p st) && (0 <? totalPages st)%Z
              && isDocumentMode (viewMode st)); cbn in H; [| tauto].
    destruct (currentPage st <=? 1)%Z, (totalPages st <=? currentPage st)%Z,
      (Qle_bool (paginationScale (currentSettings p st)) (3 # 10)),
      (Qle_bool 2 (paginationScale (currentSettings p st)));
      cbn in H; intuition discriminate.
  - destruct (showSettingsButtonOf p); cbn in H; [| tauto].
    destruct H as [H | []]; discriminate H.
Qed.

(** X17: the "Changes" tab can be clicked only when there are revisions and
    markup; the click then replaces the pages by the revision panel on
    those revisions, which therefore never shows its "No tracked changes"
    state there; the "Document" tab brings the pages back. *)
Theorem changes_tab_shows_revision_panel (revisionEngine : RevisionPanel.Docxodus)
  (engine : Engine.Oracle) (p : DocumentViewerProps) (h : HookResult) (st : State)
  (formatDate : string -> string) (panel : RevisionPanel.PanelState) :
  In ChangesTab (clickable p h st) ->
  isConverting st = false ->
  let changes := step engine p h st (Click ChangesTab) in
  let back := step engine p h changes (Click DocumentTab) in
  revisions st <> [] /\
  (exists markup,
     currentHtml p st = Some markup /\ markup <> "" /\
     In (RevisionPanelBlock (revisions st)) (Content p h changes) /\
     (forall m s n, ~ In (Pages m s n) (Content p h changes)) /\
     In (Pages markup (paginationScale (currentSettings p st))
           (showPageNumbers (currentSettings p st)))
        (Content p h back)) /\
  RevisionPanel.render formatDate (revisions st) panel <> RevisionPanel.EmptyPanel.
Proof.
  intros Hc Hconv changes back.
  apply clickable_in_toolbar in Hc.
  destruct Hc as [Hc | Hc]; [| cbn in Hc; intuition discriminate].
  apply toolbar_changes_tab in Hc.
  apply andb_true_iff in Hc as [Hc Hhtml].
  apply andb_true_iff in Hc as [_ Hrev].
  assert (Hne : revisions st <> [])
    by (unfold hasRevisions in Hrev; destruct (revisions st); [discriminate | discriminate]).
  split; [exact Hne |].
  split.
  - destruct (currentHtml p st) as [markup |] eqn:Hm; [| discriminate Hhtml].
    exists markup. split; [reflexivity |].
    split; [cbn in Hhtml; intros ->; discriminate Hhtml |].
    assert (Hcur : forall v, currentHtml p (setViewMode v st) = Some markup)
      by (intros v; revert Hm; unfold currentHtml; destruct (html p); auto).
    assert (Hcur2 : forall v v', currentHtml p (setViewMode v (setViewMode v' st))
                                 = Some markup)
      by (intros v v'; revert Hm; unfold currentHtml; destruct (html p); auto).
    assert (Hset : forall v v', currentSettings p (setViewMode v (setViewMode v' st))
                                = currentSettings p st)
      by (intros v v'; unfold currentSettings; destruct (settings p); auto).
    unfold back, changes, step, finalState. cbn [handle click run update fst snd].
    unfold Content. rewrite Hcur, Hcur2, Hset.
    cbn [truthy] in *. rewrite Hhtml.
    cbn [isConverting setViewMode viewMode error revisions]. rewrite Hconv.
    cbn [negb andb].
    split; [| split].
    + do 4 (apply in_or_app; right). now left.
    + intros m s n Hin.
      repeat (apply in_app_or in Hin; destruct Hin as [Hin | Hin]);
        repeat match type of Hin with
               | In _ (match ?x with _ => _ end) => destruct x
               | In _ (if ?x then _ else _) => destruct x
               end;
        cbn in Hin; intuition discriminate.
    + do 4 (apply in_or_app; right). now left.
  - destruct (revisions st); [congruence | discriminate].
Qed.

(** The document on screen has tracked changes: the tab opens the panel. *)
Lemma changes_tab_shows_revision_panel_witness :
  let st := setRevisions RevisionPanel.mockRevisions (viewingState noProps) in
  In (RevisionPanelBlock RevisionPanel.mockRevisions)
     (Content noProps idleHook
        (step Engine.mockOracle noProps idleHook st (Click ChangesTab))).
Proof.
  assert (Hin : In ChangesTab
                  (clickable noProps idleHook
                     (setRevisions RevisionPanel.mockRevisions (viewingState noProps)))).
  { vm_compute. tauto. }
  destruct (changes_tab_shows_revision_panel RevisionPanel.mockEngine Engine.mockOracle
              noProps idleHook
              (setRevisions RevisionPanel.mockRevisions (viewingState noProps))
              (fun d => d) RevisionPanel.initialPanelState Hin eq_refl)
    as (_ & (markup & _ & _ & Hpanel & _) & _).
  exact Hpanel.
Defined.

End DocumentViewerBehaviour.

(** ** More on the annotation editor *)

Module AnnotationViewerBehaviour.
Import Js Task Task.Notations TaskFacts AnnotationViewer.

(** X18: [loadDocument] always takes the loading flag down again. When both
    calls are fulfilled and the file's bytes can be read, it stores the
    annotations, the markup and those bytes and leaves no error. When
    [getAnnotations] is rejected nothing but the error is stored and no
    conversion is attempted; when the conversion is rejected the
    annotations already stored stay, without markup or bytes; when both
    calls are fulfilled but reading the file's bytes fails, annotations and
    markup are stored, the bytes are not, and the error is set. The error
    is the thrown [Error], or "Failed to load document" for any other thrown
    value, and with an error set the editor is not rendered. While the
    engine is not ready nothing happens. *)
Theorem loadDocument_outcomes (engine : Engine.Oracle)
  (arrayBuffer : Engine.File -> Settled (list N)) (st : State)
  (docFile : Engine.File) :
  let first := Engine.GetAnnotations (Engine.OfFile docFile) in
  let second := Engine.ConvertToHtml Engine.Direct (Engine.OfFile docFile)
                  annotationOptions in
  let task := loadDocument arrayBuffer true docFile in
  let final := finalState engine task st in
  isLoading final = false /\
  (forall annots markup bytes,
     engine _ first = Fulfilled annots -> engine _ second = Fulfilled markup ->
     arrayBuffer docFile = Fulfilled bytes ->
     annotations final = annots /\ html final = Some markup /\
     documentBytes final = Some bytes /\ error final = None /\
     trace engine task st = [Called first; Called second]) /\
  (forall err,
     engine _ first = Rejected err ->
     error final = Some (toErrorOr "Failed to load document" err) /\
     annotations final = annotations st /\ html final = html st /\
     documentBytes final = documentBytes st /\
     trace engine task st = [Called first]) /\
  (forall annots err,
     engine _ first = Fulfilled annots -> engine _ second = Rejected err ->
     error final = Some (toErrorOr "Failed to load document" err) /\
     annotations final = annots /\ html final = html st /\
     documentBytes final = documentBytes st) /\
  (forall annots markup err,
     engine _ first = Fulfilled annots -> engine _ second = Fulfilled markup ->
     arrayBuffer docFile = Rejected err ->
     error final = Some (toErrorOr "Failed to load document" err) /\
     annotations final = annots /\ html final = Some markup /\
     documentBytes final = documentBytes st /\
     trace engine task st = [Called first; Called second]) /\
  (forall e, error final = Some e ->
     render false final = [ErrorMessage (String.append "Error: " (message e))]) /\
  (forall repr, message (toErrorOr "Failed to load document" (ThrownValue repr))
                = "Failed to load document") /\
  run engine (loadDocument arrayBuffer false docFile) st = (tt, st, []).
Proof.
  intros first second task final.
  assert (Hloading : isLoading final = false).
  { subst final task. unfold loadDocument, catchLoad, finalState.
    cbn -[annotationOptions]. fold first. fold second.
    destruct (engine _ first); cbn -[annotationOptions]; fold second;
      [destruct (engine _ second); cbn; [destruct (arrayBuffer docFile) |] |];
      reflexivity. }
  split; [exact Hloading |].
  assert (Hshown : forall e, error final = Some e ->
            render false final = [ErrorMessage (String.append "Error: " (message e))]).
  { intros e He. unfold render. rewrite Hloading, He. cbn.
    now destruct (file final). }
  clear Hloading. subst final task.
  unfold loadDocument, catchLoad, finalState, trace in *. cbn [negb] in *.
  cbn -[annotationOptions] in *.
  fold first in Hshown |- *. fold second in Hshown |- *.
  split.
  { intros annots markup bytes ->. cbn -[annotationOptions]. fold second.
    intros ->. cbn. intros ->. repeat split. }
  split.
  { intros err ->. repeat split. }
  split.
  { intros annots err ->. cbn -[annotationOptions]. fold second.
    intros ->. repeat split. }
  split.
  { intros annots markup err ->. cbn -[annotationOptions]. fold second.
    intros ->. cbn. intros ->. repeat split. }
  split; [exact Hshown |].
  split; reflexivity.
Qed.

(** The engine answers both calls, but the file can no longer be read:
    the error is shown although annotations and markup have been stored. *)
Lemma loadDocument_outcomes_witness :
  let st := mkState (Some Engine.sampleFile) None [] None false None in
  let final := finalState Engine.mockOracle
                 (loadDocument AnnotationSamples.unreadable true Engine.sampleFile) st in
  html final <> None /\
  documentBytes final = None /\
  render false final = [ErrorMessage "Error: The file could not be read"].
Proof.
  pose proof (loadDocument_outcomes Engine.mockOracle AnnotationSamples.unreadable
                (mkState (Some Engine.sampleFile) None [] None false None)
                Engine.sampleFile) as H.
  destruct H as (_ & _ & _ & _ & Hread & Hshown & _).
  split; [discriminate |].
  split; [reflexivity |].
  apply (Hshown (mkError "The file could not be read")). reflexivity.
Defined.

(** X19: [handleRemoveAnnotation] without loaded bytes calls nothing. With
    bytes: a result that is missing, unsuccessful or without bytes changes
    nothing and says nothing; a successful one replaces the document bytes
    by the decoded ones, then refreshes the annotations and the markup from
    those bytes, in three calls; and when the refresh of the annotations is
    rejected, the new bytes are already stored while the annotations and
    the markup are still the old ones, and only the console is told. *)
Theorem handleRemoveAnnotation_outcomes (engine : Engine.Oracle)
  (atob : string -> Settled (list N)) (st : State) (annotationId : string) :
  let task := handleRemoveAnnotation atob st annotationId in
  (documentBytes st = None -> run engine task st = (tt, st, [])) /\
  (forall current result,
     documentBytes st = Some current ->
     engine _ (Engine.RemoveAnnotation current annotationId) = Fulfilled result ->
     result = None
     \/ (exists r, result = Some r /\
                   (Engine.success r = false \/ Engine.documentBytes r = None
                    \/ Engine.documentBytes r = Some "")) ->
     run engine task st
     = (tt, st, [Called (Engine.RemoveAnnotation current annotationId)])) /\
  (forall current encoded bytes,
     documentBytes st = Some current ->
     engine _ (Engine.RemoveAnnotation current annotationId)
     = Fulfilled (Some (Engine.mkAnnotationResult true (Some encoded))) ->
     encoded <> "" ->
     atob encoded = Fulfilled bytes ->
     (forall annots markup,
        engine _ (Engine.GetAnnotations (Engine.OfBytes bytes)) = Fulfilled annots ->
        engine _ (Engine.ConvertToHtml Engine.Direct (Engine.OfBytes bytes)
                    annotationOptions) = Fulfilled markup ->
        run engine task st
        = (tt,
           setHtml (Some markup) (setAnnotations annots (setDocumentBytes (Some bytes) st)),
           [Called (Engine.RemoveAnnotation current annotationId);
            Called (Engine.GetAnnotations (Engine.OfBytes bytes));
            Called (Engine.ConvertToHtml Engine.Direct (Engine.OfBytes bytes)
                      annotationOptions)])) /\
     (forall err,
        engine _ (Engine.GetAnnotations (Engine.OfBytes bytes)) = Rejected err ->
        run engine task st
        = (tt, setDocumentBytes (Some bytes) st,
           [Called (Engine.RemoveAnnotation current annotationId);
            Called (Engine.GetAnnotations (Engine.OfBytes bytes));
            Emitted (ConsoleError "Failed to remove annotation:" err)]))).
Proof.
  intros task. subst task. unfold handleRemoveAnnotation, catchRemove.
  split; [intros ->; reflexivity |].
  split.
  - intros current result -> Hres Hcase. cbn. rewrite Hres.
    destruct Hcase as [-> | (r & -> & Hr)]; [reflexivity |].
    destruct (Engine.documentBytes r) as [encoded |] eqn:Hb; [| reflexivity].
    destruct Hr as [-> | [Hr | [= ->]]]; [reflexivity | discriminate Hr |].
    cbn. now rewrite andb_false_r.
  - intros current encoded bytes -> Hres Hne Hdecode. cbn. rewrite Hres.
    cbn [Engine.documentBytes Engine.success andb].
    apply String.eqb_neq in Hne. rewrite Hne. cbn [negb]. rewrite Hdecode.
    split.
    + intros annots markup Hann Hconv. cbn -[annotationOptions].
      rewrite Hann. cbn -[annotationOptions]. now rewrite Hconv.
    + intros err Hann. cbn -[annotationOptions]. now rewrite Hann.
Qed.

(** The annotation is removed, the refresh fails: new bytes, old list. *)
Lemma handleRemoveAnnotation_outcomes_witness :
  let final := finalState AnnotationSamples.removalOracle
                 (handleRemoveAnnotation AnnotationSamples.sampleAtob
                    AnnotationSamples.loadedState "a1")
                 AnnotationSamples.loadedState in
  documentBytes final = Some [80%N; 75%N] /\
  annotations final = [Engine.mkAnnotation "a1" "Clause"] /\
  html final = Some "<p>old</p>" /\
  error final = None.
Proof.
  pose proof (proj2 (proj2 (proj2 (handleRemoveAnnotation_outcomes
                 AnnotationSamples.removalOracle AnnotationSamples.sampleAtob
                 AnnotationSamples.loadedState "a1"))
                 [1%N; 2%N; 3%N] "UEs=" [80%N; 75%N] eq_refl eq_refl
                 ltac:(discriminate) eq_refl)
              AnnotationSamples.refreshError eq_refl) as Hrun.
  unfold finalState. rewrite Hrun. repeat split.
Defined.

End AnnotationViewerBehaviour.

(** ** More on the development server's plugin *)

Module ViteConfigBehaviour.
Import Js ViteConfig ViteConfigPlugin ViteConfigFacts.

Lemma includes_prefix (s needle : string) :
  String.prefix needle s = true -> includes s needle = true.
Proof. intros H. destruct s; cbn [includes]; now rewrite H. Qed.

(** X20: [resolveId] marks a source external exactly when it contains
    [/wasm/_framework/] (the [startsWith] test adds nothing), hands its id
    back unchanged, and so covers every URL the middleware would serve. *)
Theorem resolveId_external_iff_includes (source : string) :
  (resolveId source = External source
   <-> includes source "/wasm/_framework/" = true) /\
  (resolveId source = NotResolved
   <-> includes source "/wasm/_framework/" = false) /\
  (forall id, resolveId source = External id -> id = source) /\
  (startsWith source "/wasm/_framework/" = true -> resolveId source = External source).
Proof.
  unfold resolveId, startsWith.
  destruct (String.prefix "/wasm/_framework/" source) eqn:Hp.
  - rewrite (includes_prefix _ _ Hp). cbn.
    repeat split; try congruence; intros; try discriminate.
  - cbn [orb]. destruct (includes source "/wasm/_framework/");
      repeat split; try congruence; intros; try discriminate.
Qed.

Lemma countHeader_setHeader_same (name value : string) (res : Response) :
  countHeader name (setHeader name value res) = 1%nat.
Proof.
  unfold countHeader, setHeader. cbn [headers].
  rewrite filter_app, length_app. cbn -[sameHeader].
  rewrite sameHeader_refl. cbn -[sameHeader].
  induction (headers res) as [| [n v] rest IH]; cbn -[sameHeader]; [reflexivity |].
  destruct (sameHeader n name) eqn:Hn; cbn -[sameHeader]; [exact IH |].
  now rewrite Hn.
Qed.

Lemma countHeader_setHeader_other (name other value : string) (res : Response) :
  sameHeader name other = false ->
  countHeader name (setHeader other value res) = countHeader name res.
Proof.
  intros Hne. unfold countHeader, setHeader. cbn [headers].
  assert (Hlast : sameHeader other name = false) by (now rewrite sameHeader_sym).
  rewrite filter_app, length_app. cbn -[sameHeader].
  rewrite Hlast. cbn -[sameHeader]. rewrite Nat.add_0_r.
  induction (headers res) as [| [n v] rest IH]; cbn -[sameHeader]; [reflexivity |].
  destruct (sameHeader n other) eqn:Hn; cbn -[sameHeader].
  - rewrite (sameHeader_via n other name Hn), Hlast. exact IH.
  - destruct (sameHeader n name); cbn -[sameHeader]; now rewrite IH.
Qed.

(** The count does not depend on the spelling asked for. *)
Lemma countHeader_sameHeader (name other : string) (res : Response) :
  sameHeader name other = true -> countHeader name res = countHeader other res.
Proof.
  intros Hsame. unfold countHeader. f_equal. apply filter_ext. intros [n v].
  cbn [fst]. now rewrite (sameHeader_sym n name), (sameHeader_via name other n Hsame),
    (sameHeader_sym other n).
Qed.

Section WithNode.
Context {node : Node}.

(** X21: the middleware has three ways out, decided by the URL and the
    file system alone: it hands the request on, untouched, exactly when the
    URL does not start with [/wasm/_framework/] or nothing exists at the
    path; it ends the response exactly when the path exists and can be
    read, with the bytes read; and when the path exists but
    [readFileSync] throws (a directory), the exception leaves the
    middleware: the request is neither answered nor handed on. *)
Theorem middleware_outcomes (req : Request) (res : Response) :
  let u := match url req with Some v => v | None => "" end in
  let filePath := join publicDir u in
  (middleware req res = Next req res
   <-> startsWith u "/wasm/_framework/" = false \/ existsSync filePath = false) /\
  (forall err,
     middleware req res = Threw err
     <-> startsWith u "/wasm/_framework/" = true /\ existsSync filePath = true
         /\ readFileSync filePath = Rejected err) /\
  (forall served content,
     middleware req res = Ended served content ->
     startsWith u "/wasm/_framework/" = true /\ existsSync filePath = true
     /\ readFileSync filePath = Fulfilled content) /\
  (forall req' res', middleware req res = Next req' res' -> req' = req /\ res' = res).
Proof.
  intros u filePath. unfold middleware. fold u. fold filePath.
  destruct (startsWith u "/wasm/_framework/");
    [destruct (existsSync filePath);
     [destruct (readFileSync filePath) as [content | err0] |] |].
  all: repeat split; intros; try discriminate; try tauto; try congruence.
  all: try (destruct H as [H | H]; discriminate H).
  all: try (destruct H as (? & ? & H); congruence).
  all: try (injection H as <- <-; auto).
Qed.

(** X22: a served response carries each of [Content-Type] (when the
    extension is known), [Cross-Origin-Opener-Policy] and
    [Cross-Origin-Embedder-Policy] once, in whatever case the incoming
    response had them already: the incoming value is replaced, also when it
    is asked for under another spelling of the name. A header of another
    name (names compared without regard to case) keeps its value, and for a
    URL with none of the three extensions [Content-Type] is left as it
    was. *)
Theorem served_headers_are_replaced (req : Request) (res served : Response)
  (content : list N) :
  let u := match url req with Some v => v | None => "" end in
  middleware req res = Ended served content ->
  countHeader "Cross-Origin-Opener-Policy" served = 1%nat /\
  countHeader "Cross-Origin-Embedder-Policy" served = 1%nat /\
  (endsWith u ".js" || endsWith u ".wasm" || endsWith u ".json" = true ->
   countHeader "Content-Type" served = 1%nat) /\
  (endsWith u ".js" || endsWith u ".wasm" || endsWith u ".json" = false ->
   getHeader "Content-Type" served = getHeader "Content-Type" res /\
   countHeader "Content-Type" served = countHeader "Content-Type" res) /\
  (forall name,
     (sameHeader name "Cross-Origin-Opener-Policy" = true ->
      getHeader name served = Some "same-origin" /\ countHeader name served = 1%nat) /\
     (sameHeader name "Cross-Origin-Embedder-Policy" = true ->
      getHeader name served = Some "require-corp" /\ countHeader name served = 1%nat) /\
     (sameHeader name "Content-Type" = true ->
      getHeader name served = getHeader "Content-Type" served /\
      countHeader name served = countHeader "Content-Type" served) /\
     (sameHeader name "Content-Type" = false ->
      sameHeader name "Cross-Origin-Opener-Policy" = false ->
      sameHeader name "Cross-Origin-Embedder-Policy" = false ->
      getHeader name served = getHeader name res /\
      countHeader name served = countHeader name res)).
Proof.
  intros u Hserved. unfold middleware in Hserved. fold u in Hserved.
  destruct (startsWith u "/wasm/_framework/"); [| discriminate Hserved].
  destruct (existsSync (join publicDir u)); [| discriminate Hserved].
  destruct (readFileSync (join publicDir u)) as [bytes | err]; [| discriminate Hserved].
  injection Hserved as <- _.
  assert (Hcoop : countHeader "Cross-Origin-Opener-Policy"
                    (setHeader "Cross-Origin-Embedder-Policy" "require-corp"
                       (setHeader "Cross-Origin-Opener-Policy" "same-origin"
                          (if endsWith u ".js"
                           then setHeader "Content-Type" "application/javascript" res
                           else if endsWith u ".wasm"
                                then setHeader "Content-Type" "application/wasm" res
                                else if endsWith u ".json"
                                     then setHeader "Content-Type" "application/json" res
                                     else res))) = 1%nat)
    by (rewrite countHeader_setHeader_other by reflexivity;
        apply countHeader_setHeader_same).
  split; [exact Hcoop |].
  split; [apply countHeader_setHeader_same |].
  split.
  { intros Hext. rewrite !countHeader_setHeader_other by reflexivity.
    destruct (endsWith u ".js"); [apply countHeader_setHeader_same |].
    destruct (endsWith u ".wasm"); [apply countHeader_setHeader_same |].
    destruct (endsWith u ".json"); [apply countHeader_setHeader_same |].
    discriminate Hext. }
  split.
  { intros Hext. rewrite !countHeader_setHeader_other, !getHeader_setHeader_other
      by reflexivity.
    destruct (endsWith u ".js"); [discriminate Hext |].
    destruct (endsWith u ".wasm"); [discriminate Hext |].
    destruct (endsWith u ".json"); [discriminate Hext |].
    split; reflexivity. }
  intros name. split; [| split; [| split]].
  - intros Hsame.
    rewrite (getHeader_sameHeader _ _ _ Hsame), (countHeader_sameHeader _ _ _ Hsame).
    split; [| exact Hcoop].
    rewrite getHeader_setHeader_other by reflexivity.
    apply getHeader_setHeader_same.
  - intros Hsame.
    rewrite (getHeader_sameHeader _ _ _ Hsame), (countHeader_sameHeader _ _ _ Hsame).
    split; [apply getHeader_setHeader_same | apply countHeader_setHeader_same].
  - intros Hsame.
    now rewrite (getHeader_sameHeader _ _ _ Hsame), (countHeader_sameHeader _ _ _ Hsame).
  - intros Hct Hcoop' Hcoep.
    rewrite !countHeader_setHeader_other, !getHeader_setHeader_other by assumption.
    destruct (endsWith u ".js");
      [rewrite countHeader_setHeader_other, getHeader_setHeader_other by assumption;
       split; reflexivity |].
    destruct (endsWith u ".wasm");
      [rewrite countHeader_setHeader_other, getHeader_setHeader_other by assumption;
       split; reflexivity |].
    destruct (endsWith u ".json");
      [rewrite countHeader_setHeader_other, getHeader_setHeader_other by assumption;
       split; reflexivity |].
    split; reflexivity.
Qed.

End WithNode.

(** The directory of the engine's files is asked for itself. *)
Lemma middleware_outcomes_witness :
  middleware (node := directoryNode) (mkRequest (Some "/wasm/_framework/"))
    (mkResponse [])
  = Threw directoryError.
Proof.
  apply (proj1 (proj2 (middleware_outcomes (node := directoryNode)
                         (mkRequest (Some "/wasm/_framework/")) (mkResponse [])))
           directoryError).
  repeat split.
Defined.

(** The engine's binary is served on a response that has the headers
    already, in lower case: each is there once with the new value, and
    [cache-control] is kept. *)
Lemma served_headers_are_replaced_witness :
  exists served content,
    middleware (node := sampleNode)
      (mkRequest (Some "/wasm/_framework/dotnet.native.wasm")) lowerCaseResponse
    = Ended served content /\
    countHeader "Cross-Origin-Opener-Policy" served = 1%nat /\
    countHeader "Content-Type" served = 1%nat /\
    getHeader "content-type" served = getHeader "Content-Type" served /\
    getHeader "Content-Type" served = Some "application/wasm" /\
    getHeader "cache-control" served = Some "no-cache".
Proof.
  eexists. eexists. split; [reflexivity |].
  destruct (served_headers_are_replaced (node := sampleNode)
              (mkRequest (Some "/wasm/_framework/dotnet.native.wasm"))
              lowerCaseResponse _ _ eq_refl)
    as (Hcoop & _ & Hcount & _ & Hname).
  split; [exact Hcoop |].
  split; [exact (Hcount eq_refl) |].
  split; [exact (proj1 (proj1 (proj2 (proj2 (Hname "content-type"))) eq_refl)) |].
  split; [reflexivity |].
  exact (proj1 (proj2 (proj2 (proj2 (Hname "cache-control"))) eq_refl eq_refl eq_refl)).
Defined.

End ViteConfigBehaviour.

(** ** The plugin that serves all of [/wasm/] *)

Module ViteConfigWasmDirBehaviour.
Import Js ViteConfig ViteConfigWasmDir.

Lemma indexOf_range (c : ascii) (s : string) :
  (indexOf c s = -1 \/ 0 <= indexOf c s < Z.of_nat (String.length s))%Z.
Proof.
  induction s as [| a rest IH]; cbn [indexOf String.length]; [now left |].
  destruct (Ascii.eqb a c); [right; lia |].
  destruct IH as [-> | IH]; [now left |].
  right. destruct (Z.ltb_spec (indexOf c rest) 0); lia.
Qed.

(** The needle right after a prefix without it is found at the prefix's
    length. *)
Lemma indexOf_after (c : ascii) (path rest : string) :
  indexOf c path = (-1)%Z ->
  indexOf c (String.append path (String c rest)) = Z.of_nat (String.length path).
Proof.
  induction path as [| a path IH]; cbn [indexOf String.append String.length].
  - intros _. now rewrite Ascii.eqb_refl.
  - destruct (Ascii.eqb a c); [discriminate |].
    destruct (indexOf_range c path) as [Hpath | Hpath].
    + intros _. rewrite (IH Hpath).
      destruct (Z.ltb_spec (Z.of_nat (String.length path)) 0); lia.
    + destruct (Z.ltb_spec (indexOf c path) 0); [lia | intros Habs; lia].
Qed.

Lemma substring_prefix (path rest : string) :
  String.substring 0 (String.length path) (String.append path rest) = path.
Proof.
  induction path as [| a path IH]; cbn.
  - now destruct rest.
  - now rewrite IH.
Qed.

Lemma stripQuery_cases (path query : string) :
  indexOf "?"%char path = (-1)%Z ->
  stripQuery path = path /\
  stripQuery (String.append path (String "?"%char query)) = path.
Proof.
  intros Hpath. unfold stripQuery. split.
  - now rewrite Hpath.
  - rewrite (indexOf_after _ _ _ Hpath).
    replace (-1 <? Z.of_nat (String.length path))%Z with true
      by (symmetry; apply Z.ltb_lt; lia).
    rewrite Nat2Z.id. apply substring_prefix.
Qed.

Section WithNode.
Context {node : Node}.

(** X23: this plugin ignores the query string: a request for
    [path?query] ends exactly like the request for [path] (the same bytes
    and headers sent, or handed on with the same response, or the same
    exception), whatever the query; the file looked up and the extension
    tested are those of [path]. *)
Theorem query_string_is_ignored (path query : string) (res : Response) :
  indexOf "?"%char path = (-1)%Z ->
  seen (middleware (mkRequest (Some (String.append path (String "?"%char query)))) res)
  = seen (middleware (mkRequest (Some path)) res).
Proof.
  intros Hpath. unfold middleware. cbn [url].
  destruct (stripQuery_cases path query Hpath) as [-> ->].
  destruct (startsWith path "/wasm/"); [| reflexivity].
  destruct (existsSync (join publicDir path)); [| reflexivity].
  now destruct (readFileSync (join publicDir path)).
Qed.

End WithNode.

(** The engine's binary with a cache-busting query. *)
Lemma query_string_is_ignored_witness :
  exists served,
    seen (middleware (node := sampleNode)
            (mkRequest (Some "/wasm/_framework/dotnet.native.wasm?v=3"))
            (mkResponse []))
    = Sent served [0%N; 97%N; 115%N; 109%N] /\
    getHeader "Content-Type" served = Some "application/wasm".
Proof.
  pose proof (query_string_is_ignored (node := sampleNode)
                "/wasm/_framework/dotnet.native.wasm" "v=3" (mkResponse []) eq_refl)
    as Hq.
  eexists. split; [etransitivity; [exact Hq | reflexivity] | reflexivity].
Defined.

End ViteConfigWasmDirBehaviour.
